(** * segmask: masking organelle segmentations against a cell model

    A shallow embedding of [segmask.py], the script that intersects per-slice
    organelle segmentations with the mask of a cell trace and reassembles the
    result as one IMOD model.

    The script is an orchestration of file-system operations, sub-processes of
    the IMOD tool chain and calls into [pyimod], [numpy] and [scipy.misc].
    Everything the script itself computes is written out below; what it
    delegates (the binaries it runs, the library routines whose code is not
    part of the script) is collected in the [Toolchain] interface and left
    uninterpreted. *)

From Stdlib Require Import ZArith QArith Ascii.
From stdpp Require Import gmap strings list sorting pretty.

Local Open Scope Z_scope.

(** ** Python values used by the script *)

Module Py.

(** Exceptions the embedded fragment can raise. *)
Inductive exn : Type :=
| IndexError
| ValueError
| TypeError
| NameError
| IOError
| OSError.

(** [int(x)] on a float: truncation towards zero.  Coordinates are finite
    floats, hence rationals. *)
Definition int_of_float (x : Q) : Z := Z.quot (Qnum x) (Zpos (Qden x)).

(** [str(n)], also what ['{}'.format(n)] yields for an integer. *)
Definition str (n : Z) : string := pretty n.

(** [int(s)] on a string without surrounding white space: an optional sign
    and a non-empty run of decimal digits, [ValueError] otherwise. *)
Fixpoint digits (acc : N) (s : string) : option N :=
  match s with
  | "" => Some acc
  | String c s' =>
      match Ascii.is_nat c with
      | Some d => digits (10 * acc + N.of_nat d)%N s'
      | None => None
      end
  end.

Definition unsigned (s : string) : option Z :=
  match s with
  | "" => None
  | _ => Z.of_N <$> digits 0%N s
  end.

Definition int (s : string) : option Z :=
  match s with
  | String "-"%char s' => Z.opp <$> unsigned s'
  | String "+"%char s' => unsigned s'
  | _ => unsigned s
  end.

(** [s.split()]: the maximal runs of non-blank characters. *)
Definition split (s : string) : list string := String.words s.

(** Iterating over an open text file: the lines, each with its newline. *)
Fixpoint lines_go (cur : string) (s : string) : list string :=
  match s with
  | "" => match cur with "" => [] | _ => [String.rev cur] end
  | String c s' =>
      if Ascii.eqb c "010"%char
      then String.rev (String c cur) :: lines_go "" s'
      else lines_go (String c cur) s'
  end.

Definition lines (s : string) : list string := lines_go "" s.

(** [l[i]] with Python's negative indices. *)
Definition index {A : Type} (l : list A) (i : Z) : exn + A :=
  let n := Z.of_nat (length l) in
  let j := if i <? 0 then i + n else i in
  if (0 <=? j) && (j <? n) then
    match l !! Z.to_nat j with
    | Some x => inr x
    | None => inl IndexError
    end
  else inl IndexError.

(** [s.zfill(w)]: zeros inserted after the sign up to width [w]. *)
Definition zeros (n : nat) : string := String.string_of_list_ascii (replicate n "0"%char).

Definition zfill (w : nat) (s : string) : string :=
  let pad := zeros (w - String.length s) in
  match s with
  | String "-"%char s' => String "-"%char (pad +:+ s')
  | String "+"%char s' => String "+"%char (pad +:+ s')
  | _ => pad +:+ s
  end.

(** [os.path.join(a, b)] (posixpath). *)
Definition ends_with_slash (a : string) : bool :=
  match String.rev a with
  | String "/"%char _ => true
  | _ => false
  end.

Definition path_join (a b : string) : string :=
  match b with
  | String "/"%char _ => b
  | _ => if bool_decide (a = "") || ends_with_slash a then a +:+ b
         else a +:+ "/" +:+ b
  end.

(** [sorted(l)] on byte strings: ascending in [String.leb]. *)
Fixpoint insert_sorted (x : string) (l : list string) : list string :=
  match l with
  | [] => [x]
  | y :: l' => if String.leb x y then x :: l else y :: insert_sorted x l'
  end.

Definition sorted (l : list string) : list string := foldr insert_sorted [] l.

(** [l[start::step]]: the element at [start] and every [step]-th after it.
    [countdown] is the number of elements still to skip. *)
Fixpoint every {A : Type} (step countdown : nat) (l : list A) : list A :=
  match l with
  | [] => []
  | x :: l' =>
      match countdown with
      | O => x :: every step (step - 1) l'
      | S c => every step c l'
      end
  end.

Definition slice_from_step {A : Type} (start step : nat) (l : list A) : list A :=
  every step start l.

(** [np.unique(l)]: the distinct values of [l] in ascending order. *)
Fixpoint unique_insert (x : Z) (l : list Z) : list Z :=
  match l with
  | [] => [x]
  | y :: l' =>
      if x <? y then x :: l
      else if x =? y then l
      else y :: unique_insert x l'
  end.

Definition np_unique (l : list Z) : list Z := foldr unique_insert [] l.

(** [a == k] on an array: the element-wise comparison, an array as long
    as [a]. *)
Definition np_eq_scalar (a : list Z) (k : Z) : list bool := map (Z.eqb k) a.

(** [max(set(a), key = list.count)].  [list.count] is the unbound method:
    applied to an element that is not a list it raises [TypeError]; on an
    empty set [max] raises [ValueError] before any key is computed. *)
Definition max_key_list_count (a : list Z) : exn + Z :=
  match a with
  | [] => inl ValueError
  | _ :: _ => inl TypeError
  end.

End Py.


(** ** Data model *)

(** A contour of [pyimod]: the flat list [x0, y0, z0, x1, y1, z1, ...]. *)
Record ImodContour : Type := { points : list Q }.

(** An object owns its contours; [nContours] is their number. *)
Record ImodObject : Type := { Contours : list ImodContour; obj_name : string; obj_color : string }.

Definition nContours (o : ImodObject) : Z := Z.of_nat (length (Contours o)).

Record ImodModel : Type := { Objects : list ImodObject }.

Definition nObjects (m : ImodModel) : Z := Z.of_nat (length (Objects m)).

(** A two-dimensional [numpy] array: its shape, its element type and its
    elements. *)
Inductive dtype : Type := bool_ | uint8.

Record ndarray : Type :=
  { shape0 : nat; shape1 : nat; arr_dtype : dtype; at_ : nat -> nat -> Z }.

(** What a path of the file system holds: a directory or the bytes of a
    regular file. *)
Inductive node : Type :=
| Dir
| File (data : string).

(** The options as [optparse] leaves them: an option given on the command
    line is the string typed, one not given is its default. *)
Inductive optval : Type :=
| Default (n : Z)
| Given (s : string).

Record Options : Type :=
  { color : option string;
    filterByNContours : optval;
    imodautor : optval;
    imodautok : optval;
    mergeAll : bool;
    name : option string;
    path_out : option string;
    runImodfillin : bool;
    runPostprocessing : bool;
    slicesToSkipCell : optval;
    slicesToSkipOrganelle : optval }.

(** Truth value of an option, its rendering by [format] and [int(...)]. *)
Definition truthy (v : optval) : bool :=
  match v with
  | Default n => negb (n =? 0)
  | Given s => negb (bool_decide (s = ""))
  end.

Definition truthy_str (v : option string) : bool :=
  match v with
  | None => false
  | Some s => negb (bool_decide (s = ""))
  end.

Definition fmt (v : optval) : string :=
  match v with
  | Default n => Py.str n
  | Given s => s
  end.

Definition int_of_optval (v : optval) : option Z :=
  match v with
  | Default n => Some n
  | Given s => match Py.split s with [t] => Py.int t | _ => None end
  end.

(** ** The world the script runs in *)

Record World : Type :=
  { fs : gmap string node;
    cwd : string;
    stdout : list string }.

Inductive outcome (A : Type) : Type :=
| Returned (a : A)
| Exited (code : Z)
| Raised (e : Py.exn).
Arguments Returned {A} a.
Arguments Exited {A} code.
Arguments Raised {A} e.

(** A statement: from a world to an outcome and the world it leaves. *)
Definition M (A : Type) : Type := World -> outcome A * World.

#[global] Instance M_ret : MRet M := fun A a w => (Returned a, w).
#[global] Instance M_bind : MBind M := fun A B f c w =>
  match c w with
  | (Returned a, w') => f a w'
  | (Exited code, w') => (Exited code, w')
  | (Raised e, w') => (Raised e, w')
  end.

Definition raise {A : Type} (e : Py.exn) : M A := fun w => (Raised e, w).
Definition exit {A : Type} (code : Z) : M A := fun w => (Exited code, w).

Definition lift {A : Type} (r : Py.exn + A) : M A :=
  match r with
  | inl e => raise e
  | inr a => mret a
  end.

Definition lift_opt {A : Type} (e : Py.exn) (r : option A) : M A :=
  match r with
  | None => raise e
  | Some a => mret a
  end.

(** [print s] *)
Definition print (s : string) : M unit := fun w =>
  (Returned tt, {| fs := fs w; cwd := cwd w; stdout := stdout w ++ [s] |}).

(** A [for] loop threading the variables it assigns. *)
Fixpoint for_ {A S : Type} (l : list A) (body : S -> A -> M S) (s : S) : M S :=
  match l with
  | [] => mret s
  | x :: l' => s' ← body s x; for_ l' body s'
  end.

(** ** [get_z_from_ImodContour] *)

Definition get_z_from_ImodContour (cont : ImodContour) : M Z :=
  let cont_u := Py.np_unique (map Py.int_of_float (Py.slice_from_step 2 3 (points cont))) in
  uq ← (if negb (length (Py.np_eq_scalar cont_u 1) =? 0)%nat then
          lift (Py.index cont_u 0)
        else
          uq ← lift (Py.max_key_list_count cont_u);
          print "WARNING: Contour has more than one Z value. Selecting the most common Z value.";;
          mret uq);
  mret uq.

(** ** What the script delegates *)

(** The programs run through [subprocess.call] and the routines of [optparse],
    [glob], [scipy.misc] and [pyimod] the script calls.  Their code is not the
    script's; they are left uninterpreted.  [ImodCmd] and the model methods
    act on the model in memory and on no file, as the specification has it
    ("each step operating on the in-memory model object returned by the
    previous"): the code of [pyimod] is not among the sources. *)
Class Toolchain : Type :=
  { help_text : string;
    repr : string -> string;
    call : list string -> gmap string node -> gmap string node;
    glob : gmap string node -> string -> list string;
    imread_decode : string -> option ndarray;
    imsave_encode : ndarray -> string;
    imresize : ndarray -> Z -> Z -> ndarray;
    ImodModel_parse : string -> option ImodModel;
    ImodWrite_bytes : ImodModel -> string;
    get_dims : string -> option (Z * Z * Z);
    ImodCmd : ImodModel -> string -> ImodModel;
    removeSmallContours : ImodModel -> ImodModel;
    sortContours : ImodObject -> ImodObject;
    moveObjects : ImodModel -> Z -> string -> ImodModel;
    setAll_color : ImodModel -> string -> ImodModel;
    setAll_name : ImodModel -> string -> ImodModel }.

(** ** [numpy] operations *)

(** Broadcasting of one axis: equal lengths, or one of them is 1. *)
Definition broadcast (a b : nat) : option nat :=
  if (a =? b)%nat then Some a
  else if (a =? 1)%nat then Some b
  else if (b =? 1)%nat then Some a
  else None.

Definition along (len i : nat) : nat := if (len =? 1)%nat then 0%nat else i.

Definition nonzero (v : Z) : bool := negb (v =? 0).

(** [np.logical_and(a, b)] *)
Definition logical_and (a b : ndarray) : Py.exn + ndarray :=
  match broadcast (shape0 a) (shape0 b), broadcast (shape1 a) (shape1 b) with
  | Some r, Some c =>
      inr {| shape0 := r; shape1 := c; arr_dtype := bool_;
             at_ := fun i j =>
               Z.b2z (nonzero (at_ a (along (shape0 a) i) (along (shape1 a) j)) &&
                      nonzero (at_ b (along (shape0 b) i) (along (shape1 b) j))) |}
  | _, _ => inl Py.ValueError
  end.

(** [a.astype(t)]: a new array, [a] itself is left as it is. *)
Definition astype (a : ndarray) (t : dtype) : ndarray :=
  {| shape0 := shape0 a; shape1 := shape1 a; arr_dtype := t;
     at_ := match t with
            | bool_ => fun i j => Z.b2z (nonzero (at_ a i j))
            | uint8 => fun i j => at_ a i j mod 256
            end |}.

(** ** File system and environment *)

Definition with_fs (w : World) (f : gmap string node) : World :=
  {| fs := f; cwd := cwd w; stdout := stdout w |}.

Definition isfile (p : string) : M bool := fun w =>
  (Returned match fs w !! p with Some (File _) => true | _ => false end, w).

Definition isdir (p : string) : M bool := fun w =>
  (Returned match fs w !! p with Some Dir => true | _ => false end, w).

Definition getcwd : M string := fun w => (Returned (cwd w), w).

(** [os.makedirs(p)]: the parent is known to exist where the script calls it. *)
Definition makedirs (p : string) : M unit := fun w =>
  match fs w !! p with
  | Some _ => (Raised Py.OSError, w)
  | None => (Returned tt, with_fs w (<[p := Dir]> (fs w)))
  end.

(** [os.remove(p)] *)
Definition remove (p : string) : M unit := fun w =>
  match fs w !! p with
  | Some (File _) => (Returned tt, with_fs w (delete p (fs w)))
  | _ => (Raised Py.OSError, w)
  end.

(** [os.stat(p).st_size], asked of regular files only. *)
Definition st_size (p : string) : M Z := fun w =>
  match fs w !! p with
  | Some (File data) => (Returned (Z.of_nat (String.length data)), w)
  | _ => (Raised Py.OSError, w)
  end.

(** Reading a whole file. *)
Definition read_file (p : string) : M string := fun w =>
  match fs w !! p with
  | Some (File data) => (Returned data, w)
  | _ => (Raised Py.IOError, w)
  end.

(** Writing a whole file. *)
Definition write_file (p data : string) : M unit := fun w =>
  match fs w !! p with
  | Some Dir => (Raised Py.IOError, w)
  | _ => (Returned tt, with_fs w (<[p := File data]> (fs w)))
  end.

(** [open(p, 'a+')]: the file is created when it is not there. *)
Definition open_append (p : string) : M unit := fun w =>
  match fs w !! p with
  | Some Dir => (Raised Py.IOError, w)
  | Some (File _) => (Returned tt, w)
  | None => (Returned tt, with_fs w (<[p := File ""]> (fs w)))
  end.

(** [outfile.write(s)] on a file opened for appending. *)
Definition write_append (p s : string) : M unit := fun w =>
  match fs w !! p with
  | Some (File data) => (Returned tt, with_fs w (<[p := File (data +:+ s)]> (fs w)))
  | _ => (Raised Py.IOError, w)
  end.

(** [', '.join(l)] between brackets: how [print] shows a list. *)
Fixpoint join (sep : string) (l : list string) : string :=
  match l with
  | [] => ""
  | [x] => x
  | x :: l' => x +:+ sep +:+ join sep l'
  end.

Definition show_list (items : list string) : string := "[" +:+ join ", " items +:+ "]".

(** ** [pyimod] methods the specification describes *)

Module pyimod.

(** Modelled from the spec: [ImodModel.filterByNContours(compStr, nCont)]
    belongs to the [pyimod] package, whose code is not among the sources.
    The specification describes the one call the script makes, with ['>']:
    the objects whose contour count exceeds the threshold are retained, in
    order and as they are, the others are removed.  Other comparison
    strings are not described. *)
Definition filterByNContours (compStr : string) (nCont : Z) (m : ImodModel)
  : option ImodModel :=
  if bool_decide (compStr = ">") then
    Some {| Objects := filter (fun o => nCont < nContours o) (Objects m) |}
  else None.

End pyimod.

(** ** The script *)

Section Script.
Context `{Toolchain}.

(** [call(cmd.split())]; the exit status is not looked at. *)
Definition subprocess_call (argv : list string) : M unit := fun w =>
  (Returned tt, with_fs w (call argv (fs w))).

Definition ImodModel_load (p : string) : M ImodModel :=
  data ← read_file p;
  lift_opt Py.IOError (ImodModel_parse data).

Definition ImodWrite (m : ImodModel) (p : string) : M unit :=
  write_file p (ImodWrite_bytes m).

Definition imread (p : string) : M ndarray :=
  data ← read_file p;
  lift_opt Py.IOError (imread_decode data).

Definition imsave (p : string) (a : ndarray) : M unit :=
  write_file p (imsave_encode a).

Definition usage {A : Type} (errstr : string) : M A :=
  print "";;
  print help_text;;
  print "";;
  print ("ERROR: " +:+ errstr);;
  print "";;
  exit 1.

Definition when (b : bool) (c : M unit) : M unit := if b then c else mret tt.

Definition check_args (args : list string) : M (string * string * string) :=
  when (negb (length args =? 3)%nat) (usage "Improper number of arguments.");;
  file_mrc ← lift (Py.index args 0);
  file_mod ← lift (Py.index args 1);
  path_seg ← lift (Py.index args 2);
  b ← isfile file_mrc;
  when (negb b) (usage (file_mrc +:+ " is not a valid file."));;
  b ← isfile file_mod;
  when (negb b) (usage (file_mod +:+ " is not a valid file."));;
  b ← isdir path_seg;
  when (negb b) (usage ("The path " +:+ path_seg +:+ " does not exist"));;
  mret (file_mrc, file_mod, path_seg).

(** Lines 146-159: the output directory and its [tmp]. *)
Definition output_dirs (opts : Options) : M (string * string) :=
  path_out ← (if truthy_str (path_out opts) then mret (default "" (path_out opts))
              else getcwd);
  b ← isdir path_out;
  when (negb b) (usage ("The output path " +:+ path_out +:+ " does not exist."));;
  let path_tmp := Py.path_join path_out "tmp" in
  b ← isdir path_tmp;
  when b (usage ("There is already a folder with the name tmp in the output path "
                 +:+ path_out));;
  makedirs path_tmp;;
  mret (path_out, path_tmp).

Definition object0 (m : ImodModel) : M ImodObject := lift (Py.index (Objects m) 0).

Definition print_nContours (label : string) (m : ImodModel) : M unit :=
  o ← object0 m;
  print (label +:+ Py.str (nContours o)).

(** Lines 161-184: loading, filling in, pruning and sorting the cell. *)
Definition load_cell (opts : Options) (file_mod : string) : M ImodModel :=
  print ("Loading IMOD model file " +:+ file_mod);;
  mdl ← ImodModel_load file_mod;
  mdl ← (if runImodfillin opts then
           print "Running imodmesh/imodfillin...";;
           print_nContours "# Contours before: " mdl;;
           let mdl := ImodCmd mdl "imodmesh -e" in
           let mdl := ImodCmd mdl ("imodmesh -CTs -P " +:+ fmt (slicesToSkipCell opts)) in
           let mdl := ImodCmd mdl "imodfillin -e" in
           print_nContours "# Contours after: " mdl;;
           mret mdl
         else mret mdl);
  print "Removing small contours and reordering...";;
  print_nContours "# Contours before: " mdl;;
  let mdl := removeSmallContours mdl in
  o ← object0 mdl;
  let mdl := {| Objects := <[0%nat := sortContours o]> (Objects mdl) |} in
  print_nContours "# Contours after: " mdl;;
  mret mdl.

(** Lines 194-202: one turn of the loop that builds [zlist]. *)
Definition zlist_step (mdl : ImodModel) (st : Z * list Z) (iCont : Z) : M (Z * list Z) :=
  let '(zprev, zlist) := st in
  o ← object0 mdl;
  cont ← lift (Py.index (Contours o) iCont);
  zi ← get_z_from_ImodContour cont;
  print ("Contour: " +:+ Py.str (iCont + 1) +:+ ", Z: " +:+ Py.str zi);;
  when (negb (iCont =? 0) && negb (zi =? zprev + 1)) (print "WARNING: Missing contour");;
  mret (zi, zlist ++ [zi]).

Definition range (n : Z) : list Z := Z.of_nat <$> seq 0 (Z.to_nat n).

(** Lines 186-203 *)
Definition build_zlist (mdl : ImodModel) : M (list Z) :=
  o ← object0 mdl;
  c ← lift (Py.index (Contours o) 0);
  zmin ← get_z_from_ImodContour c;
  o ← object0 mdl;
  c ← lift (Py.index (Contours o) (-1));
  zmax ← get_z_from_ImodContour c;
  print ("Z min: " +:+ Py.str zmin);;
  print ("Z max: " +:+ Py.str zmax);;
  o ← object0 mdl;
  st ← for_ (range (nContours o)) (zlist_step mdl) (zmin, []);
  print (show_list (Py.str <$> st.2));;
  mret st.2.

(** Lines 241-246 *)
Definition resize_images (imgCell imgOrg : ndarray) (nRowMrc nColMrc : Z)
  : ndarray * ndarray :=
  let imgCell :=
    if negb (Z.of_nat (shape0 imgCell) =? nRowMrc) || negb (Z.of_nat (shape1 imgCell) =? nColMrc)
    then imresize imgOrg nRowMrc nColMrc
    else imgCell in
  let imgOrg :=
    if negb (Z.of_nat (shape0 imgOrg) =? nRowMrc) || negb (Z.of_nat (shape1 imgOrg) =? nColMrc)
    then imresize imgOrg nRowMrc nColMrc
    else imgOrg in
  (imgCell, imgOrg).

(** Lines 235-251: reading the two images, intersecting them, saving. *)
Definition intersect_slice (file_tmp : string) (filesOrg : list string)
    (zi nRowMrc nColMrc : Z) : M unit :=
  imgCell ← imread (file_tmp +:+ ".tif");
  fileOrg ← lift (Py.index filesOrg (zi - 1));
  imgOrg ← imread fileOrg;
  let '(imgCell, imgOrg) := resize_images imgCell imgOrg nRowMrc nColMrc in
  imgMask ← lift (logical_and imgCell imgOrg);
  let _ := astype imgMask uint8 in
  imsave (file_tmp +:+ ".tif") imgMask.

Definition run (cmd : string) : M unit :=
  print cmd;;
  subprocess_call (Py.split cmd).

(** Lines 222-233: the mask of the cell on slice [zi] as a TIF. *)
Definition render_mask (file_cell file_mrc file_tmp : string) (zi : Z) : M unit :=
  run ("imodmop -mask 1 -zminmax " +:+ Py.str zi +:+ "," +:+ Py.str zi +:+ " "
         +:+ file_cell +:+ " " +:+ file_mrc +:+ " " +:+ file_tmp +:+ ".mrc");;
  run ("mrc2tif " +:+ file_tmp +:+ ".mrc" +:+ " " +:+ file_tmp +:+ ".tif");;
  remove (file_tmp +:+ ".mrc").

(** Lines 253-275: contours of the intersection, as a point listing. *)
Definition trace_slice (opts : Options) (file_tmp : string) (zi : Z) : M unit :=
  let iastr := "-E 255 -u -R " +:+ fmt (imodautor opts) in
  let iastr := if truthy (imodautok opts) then iastr +:+ " -k " +:+ fmt (imodautok opts)
               else iastr in
  run ("imodauto " +:+ iastr +:+ " " +:+ file_tmp +:+ ".tif" +:+ " " +:+ file_tmp +:+ ".mod");;
  remove (file_tmp +:+ ".tif");;
  subprocess_call (Py.split ("imodtrans -tz " +:+ Py.str (zi - 1) +:+ " "
                               +:+ file_tmp +:+ ".mod" +:+ " " +:+ file_tmp +:+ ".mod"));;
  remove (file_tmp +:+ ".mod~");;
  run ("model2point -object " +:+ file_tmp +:+ ".mod" +:+ " " +:+ file_tmp +:+ ".txt");;
  remove (file_tmp +:+ ".mod").

(** Lines 286-290: one line of the listing, renumbered and appended. *)
Definition append_line (file_out : string) (C : Z) (_ : unit) (line : string) : M unit :=
  let lsplit := Py.split line in
  f ← lift (Py.index lsplit 1);
  c ← lift_opt Py.ValueError (Py.int f);
  x ← lift (Py.index lsplit 2);
  y ← lift (Py.index lsplit 3);
  z ← lift (Py.index lsplit 4);
  let newline := "1 " +:+ Py.str (c + C) +:+ " " +:+ x +:+ " " +:+ y +:+ " " +:+ z +:+ "
" in
  write_append (file_out +:+ ".txt") newline.

(** Lines 279-291: the listing of the slice joins the accumulated one;
    the value is the new [C]. *)
Definition accumulate (file_tmp file_out : string) (C : Z) : M Z :=
  size ← st_size (file_tmp +:+ ".txt");
  if negb (size =? 0) then
    data ← read_file (file_tmp +:+ ".txt");
    lastline ← lift (Py.index (Py.lines data) (-1));
    f ← lift (Py.index (Py.split lastline) 1);
    ncont ← lift_opt Py.ValueError (Py.int f);
    open_append (file_out +:+ ".txt");;
    data ← read_file (file_tmp +:+ ".txt");
    for_ (Py.lines data) (append_line file_out C) tt;;
    mret (C + ncont)
  else mret C.

(** Lines 277-292.  The variables assigned are [file_out] and [C]. *)
Definition append_listing (path_tmp file_tmp : string) (C : Z) : M (string * Z) :=
  let file_out := Py.path_join path_tmp "out" in
  C ← accumulate file_tmp file_out C;
  remove (file_tmp +:+ ".txt");;
  mret (file_out, C).

(** Lines 222-275: from the slice number to the point listing of the
    masked slice, in [file_tmp + '.txt']. *)
Definition make_listing (opts : Options) (path_tmp file_cell file_mrc : string)
    (filesOrg : list string) (nRowMrc nColMrc : Z) (zi : Z) : M string :=
  print ("Processing Z = " +:+ Py.str zi);;
  let file_tmp := Py.path_join path_tmp (Py.zfill 4 (Py.str zi)) in
  render_mask file_cell file_mrc file_tmp zi;;
  intersect_slice file_tmp filesOrg zi nRowMrc nColMrc;;
  trace_slice opts file_tmp zi;;
  mret file_tmp.

(** Lines 221-292: the body of the loop over [zlist].  The state is [C]
    and [file_out], the latter unbound until the first turn. *)
Definition process_slice (opts : Options) (path_tmp file_cell file_mrc : string)
    (filesOrg : list string) (nRowMrc nColMrc : Z)
    (st : Z * option string) (zi : Z) : M (Z * option string) :=
  file_tmp ← make_listing opts path_tmp file_cell file_mrc filesOrg nRowMrc nColMrc zi;
  '(file_out, C) ← append_listing path_tmp file_tmp st.1;
  mret (C, Some file_out).

(** Lines 295-299 *)
Definition assemble (file_mrc file_out : string) : M unit :=
  run ("point2model -image " +:+ file_mrc +:+ " " +:+ file_out +:+ ".txt" +:+ " "
         +:+ file_out +:+ ".mod").

(** Lines 315-317 *)
Definition filter_objects (opts : Options) (mdl : ImodModel) : M ImodModel :=
  if truthy (filterByNContours opts) then
    n ← lift_opt Py.ValueError (int_of_optval (filterByNContours opts));
    lift_opt Py.ValueError (pyimod.filterByNContours ">" n mdl)
  else mret mdl.

(** Lines 302-335 *)
Definition postprocess (opts : Options) (file_out : string) : M unit :=
  mdl ← ImodModel_load (file_out +:+ ".mod");
  let mdl := ImodCmd mdl "imodmesh -e" in
  let mdl := ImodCmd mdl ("imodmesh -CTs -P " +:+ fmt (slicesToSkipOrganelle opts)) in
  let mdl := ImodCmd mdl "imodsortsurf -s" in
  mdl ← filter_objects opts mdl;
  let mdl := if mergeAll opts then moveObjects mdl 1 ("2-" +:+ Py.str (nObjects mdl))
             else mdl in
  let mdl := ImodCmd mdl "imodmesh -e" in
  let mdl := ImodCmd mdl ("imodmesh -CTs -P " +:+ fmt (slicesToSkipOrganelle opts)) in
  let mdl := if truthy_str (color opts) then setAll_color mdl (default "" (color opts))
             else mdl in
  let mdl := if truthy_str (name opts) then setAll_name mdl (default "" (name opts))
             else mdl in
  ImodWrite mdl (file_out +:+ "_postprocessed.mod").

Definition list_segmentations (path_seg : string) : M (list string) := fun w =>
  (Returned (Py.sorted (glob (fs w) (Py.path_join path_seg "*"))), w).

Definition read_dims (file_mrc : string) : M (Z * Z * Z) :=
  data ← read_file file_mrc;
  lift_opt Py.IOError (get_dims data).

(** The script, from the parsed command line on. *)
Definition main (opts : Options) (args : list string) : M unit :=
  '(file_mrc, file_mod, path_seg) ← check_args args;
  '(path_out, path_tmp) ← output_dirs opts;
  mdl ← load_cell opts file_mod;
  zlist ← build_zlist mdl;
  '(nColMrc, nRowMrc, nslices) ← read_dims file_mrc;
  filesOrg ← list_segmentations path_seg;
  print (show_list (repr <$> filesOrg));;
  let file_cell := Py.path_join path_tmp "cell.mod" in
  ImodWrite mdl file_cell;;
  st ← for_ zlist (process_slice opts path_tmp file_cell file_mrc filesOrg nRowMrc nColMrc)
          (0, None);
  remove file_cell;;
  file_out ← lift_opt Py.NameError st.2;
  assemble file_mrc file_out;;
  when (runPostprocessing opts) (postprocess opts file_out).

End Script.

(** * Vocabulary of the properties *)

(** The Z coordinates of a contour, as the function reads them. *)
Definition z_values (cont : ImodContour) : list Z :=
  map Py.int_of_float (Py.slice_from_step 2 3 (points cont)).

(** Number of points of the contour at Z value [v]. *)
Definition multiplicity (cont : ImodContour) (v : Z) : nat :=
  length (filter (fun x => x = v) (z_values cont)).

Definition contour_of (pts : list (Z * Z * Z)) : ImodContour :=
  {| points := pts ≫= fun '(x, y, z) => [inject_Z x; inject_Z y; inject_Z z] |}.

Definition mixed_contour : ImodContour := contour_of [(0, 0, 5); (1, 1, 7); (2, 2, 7)].

(** The world after some more lines were printed. *)
Definition say (w : World) (ls : list string) : World :=
  {| fs := fs w; cwd := cwd w; stdout := stdout w ++ ls |}.

(** [returns cont z]: the Z value of [cont] is [z], obtained silently. *)
Definition returns (cont : ImodContour) (z : Z) : Prop :=
  forall w, get_z_from_ImodContour cont w = (Returned z, w).

Definition contour_line (i : nat) (z : Z) : string :=
  "Contour: " +:+ Py.str (Z.of_nat i + 1) +:+ ", Z: " +:+ Py.str z.

Definition missing_warning : string := "WARNING: Missing contour".

(** Position [i] of [zs] is a gap: it is not the first and its value is not
    the previous one plus 1. *)
Definition gap_at (zs : list Z) (i : nat) : bool :=
  match i with
  | O => false
  | S j =>
      match zs !! j, zs !! i with
      | Some zprev, Some zi => negb (zi =? zprev + 1)
      | _, _ => false
      end
  end.

(** What the loop prints for position [i]. *)
Definition zlist_row (zs : list Z) (i : nat) (z : Z) : list string :=
  contour_line i z :: (if gap_at zs i then [missing_warning] else []).

Definition cell_124 : ImodModel :=
  {| Objects :=
       [ {| Contours := [ contour_of [(0, 0, 1); (5, 0, 1); (5, 5, 1)];
                          contour_of [(0, 0, 2); (5, 0, 2); (5, 5, 2)];
                          contour_of [(0, 0, 4); (5, 0, 4); (5, 5, 4)] ];
            obj_name := "cell"; obj_color := "0,1,0" |} ] |}.

Definition world0 : World := {| fs := ∅; cwd := "/"; stdout := [] |}.

(** * A toy tool chain

    A small instance of [Toolchain] on which the script runs from end to
    end: rasters are rows of the characters 0 and 1 separated by a slash,
    the binaries create the files the script expects of them. *)

Module Demo.

Fixpoint fields_go (sep : ascii) (cur : string) (s : string) : list string :=
  match s with
  | "" => [String.rev cur]
  | String c s' =>
      if Ascii.eqb c sep then String.rev cur :: fields_go sep "" s'
      else fields_go sep (String c cur) s'
  end.

Definition rows (s : string) : list (list Z) :=
  (fun r => (fun c => if Ascii.eqb c "1"%char then 255 else 0)
              <$> String.list_ascii_of_string r) <$> fields_go "/"%char "" s.

Definition raster (rs : list (list Z)) : ndarray :=
  {| shape0 := length rs; shape1 := length (default [] (head rs)); arr_dtype := uint8;
     at_ := fun i j => default 0 (rs !! i ≫= fun r => r !! j) |}.

Definition decode (s : string) : option ndarray := Some (raster (rows s)).

Definition encode (a : ndarray) : string :=
  join "/" ((fun i => String.string_of_list_ascii
                        ((fun j => if nonzero (at_ a i j) then "1"%char else "0"%char)
                           <$> seq 0 (shape1 a)))
              <$> seq 0 (shape0 a)).

(** Nearest-neighbour resampling to [r] rows and [c] columns. *)
Definition resize (a : ndarray) (r c : Z) : ndarray :=
  {| shape0 := Z.to_nat r; shape1 := Z.to_nat c; arr_dtype := uint8;
     at_ := fun i j => at_ a (i * shape0 a / Z.to_nat r)%nat (j * shape1 a / Z.to_nat c)%nat |}.

Definition has_one (s : string) : bool :=
  bool_decide ("1"%char ∈ String.list_ascii_of_string s).

Definition file_data (f : gmap string node) (p : string) : string :=
  match f !! p with
  | Some (File data) => data
  | _ => ""
  end.

Definition listing : string := "1 1 1.00 1.00 0
1 1 2.00 1.00 0
1 2 3.00 3.00 0
".

(** The binaries: each writes its last argument. *)
Definition exec (argv : list string) (f : gmap string node) : gmap string node :=
  match argv with
  | "imodmop" :: rest =>
      match last rest with Some out => <[out := File "slice"]> f | None => f end
  | ["mrc2tif"; a; b] => <[b := File "1110/0110/0000"]> f
  | "imodauto" :: rest =>
      match rest !! 5%nat, rest !! 6%nat with
      | Some a, Some b => <[b := File (file_data f a)]> f
      | _, _ => f
      end
  | ["imodtrans"; "-tz"; n; a; b] => <[b +:+ "~" := File (file_data f a)]> f
  | ["model2point"; "-object"; a; b] =>
      <[b := File (if has_one (file_data f a) then listing else "")]> f
  | "point2model" :: rest =>
      match last rest with Some out => <[out := File "assembled"]> f | None => f end
  | _ => f
  end.

Definition object_of (n : nat) : ImodObject :=
  {| Contours := replicate n {| points := [] |}; obj_name := ""; obj_color := "" |}.

Definition cell : ImodModel :=
  {| Objects :=
       [ {| Contours := [ contour_of [(0, 0, 1); (5, 0, 1); (5, 5, 1)];
                          contour_of [(0, 0, 2); (5, 0, 2); (5, 5, 2)];
                          contour_of [(0, 0, 4); (5, 0, 4); (5, 5, 4)] ];
            obj_name := "cell"; obj_color := "0,1,0" |} ] |}.

Definition assembled : ImodModel :=
  {| Objects := [object_of 3; object_of 1; object_of 2; object_of 5] |}.

Definition parse (s : string) : option ImodModel :=
  if bool_decide (s = "cell") then Some cell
  else if bool_decide (s = "assembled") then Some assembled
  else None.

Definition unparse (m : ImodModel) : string :=
  "objects " +:+ join "," ((fun o => Py.str (nContours o)) <$> Objects m).

Definition matches (f : gmap string node) (pattern : string) : list string :=
  let dir := String.substring 0 (String.length pattern - 1) pattern in
  filter (fun p => String.prefix dir p = true /\ p <> dir) (map_to_list f).*1.

Definition merge (m : ImodModel) : ImodModel :=
  {| Objects := [ {| Contours := Objects m ≫= Contours; obj_name := ""; obj_color := "" |} ] |}.

Definition recolor (m : ImodModel) (c : string) : ImodModel :=
  {| Objects := (fun o => {| Contours := Contours o; obj_name := obj_name o; obj_color := c |})
                  <$> Objects m |}.

Definition rename (m : ImodModel) (n : string) : ImodModel :=
  {| Objects := (fun o => {| Contours := Contours o; obj_name := n; obj_color := obj_color o |})
                  <$> Objects m |}.

#[export] Instance toolchain : Toolchain :=
  {| help_text := "Usage: segmask.py [options] file.mrc file.mod path_seg";
     repr := fun s => "'" +:+ s +:+ "'";
     call := exec;
     glob := matches;
     imread_decode := decode;
     imsave_encode := encode;
     imresize := resize;
     ImodModel_parse := parse;
     ImodWrite_bytes := unparse;
     get_dims := fun s => if bool_decide (s = "volume") then Some (4, 3, 5) else None;
     ImodCmd := fun m _ => m;
     removeSmallContours := fun m => m;
     sortContours := fun o => o;
     moveObjects := fun m _ _ => merge m;
     setAll_color := recolor;
     setAll_name := rename |}.

Definition files : gmap string node :=
  list_to_map
    [ ("/data", Dir); ("/data/vol.mrc", File "volume"); ("/data/cell.mod", File "cell");
      ("/data/seg", Dir);
      ("/data/seg/s1.tif", File "1100/0110/0011");
      ("/data/seg/s2.tif", File "0000/0000/0000");
      ("/data/seg/s3.tif", File "1111/1111/1111");
      ("/data/seg/s4.tif", File "0110/0110/0110");
      ("/data/out", Dir) ].

Definition world : World := {| fs := files; cwd := "/data"; stdout := [] |}.

Definition options : Options :=
  {| color := None; filterByNContours := Default 0; imodautor := Default 0;
     imodautok := Default 0; mergeAll := false; name := None;
     path_out := Some "/data/out"; runImodfillin := false; runPostprocessing := false;
     slicesToSkipCell := Default 10; slicesToSkipOrganelle := Default 4 |}.

Definition arguments : list string := ["/data/vol.mrc"; "/data/cell.mod"; "/data/seg"].

(** The world as the loop over the slices finds it. *)
Definition loop_world : World :=
  {| fs := <["/data/out/tmp/cell.mod" := File "objects 3"]> (<["/data/out/tmp" := Dir]> files);
     cwd := "/data"; stdout := [] |}.

(** The world once [point2model] has run. *)
Definition assembled_world : World :=
  {| fs := <["/data/out/tmp/out.mod" := File "assembled"]> (<["/data/out/tmp" := Dir]> files);
     cwd := "/data"; stdout := [] |}.

Definition postprocessing_options : Options :=
  {| color := Some "1,0,0"; filterByNContours := Given "2"; imodautor := Default 0;
     imodautok := Default 0; mergeAll := false; name := Some "mito";
     path_out := Some "/data/out"; runImodfillin := false; runPostprocessing := true;
     slicesToSkipCell := Default 10; slicesToSkipOrganelle := Default 4 |}.

Definition segmentations : list string :=
  ["/data/seg/s1.tif"; "/data/seg/s2.tif"; "/data/seg/s3.tif"; "/data/seg/s4.tif"].

End Demo.

(** * Rasters *)

(** [a] has the volume's rows and columns. *)
Definition native (nRowMrc nColMrc : Z) (a : ndarray) : Prop :=
  Z.of_nat (shape0 a) = nRowMrc /\ Z.of_nat (shape1 a) = nColMrc.

(** The test of lines 242 and 245. *)
Definition differs (nRowMrc nColMrc : Z) (a : ndarray) : bool :=
  negb (Z.of_nat (shape0 a) =? nRowMrc) || negb (Z.of_nat (shape1 a) =? nColMrc).

(** [m] is the element-wise logical AND of [a] and [b]. *)
Definition pointwise_and (m a b : ndarray) : Prop :=
  forall i j, (i < shape0 m)%nat -> (j < shape1 m)%nat ->
    at_ m i j = Z.b2z (nonzero (at_ a i j) && nonzero (at_ b i j)).

(** The file system with the file at [p] set to [data]. *)
Definition written (w : World) (p data : string) : World :=
  with_fs w (<[p := File data]> (fs w)).


(** A world where neither image has the volume's shape of 3 rows and 4
    columns. *)
Definition mismatch_world : World :=
  {| fs := list_to_map [ ("/tmp/0001.tif", File "10/01");
                         ("/seg/a.tif", File "111/000") ];
     cwd := "/"; stdout := [] |}.

(** * Point listings *)

(** The bytes of the regular file at [p], none when there is no such file. *)
Definition text_at (f : gmap string node) (p : string) : string :=
  match f !! p with
  | Some (File data) => data
  | _ => ""
  end.

Definition concat_str (l : list string) : string := foldr String.append "" l.

(** The fields of a line of a point listing: object, contour, x, y, z. *)
Definition object_field (line : string) : option string := Py.split line !! 0%nat.

Definition contour_index (line : string) : option Z := Py.split line !! 1%nat ≫= Py.int.

(** The number of contours a listing contributes: the contour index on its
    last line, nothing for an empty listing. *)
Definition listing_count (data : string) : option Z :=
  if bool_decide (data = "") then Some 0
  else last (Py.lines data) ≫= contour_index.

(** The line written for [line] under the offset [C] (lines 287-289). *)
Definition new_line (C : Z) (line : string) : Py.exn + string :=
  let lsplit := Py.split line in
  match lsplit !! 1%nat with
  | None => inl Py.IndexError
  | Some f =>
      match Py.int f with
      | None => inl Py.ValueError
      | Some c =>
          match lsplit !! 2%nat, lsplit !! 3%nat, lsplit !! 4%nat with
          | Some x, Some y, Some z =>
              inr ("1 " +:+ Py.str (c + C) +:+ " " +:+ x +:+ " " +:+ y +:+ " " +:+ z +:+ "
")
          | _, _, _ => inl Py.IndexError
          end
      end
  end.

Section Counts.
Context `{Toolchain}.

(** The contour counts of the slices of [zlist], each read from the
    listing of its slice as it is when the slice is about to be appended. *)
Fixpoint slice_counts (opts : Options) (path_tmp file_cell file_mrc : string)
    (filesOrg : list string) (nRowMrc nColMrc : Z)
    (zlist : list Z) (C : Z) (w : World) : list Z :=
  match zlist with
  | [] => []
  | zi :: zlist' =>
      match make_listing opts path_tmp file_cell file_mrc filesOrg nRowMrc nColMrc zi w with
      | (Returned file_tmp, w1) =>
          default 0 (listing_count (text_at (fs w1) (file_tmp +:+ ".txt")))
          :: match append_listing path_tmp file_tmp C w1 with
             | (Returned (_, C'), w2) =>
                 slice_counts opts path_tmp file_cell file_mrc filesOrg nRowMrc nColMrc
                   zlist' C' w2
             | _ => []
             end
      | _ => []
      end
  end.

End Counts.

Definition sum_counts (l : list Z) : Z := foldr Z.add 0 l.

(** A listing whose lines name object 7, and an accumulated listing. *)
Definition listing_world : World :=
  {| fs := list_to_map
             [ ("/tmp/0003.txt", File "7 1 1.00 1.00 2
7 1 2.00 1.00 2
7 2 3.00 3.00 2
");
               ("/tmp/out.txt", File "1 1 0.00 0.00 0
1 2 5.00 5.00 1
1 3 6.00 5.00 1
") ];
     cwd := "/"; stdout := [] |}.

Definition empty_listing_world : World :=
  {| fs := list_to_map [ ("/tmp/0003.txt", File "");
                         ("/tmp/out.txt", File "1 1 0.00 0.00 0
") ];
     cwd := "/"; stdout := [] |}.

(** A string without blank characters. *)
Fixpoint no_space (s : string) : bool :=
  match s with
  | "" => true
  | String a s' => negb (Ascii.is_space a) && no_space s'
  end.

(** * Validation *)

Definition is_file (f : gmap string node) (p : string) : bool :=
  match f !! p with Some (File _) => true | _ => false end.

Definition is_dir (f : gmap string node) (p : string) : bool :=
  match f !! p with Some Dir => true | _ => false end.

(** The output path: the option when given and not empty, the working
    directory otherwise. *)
Definition resolved_out (opts : Options) (w : World) : string :=
  if truthy_str (path_out opts) then default "" (path_out opts) else cwd w.

(** The message of the first check that fails, if one does. *)
Definition rejection (opts : Options) (args : list string) (w : World) : option string :=
  match args with
  | [file_mrc; file_mod; path_seg] =>
      if negb (is_file (fs w) file_mrc) then Some (file_mrc +:+ " is not a valid file.")
      else if negb (is_file (fs w) file_mod) then Some (file_mod +:+ " is not a valid file.")
      else if negb (is_dir (fs w) path_seg) then
        Some ("The path " +:+ path_seg +:+ " does not exist")
      else if negb (is_dir (fs w) (resolved_out opts w)) then
        Some ("The output path " +:+ resolved_out opts w +:+ " does not exist.")
      else if is_dir (fs w) (Py.path_join (resolved_out opts w) "tmp") then
        Some ("There is already a folder with the name tmp in the output path "
              +:+ resolved_out opts w)
      else None
  | _ => Some "Improper number of arguments."
  end.

(** The invocations the validation is to reject. *)
Definition invalid (opts : Options) (args : list string) (w : World) : Prop :=
  length args <> 3%nat
  \/ exists file_mrc file_mod path_seg,
       args = [file_mrc; file_mod; path_seg]
       /\ (is_file (fs w) file_mrc = false
           \/ is_file (fs w) file_mod = false
           \/ is_dir (fs w) path_seg = false
           \/ is_dir (fs w) (resolved_out opts w) = false
           \/ is_dir (fs w) (Py.path_join (resolved_out opts w) "tmp") = true).

(** * Output files *)

(** The assembled model and the post-processed model for an output path. *)
Definition out_base (path_out : string) : string :=
  Py.path_join (Py.path_join path_out "tmp") "out".

(** * Further vocabulary *)

(** The positions of [zs] that are gaps. *)
Definition gaps (zs : list Z) : list nat := filter (fun i => gap_at zs i = true) (seq 0 (length zs)).

(** Number of missing-contour warnings among printed lines. *)
Definition warnings (out : list string) : nat :=
  length (filter (fun l => l = missing_warning) out).

(** A contour whose three points lie between the planes 4 and 5. *)
Definition fractional_contour : ImodContour :=
  {| points := [0 # 1; 0 # 1; 21 # 5; 1 # 1; 0 # 1; 49 # 10; 1 # 1; 1 # 1; 4 # 1]%Q |}.

(** A statement that never ends the process. *)
Definition no_exit {A : Type} (c : M A) : Prop :=
  forall w code w', c w <> (Exited code, w').

(** The demonstration world with a regular file where [tmp] is to be made. *)
Definition tmp_file_world : World :=
  {| fs := <["/data/out/tmp" := File ""]> Demo.files; cwd := "/data"; stdout := [] |}.

(** A listing whose second line lacks its coordinates, and one whose last
    line has no contour index. *)
Definition broken_listing_world : World :=
  {| fs := list_to_map
             [ ("/tmp/0003.txt", File "1 1 1.00 1.00 2
1 1
1 2 3.00 3.00 2
");
               ("/tmp/out.txt", File "1 1 0.00 0.00 0
") ];
     cwd := "/"; stdout := [] |}.

Definition truncated_listing_world : World :=
  {| fs := list_to_map
             [ ("/tmp/0003.txt", File "1 1 1.00 1.00 2
1
") ];
     cwd := "/"; stdout := [] |}.

(** A string without a newline. *)
Fixpoint no_newline (s : string) : bool :=
  match s with
  | "" => true
  | String a s' => negb (Ascii.eqb a "010"%char) && no_newline s'
  end.

(** [new] is the record of [line] under the offset [C]: object 1, the
    contour index of [line] plus [C], and the three coordinates of [line]
    as they were written there. *)
Definition record_of (C : Z) (line new : string) : Prop :=
  exists c x y z,
    contour_index line = Some c
    /\ Py.split line !! 2%nat = Some x
    /\ Py.split line !! 3%nat = Some y
    /\ Py.split line !! 4%nat = Some z
    /\ Py.split new = ["1"; Py.str (c + C); x; y; z].

(** [s] is the text of the lines [ls], each ended by its newline. *)
Definition text_of_lines (ls : list string) (s : string) : Prop :=
  s = concat_str ls
  /\ Forall (fun l => exists t, l = t +:+ "
" /\ no_newline t = true) ls.

(** The world after the listing of [listing_world] was appended under the
    offset 3. *)
Definition appended_world : World :=
  Eval vm_compute in (accumulate "/tmp/0003" "/tmp/out" 3 listing_world).2.

(** A tool chain whose [removeSmallContours] drops every contour, and the
    options of a run with a non-integer threshold. *)
Definition pruning_toolchain : Toolchain :=
  {| help_text := help_text (Toolchain := Demo.toolchain);
     repr := repr (Toolchain := Demo.toolchain);
     call := call (Toolchain := Demo.toolchain);
     glob := glob (Toolchain := Demo.toolchain);
     imread_decode := imread_decode (Toolchain := Demo.toolchain);
     imsave_encode := imsave_encode (Toolchain := Demo.toolchain);
     imresize := imresize (Toolchain := Demo.toolchain);
     ImodModel_parse := ImodModel_parse (Toolchain := Demo.toolchain);
     ImodWrite_bytes := ImodWrite_bytes (Toolchain := Demo.toolchain);
     get_dims := get_dims (Toolchain := Demo.toolchain);
     ImodCmd := ImodCmd (Toolchain := Demo.toolchain);
     removeSmallContours := fun m =>
       {| Objects := (fun o => {| Contours := []; obj_name := obj_name o;
                                  obj_color := obj_color o |}) <$> Objects m |};
     sortContours := sortContours (Toolchain := Demo.toolchain);
     moveObjects := moveObjects (Toolchain := Demo.toolchain);
     setAll_color := setAll_color (Toolchain := Demo.toolchain);
     setAll_name := setAll_name (Toolchain := Demo.toolchain) |}.

Definition bad_threshold_options : Options :=
  {| color := None; filterByNContours := Given "two"; imodautor := Default 0;
     imodautok := Default 0; mergeAll := false; name := None;
     path_out := Some "/data/out"; runImodfillin := false; runPostprocessing := true;
     slicesToSkipCell := Default 10; slicesToSkipOrganelle := Default 4 |}.

(** * Post-processing and output paths *)

Section Postprocessed.
Context `{Toolchain}.


End Postprocessed.


(** * Properties *)

(** ** The Python fragments on concrete values *)

Example str_12 : Py.str 12 = "12".
Proof. reflexivity. Qed.
Example zfill_7 : Py.zfill 4 (Py.str 7) = "0007".
Proof. reflexivity. Qed.
Example split_ex : Py.split "1 2  3.5 4 5
" = ["1"; "2"; "3.5"; "4"; "5"].
Proof. reflexivity. Qed.
Example lines_ex : Py.lines "ab
c" = ["ab
"; "c"].
Proof. reflexivity. Qed.
Example join_ex : Py.path_join "/out" "tmp" = "/out/tmp".
Proof. reflexivity. Qed.
Example slice_ex : Py.slice_from_step 2 3 [1; 2; 3; 4; 5; 6; 7] = [3; 6].
Proof. reflexivity. Qed.
Example unique_ex : Py.np_unique [7; 5; 7; 9; 5] = [5; 7; 9].
Proof. reflexivity. Qed.

(** ** Running statements *)

Lemma bind_returned {A B : Type} (c : M A) (f : A -> M B) (w w' : World) (a : A) :
  c w = (Returned a, w') -> (c ≫= f) w = f a w'.
Proof. intros Hc. unfold mbind, M_bind. by rewrite Hc. Qed.

Lemma bind_exited {A B : Type} (c : M A) (f : A -> M B) (w w' : World) (code : Z) :
  c w = (Exited code, w') -> (c ≫= f) w = (Exited code, w').
Proof. intros Hc. unfold mbind, M_bind. by rewrite Hc. Qed.

Lemma bind_raised {A B : Type} (c : M A) (f : A -> M B) (w w' : World) (e : Py.exn) :
  c w = (Raised e, w') -> (c ≫= f) w = (Raised e, w').
Proof. intros Hc. unfold mbind, M_bind. by rewrite Hc. Qed.

(** A bind returns only if its first statement returned. *)
Lemma bind_inv {A B : Type} (c : M A) (f : A -> M B) (w w' : World) (b : B) :
  (c ≫= f) w = (Returned b, w') ->
  exists a w1, c w = (Returned a, w1) /\ f a w1 = (Returned b, w').
Proof.
  unfold mbind, M_bind. destruct (c w) as [[a | code | e] w1]; intros Hf.
  - by exists a, w1.
  - discriminate.
  - discriminate.
Qed.

(** ** [np.unique] *)

Lemma unique_insert_elem (x y : Z) (l : list Z) :
  x ∈ Py.unique_insert y l <-> x = y \/ x ∈ l.
Proof.
  induction l as [| z l IH]; simpl.
  - rewrite list_elem_of_singleton, elem_of_nil. tauto.
  - destruct (Z.ltb_spec y z); [by rewrite elem_of_cons |].
    destruct (Z.eqb_spec y z) as [-> | Hne].
    + rewrite elem_of_cons. tauto.
    + rewrite !elem_of_cons, IH. tauto.
Qed.

Lemma np_unique_elem (x : Z) (l : list Z) : x ∈ Py.np_unique l <-> x ∈ l.
Proof.
  induction l as [| y l IH]; simpl; [done |].
  by rewrite unique_insert_elem, IH, elem_of_cons.
Qed.

Lemma unique_insert_sorted (x : Z) (l : list Z) :
  StronglySorted Z.lt l -> StronglySorted Z.lt (Py.unique_insert x l).
Proof.
  induction 1 as [| y l Hs IH Hall]; simpl.
  - repeat constructor.
  - destruct (Z.ltb_spec x y) as [Hlt | Hge].
    + constructor; [by constructor |].
      constructor; [done |].
      eapply Forall_impl; [exact Hall | intros; simpl in *; lia].
    + destruct (Z.eqb_spec x y) as [-> | Hne]; [by constructor |].
      constructor; [done |].
      apply Forall_forall. intros z [-> | Hz]%unique_insert_elem; [lia |].
      by eapply Forall_forall in Hall.
Qed.

Lemma np_unique_sorted (l : list Z) : StronglySorted Z.lt (Py.np_unique l).
Proof.
  induction l as [| x l IH]; simpl; [constructor | by apply unique_insert_sorted].
Qed.

(** The first element of [np.unique(l)] is the least value of [l]. *)
Lemma np_unique_head (l : list Z) :
  l <> [] ->
  exists m rest, Py.np_unique l = m :: rest /\ m ∈ l /\ forall x, x ∈ l -> m <= x.
Proof.
  intros Hne.
  destruct (Py.np_unique l) as [| m rest] eqn:Hu.
  - destruct l as [| y l]; [done |].
    assert (y ∈ Py.np_unique (y :: l)) as Hy by (apply np_unique_elem, elem_of_cons; by left).
    rewrite Hu in Hy. by apply elem_of_nil in Hy.
  - exists m, rest. split; [done |].
    pose proof (np_unique_sorted l) as Hs. rewrite Hu in Hs.
    apply StronglySorted_inv in Hs as [_ Hall].
    split.
    + apply np_unique_elem. rewrite Hu. apply elem_of_cons. by left.
    + intros x Hx. apply np_unique_elem in Hx. rewrite Hu in Hx.
      apply elem_of_cons in Hx as [-> | Hx]; [lia |].
      eapply Forall_forall in Hall; [| exact Hx]. lia.
Qed.

(** ** [get_z_from_ImodContour] *)

(** On a contour with at least one point the test [len(cont_u == 1)] holds,
    whatever the number of distinct Z values: the function returns the least
    of them and prints nothing. *)
Lemma get_z_least (cont : ImodContour) (w : World) :
  z_values cont <> [] ->
  exists z, get_z_from_ImodContour cont w = (Returned z, w)
            /\ z ∈ z_values cont /\ forall x, x ∈ z_values cont -> z <= x.
Proof.
  intros Hne. destruct (np_unique_head _ Hne) as (m & rest & Hu & Hin & Hmin).
  exists m. split; [| done].
  unfold get_z_from_ImodContour. fold (z_values cont). by rewrite Hu.
Qed.

(** A contour lying in one Z plane: that Z is returned. *)
Lemma get_z_single (cont : ImodContour) (v : Z) (w : World) :
  z_values cont <> [] ->
  (forall x, x ∈ z_values cont -> x = v) ->
  get_z_from_ImodContour cont w = (Returned v, w).
Proof.
  intros Hne Hall. destruct (get_z_least cont w Hne) as (z & Hz & Hin & _).
  by rewrite <- (Hall z Hin).
Qed.

(** A contour without points: [max] of the empty set raises. *)
Lemma get_z_empty (cont : ImodContour) (w : World) :
  z_values cont = [] -> get_z_from_ImodContour cont w = (Raised Py.ValueError, w).
Proof.
  intros He. unfold get_z_from_ImodContour. fold (z_values cont). by rewrite He.
Qed.

(** C1.  The docstring of [get_z_from_ImodContour] promises the most
    frequent Z value together with a warning for a contour with mixed Z
    values.  On the contour with Z values 5, 7, 7 the function returns 5,
    whose multiplicity (1) is less than that of 7 (2), and prints no
    warning: the world, standard output included, is left as it was. *)
Theorem get_z_mixed_contour (w : World) :
  z_values mixed_contour = [5; 7; 7]
  /\ get_z_from_ImodContour mixed_contour w = (Returned 5, w)
  /\ (multiplicity mixed_contour 5 < multiplicity mixed_contour 7)%nat.
Proof.
  split; [reflexivity |]. split; [reflexivity |].
  vm_compute. lia.
Qed.

(** ** Standard output *)

Lemma say_nil (w : World) : say w [] = w.
Proof. destruct w. unfold say. simpl. by rewrite app_nil_r. Qed.

Lemma say_say (w : World) (a b : list string) : say (say w a) b = say w (a ++ b).
Proof. unfold say. simpl. by rewrite app_assoc. Qed.

Lemma print_say (s : string) (w : World) : print s w = (Returned tt, say w [s]).
Proof. reflexivity. Qed.

(** ** Indexing *)

Lemma index_lookup {A : Type} (l : list A) (k : nat) (x : A) :
  l !! k = Some x -> Py.index l (Z.of_nat k) = inr x.
Proof.
  intros Hk. pose proof (lookup_lt_Some _ _ _ Hk) as Hlt.
  unfold Py.index.
  destruct (Z.ltb_spec (Z.of_nat k) 0) as [? | _]; [lia |].
  destruct (Z.leb_spec 0 (Z.of_nat k)) as [_ | ?]; [| lia].
  destruct (Z.ltb_spec (Z.of_nat k) (Z.of_nat (length l))) as [_ | ?]; [| lia].
  simpl. by rewrite Nat2Z.id, Hk.
Qed.

Lemma index_last {A : Type} (l : list A) (x : A) :
  last l = Some x -> Py.index l (-1) = inr x.
Proof.
  intros Hl. unfold Py.index.
  assert (l <> []) as Hne by (intros ->; discriminate).
  assert (0 < length l)%nat as Hlen by (destruct l; [done | simpl; lia]).
  change (-1 <? 0) with true. cbv iota.
  destruct (Z.leb_spec 0 (-1 + Z.of_nat (length l))) as [_ | ?]; [| lia].
  destruct (Z.ltb_spec (-1 + Z.of_nat (length l)) (Z.of_nat (length l))) as [_ | ?]; [| lia].
  simpl.
  replace (Z.to_nat (-1 + Z.of_nat (length l))) with (pred (length l)) by lia.
  rewrite last_lookup in Hl. by rewrite Hl.
Qed.

(** ** Building [zlist] *)

Lemma object0_head (mdl : ImodModel) (o : ImodObject) (os : list ImodObject) (w : World) :
  Objects mdl = o :: os -> object0 mdl w = (Returned o, w).
Proof.
  intros Ho. unfold object0.
  pose proof (index_lookup (Objects mdl) 0 o) as Hi. change (Z.of_nat 0) with 0 in Hi.
  rewrite Hi; [done | by rewrite Ho].
Qed.

Lemma zlist_loop (mdl : ImodModel) (o : ImodObject) (os : list ImodObject) :
  Objects mdl = o :: os ->
  forall (rest pre : list ImodContour) (zs_rest zs_pre : list Z) (zprev : Z) (w : World),
    Contours o = pre ++ rest ->
    Forall2 returns pre zs_pre ->
    Forall2 returns rest zs_rest ->
    last zs_pre = Some zprev \/ pre = [] ->
    for_ (Z.of_nat <$> seq (length pre) (length rest)) (zlist_step mdl) (zprev, zs_pre) w
    = (Returned (default zprev (last (zs_pre ++ zs_rest)), zs_pre ++ zs_rest),
       say w (concat (imap (fun i z => zlist_row (zs_pre ++ zs_rest) (length pre + i) z)
                           zs_rest))).
Proof.
  intros Ho rest.
  induction rest as [| c rest IH]; intros pre zs_rest zs_pre zprev w Hc Hpre Hrest Hprev.
  - apply Forall2_nil_inv_l in Hrest as ->. simpl.
    rewrite app_nil_r, say_nil.
    destruct Hprev as [-> | ->]; [done |].
    by apply Forall2_nil_inv_l in Hpre as ->.
  - apply Forall2_cons_inv_l in Hrest as (z & zs' & Hz & Hrest & ->).
    pose proof (Forall2_length _ _ _ Hpre) as Hlen.
    simpl length. simpl seq. rewrite fmap_cons. simpl for_.
    assert (zlist_step mdl (zprev, zs_pre) (Z.of_nat (length pre)) w
            = (Returned (z, zs_pre ++ [z]),
               say w (zlist_row (zs_pre ++ z :: zs') (length pre) z))) as Hstep.
    { unfold zlist_step.
      rewrite (bind_returned _ _ _ _ _ (object0_head _ _ _ _ Ho)).
      rewrite (index_lookup (Contours o) (length pre) c)
        by (rewrite Hc; apply list_lookup_middle; done).
      simpl lift. unfold mbind at 1, M_bind at 1. unfold mret at 1, M_ret at 1.
      rewrite (bind_returned _ _ _ _ _ (Hz w)).
      unfold zlist_row, contour_line.
      assert ((negb (Z.of_nat (length pre) =? 0) && negb (z =? zprev + 1))
              = gap_at (zs_pre ++ z :: zs') (length pre)) as ->.
      { destruct pre as [| p pre]; [done |].
        destruct Hprev as [Hprev | ?]; [| done].
        simpl length in *. unfold gap_at.
        rewrite last_lookup in Hprev. rewrite <- Hlen in Hprev. simpl in Hprev.
        rewrite (lookup_app_l_Some _ _ _ _ Hprev).
        rewrite Hlen, list_lookup_middle by done.
        destruct (Z.eqb_spec (Z.of_nat (length zs_pre)) 0); [lia | done]. }
      unfold mbind, M_bind. rewrite print_say. unfold when, missing_warning.
      destruct (gap_at _ _); [rewrite print_say, say_say |]; reflexivity. }
    rewrite (bind_returned _ _ _ _ _ Hstep).
    specialize (IH (pre ++ [c]) zs' (zs_pre ++ [z]) z
                  (say w (zlist_row (zs_pre ++ z :: zs') (length pre) z))).
    rewrite length_app in IH. simpl in IH.
    replace (length pre + 1)%nat with (S (length pre)) in IH by lia.
    rewrite <- !app_assoc in IH. simpl in IH.
    rewrite IH.
    + rewrite say_say. f_equal.
      * f_equal. f_equal. rewrite !last_app_cons, !last_cons. by destruct (last zs').
      * f_equal. simpl. rewrite Nat.add_0_r. f_equal. f_equal. f_equal.
        apply imap_ext. intros i x _. simpl. f_equal. lia.
    + done.
    + apply Forall2_app; [done | by constructor].
    + done.
    + left. by rewrite last_snoc.
Qed.

Lemma returns_least (cont : ImodContour) :
  z_values cont <> [] -> exists z, returns cont z /\ z ∈ z_values cont.
Proof.
  intros Hne. destruct (get_z_least cont {| fs := ∅; cwd := ""; stdout := [] |} Hne)
    as (z & Hz & Hin & Hmin).
  exists z. split; [| done]. intros w.
  destruct (get_z_least cont w Hne) as (z' & Hz' & Hin' & Hmin').
  rewrite Hz'. do 2 f_equal. pose proof (Hmin z' Hin'). pose proof (Hmin' z Hin). lia.
Qed.

Lemma gap_at_spec (zs : list Z) (i : nat) :
  gap_at zs i = true <->
  exists j zprev zi, i = S j /\ zs !! j = Some zprev /\ zs !! i = Some zi /\ zi <> zprev + 1.
Proof.
  unfold gap_at. destruct i as [| j].
  - split; [done | by intros (j & ? & ? & ? & _)].
  - destruct (zs !! j) as [zprev |] eqn:Hj, (zs !! S j) as [zi |] eqn:Hi.
    + rewrite negb_true_iff, Z.eqb_neq. split.
      * intros Hne. by exists j, zprev, zi.
      * intros (j' & p' & z' & [= <-] & Hj' & Hi' & Hne). congruence.
    + split; [done | intros (j' & p' & z' & [= <-] & Hj' & Hi' & Hne); congruence].
    + split; [done | intros (j' & p' & z' & [= <-] & Hj' & Hi' & Hne); congruence].
    + split; [done | intros (j' & p' & z' & [= <-] & Hj' & Hi' & Hne); congruence].
Qed.

(** C4.  The loop of lines 196-202 over a cell whose contours have the Z
    values [zs]: it returns [zs] whole, and between the lines for [zmin],
    [zmax] and the final list it prints, for each position [i], the line of
    the contour followed by the missing-contour warning exactly when
    [gap_at zs i], that is when [i > 0] and [zs[i] <> zs[i-1] + 1]. *)
Theorem build_zlist_warnings (mdl : ImodModel) (o : ImodObject) (os : list ImodObject)
    (zs : list Z) (w : World) :
  Objects mdl = o :: os ->
  Contours o <> [] ->
  Forall2 returns (Contours o) zs ->
  exists zmin zmax,
    head zs = Some zmin /\ last zs = Some zmax
    /\ build_zlist mdl w
       = (Returned zs,
          say w (["Z min: " +:+ Py.str zmin; "Z max: " +:+ Py.str zmax]
                 ++ concat (imap (zlist_row zs) zs)
                 ++ [show_list (Py.str <$> zs)]))
    /\ forall i, gap_at zs i = true <->
         exists j zprev zi,
           i = S j /\ zs !! j = Some zprev /\ zs !! i = Some zi /\ zi <> zprev + 1.
Proof.
  intros Ho Hne Hall.
  destruct (Contours o) as [| c0 cs] eqn:Hcs; [done |].
  destruct zs as [| zmin zs']; [by apply Forall2_nil_inv_r in Hall |].
  destruct (last (c0 :: cs)) as [cl |] eqn:Hcl; [| by apply last_None in Hcl].
  destruct (last (zmin :: zs')) as [zmax |] eqn:Hzl; [| by apply last_None in Hzl].
  exists zmin, zmax. split; [done |]. split; [done |].
  split; [| apply gap_at_spec].
  assert (returns cl zmax) as Hmax.
  { rewrite last_lookup in Hcl. rewrite last_lookup in Hzl.
    rewrite <- (Forall2_length _ _ _ Hall) in Hzl.
    by eapply Forall2_lookup_lr in Hall. }
  assert (returns c0 zmin) as Hmin by by apply Forall2_cons_1 in Hall as [? _].
  unfold build_zlist.
  rewrite (bind_returned _ _ _ _ _ (object0_head _ _ _ _ Ho)).
  rewrite Hcs. change (Py.index (c0 :: cs) 0) with (Py.index (c0 :: cs) (Z.of_nat 0)).
  rewrite (index_lookup (c0 :: cs) 0 c0) by done.
  erewrite bind_returned; [| reflexivity].
  rewrite (bind_returned _ _ _ _ _ (Hmin w)).
  rewrite (bind_returned _ _ _ _ _ (object0_head _ _ _ _ Ho)).
  rewrite Hcs, (index_last _ _ Hcl).
  erewrite bind_returned; [| reflexivity].
  rewrite (bind_returned _ _ _ _ _ (Hmax w)).
  erewrite bind_returned; [| apply print_say].
  erewrite bind_returned; [| apply print_say].
  rewrite (bind_returned _ _ _ _ _ (object0_head _ _ _ _ Ho)).
  unfold range, nContours. rewrite Nat2Z.id, Hcs.
  pose proof (zlist_loop mdl o os Ho (c0 :: cs) [] (zmin :: zs') [] zmin
                (say (say w ["Z min: " +:+ Py.str zmin]) ["Z max: " +:+ Py.str zmax]))
    as Hloop.
  simpl app in Hloop. change (length (@nil ImodContour)) with 0%nat in Hloop.
  erewrite bind_returned; [| apply Hloop; [done | constructor | done | by right]].
  cbv beta iota. unfold snd.
  erewrite bind_returned; [| apply print_say].
  unfold mret, M_ret. rewrite !say_say. do 3 f_equal.
Qed.

(** Contours at Z = 1, 2, 4: one warning, after the third contour. *)
Lemma build_zlist_warnings_witness :
  build_zlist cell_124 world0
  = (Returned [1; 2; 4],
     say world0 ["Z min: 1"; "Z max: 4";
                 "Contour: 1, Z: 1"; "Contour: 2, Z: 2"; "Contour: 3, Z: 4";
                 "WARNING: Missing contour"; "[1, 2, 4]"]).
Proof.
  destruct (build_zlist_warnings cell_124 _ _ [1; 2; 4] world0 eq_refl)
    as (zmin & zmax & Hmin & Hmax & Hrun & _).
  - discriminate.
  - repeat constructor.
  - injection Hmin as <-. injection Hmax as <-. exact Hrun.
Defined.


(** ** Intersection of the two rasters *)

Lemma differs_native (r c : Z) (a : ndarray) : differs r c a = false <-> native r c a.
Proof.
  unfold differs, native. rewrite orb_false_iff, !negb_false_iff, !Z.eqb_eq. tauto.
Qed.

Lemma logical_and_same (a b : ndarray) :
  shape0 a = shape0 b -> shape1 a = shape1 b ->
  exists m, logical_and a b = inr m
            /\ shape0 m = shape0 a /\ shape1 m = shape1 a /\ arr_dtype m = bool_
            /\ pointwise_and m a b.
Proof.
  intros H0 H1. unfold logical_and, broadcast.
  rewrite <- H0, <- H1, !Nat.eqb_refl.
  eexists. split; [reflexivity |]. repeat split.
  intros i j Hi Hj. simpl in *. unfold along.
  destruct (Nat.eqb_spec (shape0 a) 1) as [E0 | _], (Nat.eqb_spec (shape1 a) 1) as [E1 | _];
    repeat match goal with
           | E : shape0 a = 1%nat |- _ =>
               replace i with 0%nat by lia; clear E
           | E : shape1 a = 1%nat |- _ =>
               replace j with 0%nat by lia; clear E
           end; reflexivity.
Qed.

Section Rasters.
Context `{Toolchain}.

(** Once both files are read, the slice is the AND of the two images as
    [resize_images] leaves them, saved over the mask of the cell. *)
Lemma intersect_slice_reads (file_tmp : string) (filesOrg : list string)
    (zi nRowMrc nColMrc : Z) (w : World)
    (dataCell fileOrg dataOrg : string) (imgCell imgOrg : ndarray) :
  fs w !! (file_tmp +:+ ".tif") = Some (File dataCell) ->
  imread_decode dataCell = Some imgCell ->
  Py.index filesOrg (zi - 1) = inr fileOrg ->
  fs w !! fileOrg = Some (File dataOrg) ->
  imread_decode dataOrg = Some imgOrg ->
  intersect_slice file_tmp filesOrg zi nRowMrc nColMrc w
  = (imgMask ← lift (logical_and (resize_images imgCell imgOrg nRowMrc nColMrc).1
                                  (resize_images imgCell imgOrg nRowMrc nColMrc).2);
     imsave (file_tmp +:+ ".tif") imgMask) w.
Proof.
  intros Hc Hdc Hi Ho Hdo. unfold intersect_slice.
  assert (imread (file_tmp +:+ ".tif") w = (Returned imgCell, w)) as Hrc.
  { unfold imread, read_file, mbind, M_bind. by rewrite Hc, Hdc. }
  assert (imread fileOrg w = (Returned imgOrg, w)) as Hro.
  { unfold imread, read_file, mbind, M_bind. by rewrite Ho, Hdo. }
  rewrite (bind_returned _ _ _ _ _ Hrc), Hi.
  erewrite bind_returned; [| reflexivity].
  rewrite (bind_returned _ _ _ _ _ Hro).
  by destruct (resize_images imgCell imgOrg nRowMrc nColMrc).
Qed.

(** C5.  In the loop body, with the two images read: the image that takes
    the place of the cell mask when its shape differs from the volume's is
    [imresize(imgOrg, ...)], the organelle image resized; the organelle
    image when its own shape differs is [imresize(imgOrg, ...)] too.  An
    image of the right shape is kept.  These are the two images the slice
    intersects. *)
Theorem resize_from_organelle (file_tmp : string) (filesOrg : list string)
    (zi nRowMrc nColMrc : Z) (w : World)
    (dataCell fileOrg dataOrg : string) (imgCell imgOrg : ndarray) :
  fs w !! (file_tmp +:+ ".tif") = Some (File dataCell) ->
  imread_decode dataCell = Some imgCell ->
  Py.index filesOrg (zi - 1) = inr fileOrg ->
  fs w !! fileOrg = Some (File dataOrg) ->
  imread_decode dataOrg = Some imgOrg ->
  exists imgCell' imgOrg',
    resize_images imgCell imgOrg nRowMrc nColMrc = (imgCell', imgOrg')
    /\ imgCell' = (if differs nRowMrc nColMrc imgCell
                   then imresize imgOrg nRowMrc nColMrc else imgCell)
    /\ imgOrg' = (if differs nRowMrc nColMrc imgOrg
                  then imresize imgOrg nRowMrc nColMrc else imgOrg)
    /\ intersect_slice file_tmp filesOrg zi nRowMrc nColMrc w
       = (imgMask ← lift (logical_and imgCell' imgOrg');
          imsave (file_tmp +:+ ".tif") imgMask) w.
Proof.
  intros Hc Hdc Hi Ho Hdo.
  eexists _, _. split; [reflexivity |]. split; [reflexivity |]. split; [reflexivity |].
  by eapply intersect_slice_reads.
Qed.


End Rasters.

(** Both images of the wrong shape: the AND is taken of the organelle image
    resized, with itself. *)
Lemma resize_from_organelle_witness :
  let imgOrg := Demo.raster (Demo.rows "111/000") in
  intersect_slice (H := Demo.toolchain) "/tmp/0001" ["/seg/a.tif"] 1 3 4 mismatch_world
  = (imgMask ← lift (logical_and (Demo.resize imgOrg 3 4) (Demo.resize imgOrg 3 4));
     imsave (H := Demo.toolchain) "/tmp/0001.tif" imgMask) mismatch_world.
Proof.
  destruct (resize_from_organelle (H := Demo.toolchain) "/tmp/0001" ["/seg/a.tif"] 1 3 4
              mismatch_world "10/01" "/seg/a.tif" "111/000" _ _
              eq_refl eq_refl eq_refl eq_refl eq_refl)
    as (imgCell' & imgOrg' & _ & -> & -> & Hrun).
  exact Hrun.
Defined.


Lemma index_nat {A : Type} (l : list A) (k : nat) :
  Py.index l (Z.of_nat k)
  = match l !! k with Some x => inr x | None => inl Py.IndexError end.
Proof.
  destruct (l !! k) as [x |] eqn:Hk; [by apply index_lookup |].
  apply lookup_ge_None in Hk. unfold Py.index.
  destruct (Z.ltb_spec (Z.of_nat k) 0) as [? | _]; [lia |].
  destruct (Z.ltb_spec (Z.of_nat k) (Z.of_nat (length l))) as [? | _]; [lia |].
  by rewrite andb_false_r.
Qed.

Lemma append_nil_r (s : string) : s +:+ "" = s.
Proof. induction s as [| c s IH]; [done |]. unfold String.app in *. simpl. by rewrite IH. Qed.

Lemma append_assoc (a b c : string) : (a +:+ b) +:+ c = a +:+ b +:+ c.
Proof. induction a as [| x a IH]; [done |]. unfold String.app in *. simpl. by rewrite IH. Qed.

Lemma written_written (w : World) (p a b : string) :
  written (written w p a) p b = written w p b.
Proof. unfold written, with_fs. simpl. by rewrite insert_insert_eq. Qed.

Lemma written_same (w : World) (p data : string) :
  fs w !! p = Some (File data) -> written w p data = w.
Proof. intros Hp. destruct w. unfold written, with_fs. simpl in *. by rewrite insert_id. Qed.

Lemma append_line_new_line (file_out : string) (C : Z) (line : string) (w : World) :
  append_line file_out C tt line w
  = match new_line C line with
    | inr new => write_append (file_out +:+ ".txt") new w
    | inl e => (Raised e, w)
    end.
Proof.
  unfold append_line, new_line.
  change 1 with (Z.of_nat 1). change 2 with (Z.of_nat 2).
  change 3 with (Z.of_nat 3). change 4 with (Z.of_nat 4).
  rewrite !index_nat.
  destruct (Py.split line !! 1%nat) as [f |]; [| done].
  erewrite bind_returned; [| reflexivity].
  destruct (Py.int f) as [c |]; [| done].
  erewrite bind_returned; [| reflexivity].
  destruct (Py.split line !! 2%nat) as [x |]; [| done].
  erewrite bind_returned; [| reflexivity].
  destruct (Py.split line !! 3%nat) as [y |];
    [| by destruct (Py.split line !! 4%nat)].
  erewrite bind_returned; [| reflexivity].
  destruct (Py.split line !! 4%nat) as [z |]; [| done].
  erewrite bind_returned; [| reflexivity].
  reflexivity.
Qed.

(** The loop of lines 286-290 on an open accumulator: the lines of a prefix
    of the listing are appended, renumbered; of the whole listing if the
    loop returns. *)
Lemma append_lines (file_out : string) (C : Z) (ls : list string) :
  forall (w : World) (old : string),
    fs w !! (file_out +:+ ".txt") = Some (File old) ->
    exists (k : nat) (news : list string) (r : outcome unit),
      for_ ls (append_line file_out C) tt w
      = (r, written w (file_out +:+ ".txt") (old +:+ concat_str news))
      /\ Forall2 (fun line new => new_line C line = inr new) (take k ls) news
      /\ (forall u, r = Returned u -> k = length ls).
Proof.
  induction ls as [| line ls IH]; intros w old Hold.
  - exists 0%nat, [], (Returned tt). simpl.
    rewrite append_nil_r, written_same by done.
    split; [done |]. split; [constructor | done].
  - simpl for_. unfold mbind, M_bind. rewrite append_line_new_line.
    destruct (new_line C line) as [e | new] eqn:Hnew.
    + exists 0%nat, [], (Raised e). simpl.
      rewrite append_nil_r, written_same by done.
      split; [done |]. split; [constructor | done].
    + unfold write_append. rewrite Hold.
      fold (written w (file_out +:+ ".txt") (old +:+ new)).
      destruct (IH (written w (file_out +:+ ".txt") (old +:+ new)) (old +:+ new))
        as (k & news & r & Hrun & Hall & Hk).
      { unfold written. simpl. apply lookup_insert_eq. }
      exists (S k), (new :: news), r.
      rewrite Hrun, written_written. simpl. rewrite append_assoc.
      split; [done |]. split; [by constructor |].
      intros u' Hr. by rewrite (Hk u' Hr).
Qed.

Lemma index_minus_1 {A : Type} (l : list A) :
  Py.index l (-1) = match last l with Some x => inr x | None => inl Py.IndexError end.
Proof.
  destruct (last l) as [x |] eqn:Hl; [by apply index_last |].
  apply last_None in Hl as ->. reflexivity.
Qed.

Lemma length_zero (s : string) : (Z.of_nat (String.length s) =? 0) = bool_decide (s = "").
Proof. by destruct s. Qed.

Lemma accumulate_unfold (file_tmp file_out : string) (C : Z) (w : World) (data : string) :
  fs w !! (file_tmp +:+ ".txt") = Some (File data) ->
  data <> "" ->
  accumulate file_tmp file_out C w
  = match last (Py.lines data) ≫= contour_index with
    | None => (Raised match last (Py.lines data) with
                      | None => Py.IndexError
                      | Some lastline =>
                          match Py.split lastline !! 1%nat with
                          | None => Py.IndexError
                          | Some _ => Py.ValueError
                          end
                      end, w)
    | Some ncont =>
        (open_append (file_out +:+ ".txt");;
         data ← read_file (file_tmp +:+ ".txt");
         for_ (Py.lines data) (append_line file_out C) tt;;
         mret (C + ncont)) w
    end.
Proof.
  intros Hdata Hne. unfold accumulate.
  assert (st_size (file_tmp +:+ ".txt") w = (Returned (Z.of_nat (String.length data)), w))
    as Hsize by (unfold st_size; by rewrite Hdata).
  rewrite (bind_returned _ _ _ _ _ Hsize), length_zero, (bool_decide_eq_false_2 _ Hne).
  change (negb false) with true. cbv iota.
  assert (read_file (file_tmp +:+ ".txt") w = (Returned data, w)) as Hread
    by (unfold read_file; by rewrite Hdata).
  rewrite (bind_returned _ _ _ _ _ Hread), index_minus_1.
  destruct (last (Py.lines data)) as [lastline |]; [| done].
  erewrite bind_returned; [| reflexivity].
  unfold contour_index. simpl. change 1 with (Z.of_nat 1). rewrite index_nat.
  destruct (Py.split lastline !! 1%nat) as [f |]; [| done].
  erewrite bind_returned; [| reflexivity].
  simpl. destruct (Py.int f) as [n |]; [| done].
  erewrite bind_returned; [| reflexivity]. done.
Qed.

(** The [if] of lines 279-291 on a non-empty listing. *)
Lemma accumulate_run (file_tmp file_out : string) (C : Z) (w : World) (data : string) :
  fs w !! (file_tmp +:+ ".txt") = Some (File data) ->
  data <> "" ->
  match listing_count data with
  | None => exists e, accumulate file_tmp file_out C w = (Raised e, w)
  | Some n =>
      (fs w !! (file_out +:+ ".txt") = Some Dir
       /\ accumulate file_tmp file_out C w = (Raised Py.IOError, w))
      \/ (fs w !! (file_out +:+ ".txt") <> Some Dir
          /\ exists (k : nat) (news : list string) (r : outcome Z),
               accumulate file_tmp file_out C w
               = (r, written w (file_out +:+ ".txt")
                       (text_at (fs w) (file_out +:+ ".txt") +:+ concat_str news))
               /\ Forall2 (fun line new => new_line C line = inr new)
                          (take k (Py.lines data)) news
               /\ (forall C', r = Returned C' -> k = length (Py.lines data) /\ C' = C + n))
  end.
Proof.
  intros Hdata Hne. rewrite (accumulate_unfold _ _ _ _ _ Hdata Hne).
  unfold listing_count. rewrite (bool_decide_eq_false_2 _ Hne).
  destruct (last (Py.lines data) ≫= contour_index) as [n |]; [| by eexists].
  assert (forall w', fs w' !! (file_tmp +:+ ".txt") = Some (File data) ->
                     read_file (file_tmp +:+ ".txt") w' = (Returned data, w')) as Hread.
  { intros w' Hw'. unfold read_file. by rewrite Hw'. }
  destruct (fs w !! (file_out +:+ ".txt")) as [[| old] |] eqn:Hout.
  - left. split; [done |]. unfold mbind, M_bind, open_append. by rewrite Hout.
  - right. split; [done |].
    assert (open_append (file_out +:+ ".txt") w = (Returned tt, w)) as Hopen
      by (unfold open_append; by rewrite Hout).
    rewrite (bind_returned _ _ _ _ _ Hopen), (bind_returned _ _ _ _ _ (Hread w Hdata)).
    destruct (append_lines file_out C (Py.lines data) w old Hout)
      as (k & news & r & Hrun & Hall & Hk).
    unfold text_at. rewrite Hout.
    unfold mbind, M_bind. rewrite Hrun.
    destruct r as [[] | code | e].
    + exists k, news, (Returned (C + n)). split; [done |]. split; [done |].
      intros C' [= <-]. split; [by eapply Hk | done].
    + exists k, news, (Exited code). split; [done |]. split; [done | done].
    + exists k, news, (Raised e). split; [done |]. split; [done | done].
  - right. split; [done |].
    set (w1 := written w (file_out +:+ ".txt") "").
    assert (open_append (file_out +:+ ".txt") w = (Returned tt, w1)) as Hopen
      by (unfold open_append; by rewrite Hout).
    assert (fs w1 !! (file_tmp +:+ ".txt") = Some (File data)) as Hdata1.
    { unfold w1, written. simpl. rewrite lookup_insert_ne; [done |].
      intros E. rewrite E in Hout. congruence. }
    rewrite (bind_returned _ _ _ _ _ Hopen), (bind_returned _ _ _ _ _ (Hread w1 Hdata1)).
    destruct (append_lines file_out C (Py.lines data) w1 "")
      as (k & news & r & Hrun & Hall & Hk).
    { unfold w1, written. simpl. apply lookup_insert_eq. }
    unfold text_at. rewrite Hout.
    unfold mbind, M_bind. rewrite Hrun. unfold w1. rewrite written_written.
    destruct r as [[] | code | e].
    + exists k, news, (Returned (C + n)). split; [done |]. split; [done |].
      intros C' [= <-]. split; [by eapply Hk | done].
    + exists k, news, (Exited code). split; [done |]. split; [done | done].
    + exists k, news, (Raised e). split; [done |]. split; [done | done].
Qed.

(** On an empty listing: nothing is appended, [C] is as it was. *)
Lemma accumulate_empty (file_tmp file_out : string) (C : Z) (w : World) :
  fs w !! (file_tmp +:+ ".txt") = Some (File "") ->
  accumulate file_tmp file_out C w = (Returned C, w).
Proof.
  intros Hdata. unfold accumulate, st_size, mbind, M_bind. by rewrite Hdata.
Qed.

(** Without a listing the size cannot be asked. *)
Lemma accumulate_missing (file_tmp file_out : string) (C : Z) (w : World) :
  (forall data, fs w !! (file_tmp +:+ ".txt") <> Some (File data)) ->
  accumulate file_tmp file_out C w = (Raised Py.OSError, w).
Proof.
  intros Hno. unfold accumulate, st_size, mbind, M_bind.
  destruct (fs w !! (file_tmp +:+ ".txt")) as [[| data] |] eqn:E; try done.
  by destruct (Hno data).
Qed.

(** ** Reading back what [str] and [format] write *)

Lemma app_cons (a : ascii) (s t : string) : String a s +:+ t = String a (s +:+ t).
Proof. reflexivity. Qed.

Lemma rev_app_rev_app (t c d : string) :
  String.rev_app (String.rev_app t c) d = String.rev_app c (t +:+ d).
Proof.
  revert c. induction t as [| a t IH]; intros c; [done |].
  simpl. by rewrite IH.
Qed.

Lemma rev_rev_app (t : string) : String.rev (String.rev_app t "") = t.
Proof. unfold String.rev. rewrite rev_app_rev_app. simpl. apply append_nil_r. Qed.

Lemma words_go_token (t c rest : string) :
  no_space t = true ->
  String.words_go (Some c) (t +:+ String " " rest)
  = String.rev (String.rev_app t c) :: String.words_go None rest.
Proof.
  revert c. induction t as [| a t IH]; intros c Ht; [done |].
  simpl in Ht. apply andb_true_iff in Ht as [Ha Ht]. apply negb_true_iff in Ha.
  rewrite app_cons. simpl. rewrite Ha. simpl. by rewrite IH.
Qed.

(** A non-empty token followed by a blank is the first field. *)
Lemma split_token (t rest : string) :
  t <> "" -> no_space t = true -> Py.split (t +:+ String " " rest) = t :: Py.split rest.
Proof.
  intros Hne Ht. destruct t as [| a t]; [done |].
  simpl in Ht. apply andb_true_iff in Ht as [Ha Ht]. apply negb_true_iff in Ha.
  unfold Py.split, String.words. rewrite app_cons. simpl. rewrite Ha. simpl.
  rewrite words_go_token by done.
  change (String.rev_app t (String a "")) with (String.rev_app (String a t) "").
  by rewrite rev_rev_app.
Qed.

Lemma is_nat_pretty_char (d : N) :
  (d < 10)%N -> Ascii.is_nat (pretty_N_char d) = Some (N.to_nat d).
Proof.
  intros Hd.
  assert (d = 0 \/ d = 1 \/ d = 2 \/ d = 3 \/ d = 4 \/ d = 5 \/ d = 6 \/ d = 7
          \/ d = 8 \/ d = 9)%N as Hcases by lia.
  repeat destruct Hcases as [-> | Hcases]; try reflexivity. by subst.
Qed.

Lemma digits_pretty_go (x : N) :
  exists k : N, forall (acc : N) (s : string),
    Py.digits acc (pretty_N_go x s) = Py.digits (acc * 10 ^ k + x)%N s.
Proof.
  induction (N.lt_wf_0 x) as [x _ IH].
  destruct (decide (x = 0)%N) as [-> | Hx].
  - exists 0%N. intros acc s. rewrite pretty_N_go_0. f_equal. lia.
  - destruct (IH (x `div` 10)%N) as [k Hk]; [apply N.div_lt; lia |].
    exists (k + 1)%N. intros acc s.
    rewrite pretty_N_go_step, Hk by lia. simpl.
    rewrite is_nat_pretty_char by (apply N.mod_lt; lia).
    f_equal. rewrite N2Nat.id, N.pow_add_r.
    pose proof (N.div_mod x 10). lia.
Qed.

Lemma digits_no_space (s : string) (acc n : N) :
  Py.digits acc s = Some n -> no_space s = true.
Proof.
  revert acc. induction s as [| a s IH]; intros acc Hd; [done |].
  simpl in *. destruct (Ascii.is_nat a) as [d |] eqn:Ha; [| done].
  rewrite (IH _ Hd), andb_true_r.
  destruct a as [[] [] [] [] [] [] [] []]; try done.
Qed.

Lemma unsigned_pretty_pos (p : positive) :
  Py.unsigned (pretty (N.pos p)) = Some (Z.pos p)
  /\ Py.int (pretty (N.pos p)) = Some (Z.pos p)
  /\ no_space (pretty (N.pos p)) = true
  /\ pretty (N.pos p) <> "".
Proof.
  unfold pretty, pretty_N. rewrite decide_False by done.
  destruct (digits_pretty_go (N.pos p)) as [k Hk].
  specialize (Hk 0%N ""). simpl in Hk.
  destruct (pretty_N_go (N.pos p) "") as [| a s] eqn:Hs; [by simplify_eq/= |].
  assert (Py.unsigned (String a s) = Some (Z.pos p)) as Hu.
  { unfold Py.unsigned. by rewrite Hk. }
  split; [done |]. split; [| split; [by eapply digits_no_space | done]].
  simpl in Hk. destruct (Ascii.is_nat a) as [d |] eqn:Ha; [| done].
  unfold Py.int.
  destruct a as [[] [] [] [] [] [] [] []]; try done.
Qed.

(** [int(str(n)) = n], and [str(n)] is one field. *)
Lemma int_str (n : Z) :
  Py.int (Py.str n) = Some n /\ no_space (Py.str n) = true /\ Py.str n <> "".
Proof.
  unfold Py.str, pretty, pretty_Z. destruct n as [| p | p]; [done | |].
  - destruct (unsigned_pretty_pos p) as (_ & Hi & Hs & Hn). done.
  - destruct (unsigned_pretty_pos p) as (Hu & _ & Hs & Hn).
    unfold pretty, pretty_positive. split; [| split; [| done]].
    + change (Py.int ("-" +:+ pretty (N.pos p))) with (Z.opp <$> Py.unsigned (pretty (N.pos p))).
      by rewrite Hu.
    + change (no_space ("-" +:+ pretty (N.pos p))) with (no_space (pretty (N.pos p))).
      done.
Qed.

(** The line written: object 1, the contour index moved by [C]. *)
Lemma new_line_fields (C : Z) (line new : string) :
  new_line C line = inr new ->
  exists c rest,
    contour_index line = Some c
    /\ new = "1 " +:+ Py.str (c + C) +:+ " " +:+ rest
    /\ object_field new = Some "1"
    /\ contour_index new = Some (c + C).
Proof.
  unfold new_line, contour_index.
  destruct (Py.split line !! 1%nat) as [f |]; [| done]. simpl.
  destruct (Py.int f) as [c |]; [| done].
  destruct (Py.split line !! 2%nat) as [x |]; [| done].
  destruct (Py.split line !! 3%nat) as [y |]; [| done].
  destruct (Py.split line !! 4%nat) as [z |]; [| done].
  intros [= <-]. exists c. eexists. split; [done |]. split; [reflexivity |].
  destruct (int_str (c + C)) as (Hint & Hsp & Hne).
  match goal with
  | |- context [ "1 " +:+ ?s +:+ " " +:+ ?r ] =>
      change ("1 " +:+ s +:+ " " +:+ r) with ("1" +:+ String " " (s +:+ String " " r))
  end.
  unfold object_field. rewrite split_token, split_token by done.
  simpl. by rewrite Hint.
Qed.

(** ** Reading the accumulated listing back *)

Lemma rev_app_not_empty (a b : string) : b <> "" -> String.rev_app a b <> "".
Proof. revert b. induction a as [| x a IH]; intros b Hb; [done |]. simpl. by apply IH. Qed.

Lemma no_space_rev_app (a b : string) :
  no_space (String.rev_app a b) = no_space a && no_space b.
Proof.
  revert b. induction a as [| x a IH]; intros b; [done |].
  simpl. rewrite IH. simpl. destruct (Ascii.is_space x), (no_space a), (no_space b); done.
Qed.

(** The fields [split] yields are non-empty and hold no blank. *)
Lemma words_go_tokens (s : string) :
  forall cur : option string,
    (forall c, cur = Some c -> c <> "" /\ no_space c = true) ->
    Forall (fun t => t <> "" /\ no_space t = true) (String.words_go cur s).
Proof.
  induction s as [| a s IH]; intros cur Hcur; simpl.
  - destruct cur as [c |]; [| constructor]. simpl.
    destruct (Hcur c eq_refl) as [Hne Hsp]. constructor; [| constructor].
    unfold String.rev. rewrite no_space_rev_app, Hsp. split; [| done].
    destruct c as [| x c]; [done |]. simpl. by apply rev_app_not_empty.
  - destruct (Ascii.is_space a) eqn:Ha.
    + apply Forall_app. split; [| by apply IH].
      destruct cur as [c |]; [| constructor]. simpl.
      destruct (Hcur c eq_refl) as [Hne Hsp]. constructor; [| constructor].
      unfold String.rev. rewrite no_space_rev_app, Hsp. split; [| done].
      destruct c as [| x c]; [done |]. simpl. by apply rev_app_not_empty.
    + apply IH. intros c Hc. destruct cur as [c0 |]; simpl in Hc; injection Hc as <-.
      * destruct (Hcur c0 eq_refl) as [_ Hsp]. split; [done |]. simpl. by rewrite Ha, Hsp.
      * split; [done |]. simpl. by rewrite Ha.
Qed.

Lemma split_tokens (s t : string) (i : nat) :
  Py.split s !! i = Some t -> t <> "" /\ no_space t = true.
Proof.
  intros Hi. pose proof (words_go_tokens s None) as Hall.
  eapply Forall_lookup_1 in Hall; [exact Hall | | exact Hi]. done.
Qed.

Lemma words_go_token_sp (t c : string) (sp : ascii) (rest : string) :
  Ascii.is_space sp = true ->
  no_space t = true ->
  String.words_go (Some c) (t +:+ String sp rest)
  = String.rev (String.rev_app t c) :: String.words_go None rest.
Proof.
  intros Hsp. revert c. induction t as [| a t IH]; intros c Ht.
  - simpl. by rewrite Hsp.
  - simpl in Ht. apply andb_true_iff in Ht as [Ha Ht]. apply negb_true_iff in Ha.
    rewrite app_cons. simpl. rewrite Ha. simpl. by rewrite IH.
Qed.

Lemma split_token_sp (t : string) (sp : ascii) (rest : string) :
  Ascii.is_space sp = true -> t <> "" -> no_space t = true ->
  Py.split (t +:+ String sp rest) = t :: Py.split rest.
Proof.
  intros Hsp Hne Ht. destruct t as [| a t]; [done |].
  simpl in Ht. apply andb_true_iff in Ht as [Ha Ht]. apply negb_true_iff in Ha.
  unfold Py.split, String.words. rewrite app_cons. simpl. rewrite Ha. simpl.
  rewrite words_go_token_sp by done.
  change (String.rev_app t (String a "")) with (String.rev_app (String a t) "").
  by rewrite rev_rev_app.
Qed.

Lemma no_space_no_newline (t : string) : no_space t = true -> no_newline t = true.
Proof.
  induction t as [| a t IH]; [done |]. simpl.
  intros [Ha Ht]%andb_true_iff. rewrite (IH Ht), andb_true_r.
  destruct a as [[] [] [] [] [] [] [] []]; try done.
Qed.

Lemma no_newline_app (a b : string) : no_newline (a +:+ b) = no_newline a && no_newline b.
Proof.
  induction a as [| c a IH]; [done |].
  rewrite app_cons. simpl. by rewrite IH, andb_assoc.
Qed.

Lemma lines_go_line (t cur rest : string) :
  no_newline t = true ->
  Py.lines_go cur (t +:+ String "010"%char rest)
  = String.rev (String "010"%char (String.rev_app t cur)) :: Py.lines_go "" rest.
Proof.
  revert cur. induction t as [| a t IH]; intros cur Ht; [done |].
  simpl in Ht. apply andb_true_iff in Ht as [Ha Ht]. apply negb_true_iff in Ha.
  rewrite app_cons. simpl. rewrite Ha. by rewrite IH.
Qed.

(** A line ended by its newline is read back as that line. *)
Lemma lines_line (t rest : string) :
  no_newline t = true ->
  Py.lines ((t +:+ "
") +:+ rest) = (t +:+ "
") :: Py.lines rest.
Proof.
  intros Ht. unfold Py.lines. rewrite append_assoc.
  change ("
" +:+ rest) with (String "010"%char rest).
  rewrite lines_go_line by done. f_equal.
  unfold String.rev. simpl. by rewrite rev_app_rev_app.
Qed.

Lemma lines_text_of_lines (ls : list string) (s : string) :
  text_of_lines ls s -> Py.lines s = ls.
Proof.
  intros [-> Hall]. induction Hall as [| l ls (t & -> & Ht) Hall IH]; [done |].
  simpl. by rewrite lines_line, IH.
Qed.

Lemma concat_str_app (a b : list string) :
  concat_str (a ++ b) = concat_str a +:+ concat_str b.
Proof. induction a as [| x a IH]; [done |]. simpl. by rewrite IH, append_assoc. Qed.

Lemma text_of_lines_app (a b : list string) (s t : string) :
  text_of_lines a s -> text_of_lines b t -> text_of_lines (a ++ b) (s +:+ t).
Proof.
  intros [-> Ha] [-> Hb]. split; [by rewrite concat_str_app | by apply Forall_app].
Qed.

(** The line written for a line of a listing: its five fields, and the line
    it is read back as. *)
Lemma new_line_record (C : Z) (line new : string) :
  new_line C line = inr new ->
  record_of C line new
  /\ exists t, new = t +:+ "
" /\ no_newline t = true.
Proof.
  unfold new_line, record_of, contour_index.
  destruct (Py.split line !! 1%nat) as [f |]; [| done]. simpl.
  destruct (Py.int f) as [c |]; [| done].
  destruct (Py.split line !! 2%nat) as [x |] eqn:Hx; [| done].
  destruct (Py.split line !! 3%nat) as [y |] eqn:Hy; [| done].
  destruct (Py.split line !! 4%nat) as [z |] eqn:Hz; [| done].
  intros [= <-].
  destruct (int_str (c + C)) as (_ & Hsp & Hne).
  destruct (split_tokens _ _ _ Hx) as [Hxne Hxsp].
  destruct (split_tokens _ _ _ Hy) as [Hyne Hysp].
  destruct (split_tokens _ _ _ Hz) as [Hzne Hzsp].
  split.
  - exists c, x, y, z. repeat (split; [done |]).
    change ("1 " +:+ Py.str (c + C) +:+ " " +:+ x +:+ " " +:+ y +:+ " " +:+ z +:+ "
")
      with ("1" +:+ String " " (Py.str (c + C) +:+ String " " (x +:+ String " "
              (y +:+ String " " (z +:+ String "010"%char ""))))).
    by rewrite !split_token_sp.
  - exists ("1 " +:+ Py.str (c + C) +:+ " " +:+ x +:+ " " +:+ y +:+ " " +:+ z).
    split; [rewrite !append_assoc; reflexivity |].
    rewrite !no_newline_app.
    rewrite (no_space_no_newline _ Hsp), (no_space_no_newline _ Hxsp),
      (no_space_no_newline _ Hysp), (no_space_no_newline _ Hzsp).
    reflexivity.
Qed.

Lemma new_lines_text (C : Z) (ls news : list string) :
  Forall2 (fun line new => new_line C line = inr new) ls news ->
  Forall2 (record_of C) ls news /\ text_of_lines news (concat_str news).
Proof.
  induction 1 as [| line new ls news Hnew Hall [IH1 [_ IH2]]].
  - split; [constructor | split; [done | constructor]].
  - destruct (new_line_record _ _ _ Hnew) as [Hrec Hline].
    split; [by constructor | split; [done | by constructor]].
Qed.

Lemma listing_world_range (line : string) (c : Z) :
  line ∈ Py.lines "7 1 1.00 1.00 2
7 1 2.00 1.00 2
7 2 3.00 3.00 2
" -> contour_index line = Some c -> 1 <= c <= 2.
Proof.
  intros Hl Hc.
  match type of Hl with
  | _ ∈ ?L =>
      let l := eval vm_compute in L in
      assert (L = l) as E by (vm_compute; reflexivity);
      rewrite E in Hl; clear E
  end.
  repeat (apply elem_of_cons in Hl as [-> | Hl]);
    [vm_compute in Hc; injection Hc as <-; lia .. | by apply elem_of_nil in Hl].
Qed.

(** C9.  Whatever the listing of the slice holds, the object index of its
    lines included, and however the block ends: the text appended to the
    accumulated listing is a sequence of whole lines, read back line by
    line as such, one per line of a prefix of the listing and in its
    order, each made of five fields of which the first, the object index,
    is [1].  When the block returns the prefix is the whole listing: every
    line of the listing has its line.  An accumulated listing made of
    whole lines is read back afterwards as the lines it had followed by
    the new ones, and if the lines it had all name object 1, so do all its
    lines afterwards.  No other path of the file system changes. *)
Theorem accumulate_object_one (file_tmp file_out : string) (C : Z) (w w' : World)
    (r : outcome Z) :
  accumulate file_tmp file_out C w = (r, w') ->
  exists (k : nat) (news : list string),
    text_at (fs w') (file_out +:+ ".txt")
    = text_at (fs w) (file_out +:+ ".txt") +:+ concat_str news
    /\ text_of_lines news (concat_str news)
    /\ Py.lines (concat_str news) = news
    /\ Forall2 (record_of C) (take k (Py.lines (text_at (fs w) (file_tmp +:+ ".txt")))) news
    /\ Forall (fun new => object_field new = Some "1") news
    /\ (forall C', r = Returned C' ->
          length news = length (Py.lines (text_at (fs w) (file_tmp +:+ ".txt"))))
    /\ (forall olds,
          text_of_lines olds (text_at (fs w) (file_out +:+ ".txt")) ->
          Py.lines (text_at (fs w') (file_out +:+ ".txt")) = olds ++ news
          /\ (Forall (fun l => object_field l = Some "1") olds ->
              Forall (fun l => object_field l = Some "1")
                     (Py.lines (text_at (fs w') (file_out +:+ ".txt")))))
    /\ (forall p, p <> file_out +:+ ".txt" -> fs w' !! p = fs w !! p).
Proof.
  intros Hrun.
  assert (forall (k : nat) (news : list string),
            text_at (fs w') (file_out +:+ ".txt")
            = text_at (fs w) (file_out +:+ ".txt") +:+ concat_str news ->
            Forall2 (fun line new => new_line C line = inr new)
                    (take k (Py.lines (text_at (fs w) (file_tmp +:+ ".txt")))) news ->
            (forall C', r = Returned C' ->
               length news = length (Py.lines (text_at (fs w) (file_tmp +:+ ".txt")))) ->
            (forall p, p <> file_out +:+ ".txt" -> fs w' !! p = fs w !! p) ->
            exists (k : nat) (news : list string),
              text_at (fs w') (file_out +:+ ".txt")
              = text_at (fs w) (file_out +:+ ".txt") +:+ concat_str news
              /\ text_of_lines news (concat_str news)
              /\ Py.lines (concat_str news) = news
              /\ Forall2 (record_of C)
                         (take k (Py.lines (text_at (fs w) (file_tmp +:+ ".txt")))) news
              /\ Forall (fun new => object_field new = Some "1") news
              /\ (forall C', r = Returned C' ->
                    length news = length (Py.lines (text_at (fs w) (file_tmp +:+ ".txt"))))
              /\ (forall olds,
                    text_of_lines olds (text_at (fs w) (file_out +:+ ".txt")) ->
                    Py.lines (text_at (fs w') (file_out +:+ ".txt")) = olds ++ news
                    /\ (Forall (fun l => object_field l = Some "1") olds ->
                        Forall (fun l => object_field l = Some "1")
                               (Py.lines (text_at (fs w') (file_out +:+ ".txt")))))
              /\ (forall p, p <> file_out +:+ ".txt" -> fs w' !! p = fs w !! p)) as Hgen.
  { intros k news Htext Hall Hlen Hframe.
    destruct (new_lines_text _ _ _ Hall) as [Hrec Hnews].
    assert (Forall (fun new => object_field new = Some "1") news) as Hone.
    { clear -Hrec.
      induction Hrec as [| line new ls news (c & x & y & z & _ & _ & _ & _ & Hf) _ IH];
        constructor; [| done].
      unfold object_field. by rewrite Hf. }
    exists k, news. split; [done |]. split; [done |].
    split; [by apply lines_text_of_lines |].
    split; [done |]. split; [done |]. split; [done |]. split; [| done].
    intros olds Holds.
    assert (Py.lines (text_at (fs w') (file_out +:+ ".txt")) = olds ++ news) as Hlines.
    { rewrite Htext. apply lines_text_of_lines. by apply text_of_lines_app. }
    split; [done |].
    intros Hold. rewrite Hlines. apply Forall_app. by split. }
  assert (w' = w -> (forall C', r = Returned C' -> text_at (fs w) (file_tmp +:+ ".txt") = "") ->
          exists (k : nat) (news : list string),
              text_at (fs w') (file_out +:+ ".txt")
              = text_at (fs w) (file_out +:+ ".txt") +:+ concat_str news
              /\ text_of_lines news (concat_str news)
              /\ Py.lines (concat_str news) = news
              /\ Forall2 (record_of C)
                         (take k (Py.lines (text_at (fs w) (file_tmp +:+ ".txt")))) news
              /\ Forall (fun new => object_field new = Some "1") news
              /\ (forall C', r = Returned C' ->
                    length news = length (Py.lines (text_at (fs w) (file_tmp +:+ ".txt"))))
              /\ (forall olds,
                    text_of_lines olds (text_at (fs w) (file_out +:+ ".txt")) ->
                    Py.lines (text_at (fs w') (file_out +:+ ".txt")) = olds ++ news
                    /\ (Forall (fun l => object_field l = Some "1") olds ->
                        Forall (fun l => object_field l = Some "1")
                               (Py.lines (text_at (fs w') (file_out +:+ ".txt")))))
              /\ (forall p, p <> file_out +:+ ".txt" -> fs w' !! p = fs w !! p)) as Hsame.
  { intros -> Hret. apply (Hgen 0%nat []).
    - simpl. by rewrite append_nil_r.
    - rewrite take_0. constructor.
    - intros C' HC'. by rewrite (Hret C' HC').
    - done. }
  remember (text_at (fs w) (file_tmp +:+ ".txt")) as listing eqn:Hlisting.
  unfold text_at in Hlisting.
  destruct (fs w !! (file_tmp +:+ ".txt")) as [[| data] |] eqn:Hdata; subst listing.
  - rewrite accumulate_missing in Hrun by (intros data; congruence).
    injection Hrun as <- <-. by apply Hsame.
  - destruct (decide (data = "")) as [-> | Hne].
    + rewrite accumulate_empty in Hrun by done. injection Hrun as <- <-. by apply Hsame.
    + pose proof (accumulate_run file_tmp file_out C w data Hdata Hne) as Hacc.
      destruct (listing_count data) as [n |].
      * destruct Hacc as [[_ Hr] | (_ & k & news & r0 & Hr & Hall & Hk)];
          rewrite Hr in Hrun.
        { injection Hrun as <- <-. by apply Hsame. }
        injection Hrun as <- <-.
        eapply (Hgen k news).
        -- unfold written, text_at at 1. simpl. by rewrite lookup_insert_eq.
        -- done.
        -- intros C' HC'. destruct (Hk C' HC') as [-> _].
           apply Forall2_length in Hall. rewrite <- Hall. by rewrite take_ge.
        -- intros p Hp. unfold written. simpl. by rewrite lookup_insert_ne.
      * destruct Hacc as [e Hr]. rewrite Hr in Hrun. injection Hrun as <- <-.
        by apply Hsame.
  - rewrite accumulate_missing in Hrun by (intros data; congruence).
    injection Hrun as <- <-. by apply Hsame.
Qed.

(** The listing of the slice names object 7 on every line; the three lines
    appended, one per line of the listing, name object 1, and so does every
    line of the accumulated listing. *)
Lemma accumulate_object_one_witness :
  exists news,
    Py.lines (text_at (fs (accumulate "/tmp/0003" "/tmp/out" 3 listing_world).2) "/tmp/out.txt")
    = [ "1 1 0.00 0.00 0
"; "1 2 5.00 5.00 1
"; "1 3 6.00 5.00 1
" ] ++ news
    /\ length news = 3%nat
    /\ Forall (fun new => object_field new = Some "1") news
    /\ Forall (fun l => object_field l = Some "1")
         (Py.lines (text_at (fs (accumulate "/tmp/0003" "/tmp/out" 3 listing_world).2)
                      "/tmp/out.txt")).
Proof.
  pose proof (surjective_pairing (accumulate "/tmp/0003" "/tmp/out" 3 listing_world)) as Hrun.
  assert ((accumulate "/tmp/0003" "/tmp/out" 3 listing_world).1 = Returned 5) as Hfst
    by (vm_compute; reflexivity).
  rewrite Hfst in Hrun.
  destruct (accumulate_object_one "/tmp/0003" "/tmp/out" 3 listing_world
              (accumulate "/tmp/0003" "/tmp/out" 3 listing_world).2 (Returned 5) Hrun)
    as (k & news & _ & _ & _ & _ & Hone & Hlen & Hread & _).
  destruct (Hread [ "1 1 0.00 0.00 0
"; "1 2 5.00 5.00 1
"; "1 3 6.00 5.00 1
" ]) as [Hlines Hall].
  - split; [reflexivity |].
    constructor; [by exists "1 1 0.00 0.00 0" |].
    constructor; [by exists "1 2 5.00 5.00 1" |].
    constructor; [by exists "1 3 6.00 5.00 1" |]. constructor.
  - exists news. split; [exact Hlines |]. split; [exact (Hlen 5 eq_refl) |].
    split; [exact Hone |]. apply Hall.
    repeat constructor.
Defined.

Example accumulate_listing_world :
  let r := accumulate "/tmp/0003" "/tmp/out" 3 listing_world in
  r.1 = Returned 5
  /\ text_at (fs r.2) "/tmp/out.txt" = "1 1 0.00 0.00 0
1 2 5.00 5.00 1
1 3 6.00 5.00 1
1 4 1.00 1.00 2
1 4 2.00 1.00 2
1 5 3.00 3.00 2
".
Proof. vm_compute. done. Qed.

(** ** The running counter *)

Lemma accumulate_returned (file_tmp file_out : string) (C C' : Z) (w w' : World)
    (data : string) :
  fs w !! (file_tmp +:+ ".txt") = Some (File data) ->
  data <> "" ->
  accumulate file_tmp file_out C w = (Returned C', w') ->
  exists n news,
    listing_count data = Some n
    /\ C' = C + n
    /\ w' = written w (file_out +:+ ".txt")
              (text_at (fs w) (file_out +:+ ".txt") +:+ concat_str news)
    /\ Forall2 (fun line new => new_line C line = inr new) (Py.lines data) news.
Proof.
  intros Hdata Hne Hrun.
  pose proof (accumulate_run file_tmp file_out C w data Hdata Hne) as Hacc.
  destruct (listing_count data) as [n |].
  - destruct Hacc as [[_ Hr] | (_ & k & news & r & Hr & Hall & Hk)];
      rewrite Hr in Hrun; [done |].
    injection Hrun as -> <-. destruct (Hk C' eq_refl) as [-> ->].
    rewrite take_ge in Hall by done. by exists n, news.
  - destruct Hacc as [e Hr]. by rewrite Hr in Hrun.
Qed.

(** The whole block on an empty listing: the listing is deleted, nothing
    else changes. *)
Lemma append_listing_empty (path_tmp file_tmp : string) (C : Z) (w : World) :
  fs w !! (file_tmp +:+ ".txt") = Some (File "") ->
  append_listing path_tmp file_tmp C w
  = (Returned (Py.path_join path_tmp "out", C),
     with_fs w (delete (file_tmp +:+ ".txt") (fs w))).
Proof.
  intros Hdata. unfold append_listing.
  rewrite (bind_returned _ _ _ _ _ (accumulate_empty _ _ _ _ Hdata)).
  unfold remove, mbind, M_bind. by rewrite Hdata.
Qed.

(** One slice moves [C] by the count of its listing. *)
Lemma append_listing_count (path_tmp file_tmp file_out : string) (C C' : Z) (w w' : World) :
  append_listing path_tmp file_tmp C w = (Returned (file_out, C'), w') ->
  C' = C + default 0 (listing_count (text_at (fs w) (file_tmp +:+ ".txt"))).
Proof.
  unfold append_listing. intros Hrun.
  apply bind_inv in Hrun as (C1 & w1 & Hacc & Hrest).
  apply bind_inv in Hrest as ([] & w2 & _ & Hret). injection Hret as _ <- _.
  unfold text_at.
  destruct (fs w !! (file_tmp +:+ ".txt")) as [[| data] |] eqn:Hdata.
  - rewrite accumulate_missing in Hacc by (intros data; congruence). done.
  - destruct (decide (data = "")) as [-> | Hne].
    + rewrite accumulate_empty in Hacc by done. injection Hacc as <- _. simpl. lia.
    + destruct (accumulate_returned _ _ _ _ _ _ _ Hdata Hne Hacc) as (n & news & Hn & -> & _).
      by rewrite Hn.
  - rewrite accumulate_missing in Hacc by (intros data; congruence). done.
Qed.

Section Counter.
Context `{Toolchain}.

Lemma slice_loop_counts (opts : Options) (path_tmp file_cell file_mrc : string)
    (filesOrg : list string) (nRowMrc nColMrc : Z) (zlist : list Z) :
  forall (C : Z) (fo : option string) (w : World) (C' : Z) (fo' : option string) (w' : World),
    for_ zlist (process_slice opts path_tmp file_cell file_mrc filesOrg nRowMrc nColMrc)
      (C, fo) w = (Returned (C', fo'), w') ->
    let ns := slice_counts opts path_tmp file_cell file_mrc filesOrg nRowMrc nColMrc
                zlist C w in
    length ns = length zlist /\ C' = C + sum_counts ns.
Proof.
  induction zlist as [| zi zlist IH]; intros C fo w C' fo' w' Hrun.
  - injection Hrun as <- _ _. simpl. split; [done | lia].
  - simpl for_ in Hrun.
    apply bind_inv in Hrun as ([C1 fo1] & w1 & Hstep & Hrest).
    unfold process_slice in Hstep.
    apply bind_inv in Hstep as (file_tmp & wl & Hmake & Happ).
    apply bind_inv in Happ as ([file_out C2] & w2 & Happ & Hret).
    injection Hret as -> _ ->. simpl in Happ.
    destruct (IH _ _ _ _ _ _ Hrest) as [Hlen Hsum].
    simpl. rewrite Hmake, Happ. simpl. split; [by rewrite Hlen |].
    rewrite Hsum, (append_listing_count _ _ _ _ _ _ _ Happ). lia.
Qed.

(** C2.  (1) When the loop over [zlist] returns, started with [C = 0], the
    counter is the sum of the counts of the slices, one per slice, each
    being the contour index on the last line of the slice's listing, or
    nothing for an empty listing.  (2) A non-empty listing whose contour
    indices lie in [1..n], [n] being its count: the block returns [C + n];
    what it appends is one line per line of the listing, each ended by its
    newline, so that an accumulated listing made of whole lines is read
    back as the lines it had followed by these; each has the five fields
    [1], [c + C], x, y, z for the contour index [c] and the coordinates of
    its line, and [c + C] lies in [C+1 .. C+n].  (3) An empty listing: the
    [if] returns [C] and leaves the world, the accumulated listing
    included, as it was; the block of lines 277-292 then only deletes the
    empty listing. *)
Theorem contour_offsets :
  (forall (opts : Options) (path_tmp file_cell file_mrc : string)
          (filesOrg : list string) (nRowMrc nColMrc : Z) (zlist : list Z)
          (w w' : World) (C : Z) (fo : option string),
      for_ zlist (process_slice opts path_tmp file_cell file_mrc filesOrg nRowMrc nColMrc)
        (0, None) w = (Returned (C, fo), w') ->
      let ns := slice_counts opts path_tmp file_cell file_mrc filesOrg nRowMrc nColMrc
                  zlist 0 w in
      length ns = length zlist /\ C = sum_counts ns)
  /\ (forall (file_tmp file_out : string) (C C' n : Z) (w w' : World) (data : string),
        fs w !! (file_tmp +:+ ".txt") = Some (File data) ->
        data <> "" ->
        listing_count data = Some n ->
        (forall line c, line ∈ Py.lines data -> contour_index line = Some c -> 1 <= c <= n) ->
        accumulate file_tmp file_out C w = (Returned C', w') ->
        C' = C + n
        /\ exists news,
             text_at (fs w') (file_out +:+ ".txt")
             = text_at (fs w) (file_out +:+ ".txt") +:+ concat_str news
             /\ text_of_lines news (concat_str news)
             /\ (forall olds, text_of_lines olds (text_at (fs w) (file_out +:+ ".txt")) ->
                   Py.lines (text_at (fs w') (file_out +:+ ".txt")) = olds ++ news)
             /\ Forall2 (fun line new =>
                           exists c, contour_index line = Some c
                                     /\ record_of C line new
                                     /\ contour_index new = Some (c + C)
                                     /\ C + 1 <= c + C <= C + n)
                        (Py.lines data) news)
  /\ (forall (path_tmp file_tmp file_out : string) (C : Z) (w : World),
        fs w !! (file_tmp +:+ ".txt") = Some (File "") ->
        accumulate file_tmp file_out C w = (Returned C, w)
        /\ append_listing path_tmp file_tmp C w
           = (Returned (Py.path_join path_tmp "out", C),
              with_fs w (delete (file_tmp +:+ ".txt") (fs w)))).
Proof.
  split; [| split].
  - intros opts path_tmp file_cell file_mrc filesOrg nRowMrc nColMrc zlist w w' C fo Hrun.
    destruct (slice_loop_counts _ _ _ _ _ _ _ _ _ _ _ _ _ _ Hrun) as [Hlen Hsum].
    split; [done | lia].
  - intros file_tmp file_out C C' n w w' data Hdata Hne Hn Hrange Hrun.
    destruct (accumulate_returned _ _ _ _ _ _ _ Hdata Hne Hrun)
      as (n' & news & Hn' & -> & -> & Hall).
    assert (n' = n) as -> by congruence.
    destruct (new_lines_text _ _ _ Hall) as [_ Htext].
    assert (text_at (fs (written w (file_out +:+ ".txt")
                           (text_at (fs w) (file_out +:+ ".txt") +:+ concat_str news)))
                    (file_out +:+ ".txt")
            = text_at (fs w) (file_out +:+ ".txt") +:+ concat_str news) as Hafter.
    { unfold written, text_at at 1. simpl. by rewrite lookup_insert_eq. }
    split; [done |]. exists news. split; [done |]. split; [done |]. split.
    + intros olds Holds. rewrite Hafter.
      apply lines_text_of_lines. by apply text_of_lines_app.
    + clear Hrun Hn Hn' Hdata Hne Htext Hafter.
      induction Hall as [| line new ls news Hnew Hall IH]; [constructor |].
      constructor.
      * destruct (new_line_fields _ _ _ Hnew) as (c & rest & Hc & _ & _ & Hc').
        destruct (new_line_record _ _ _ Hnew) as [Hrec _].
        exists c. split; [done |]. split; [done |]. split; [done |].
        assert (1 <= c <= n) by (eapply Hrange; [apply elem_of_cons; by left | done]).
        lia.
      * apply IH. intros l c Hl. apply Hrange, elem_of_cons. by right.
  - intros path_tmp file_tmp file_out C w Hdata.
    split; [by apply accumulate_empty | by apply append_listing_empty].
Qed.

End Counter.

(** Three slices with two, no and two contours; a listing with two contours
    and three lines appended under the offset 3 to a listing of three
    lines: the counter becomes 5 and six lines are read back, the new ones
    being the records of the listing; an empty listing. *)
Lemma contour_offsets_witness :
  sum_counts (slice_counts (H := Demo.toolchain) Demo.options "/data/out/tmp"
                "/data/out/tmp/cell.mod" "/data/vol.mrc" Demo.segmentations 3 4
                [1; 2; 4] 0 Demo.loop_world) = 4
  /\ ((accumulate "/tmp/0003" "/tmp/out" 3 listing_world).1 = Returned 5
      /\ exists news,
           Py.lines (text_at (fs (accumulate "/tmp/0003" "/tmp/out" 3 listing_world).2)
                       "/tmp/out.txt")
           = [ "1 1 0.00 0.00 0
"; "1 2 5.00 5.00 1
"; "1 3 6.00 5.00 1
" ] ++ news
           /\ Forall2 (record_of 3) (Py.lines "7 1 1.00 1.00 2
7 1 2.00 1.00 2
7 2 3.00 3.00 2
") news)
  /\ accumulate "/tmp/0003" "/tmp/out" 3 empty_listing_world
     = (Returned 3, empty_listing_world).
Proof.
  destruct (contour_offsets (H := Demo.toolchain)) as (Hloop & Hblock & Hempty).
  split; [| split].
  - pose proof (surjective_pairing
                  (for_ [1; 2; 4]
                     (process_slice (H := Demo.toolchain) Demo.options "/data/out/tmp"
                        "/data/out/tmp/cell.mod" "/data/vol.mrc" Demo.segmentations 3 4)
                     (0, None) Demo.loop_world)) as Hrun.
    assert (fst (for_ [1; 2; 4]
                   (process_slice (H := Demo.toolchain) Demo.options "/data/out/tmp"
                      "/data/out/tmp/cell.mod" "/data/vol.mrc" Demo.segmentations 3 4)
                   (0, None) Demo.loop_world)
            = Returned (4, Some "/data/out/tmp/out")) as Hfst by (vm_compute; reflexivity).
    rewrite Hfst in Hrun.
    symmetry. exact (proj2 (Hloop _ _ _ _ _ _ _ _ _ _ _ _ Hrun)).
  - pose proof (surjective_pairing (accumulate "/tmp/0003" "/tmp/out" 3 listing_world)) as Hrun.
    assert ((accumulate "/tmp/0003" "/tmp/out" 3 listing_world).1 = Returned 5) as Hfst
      by (vm_compute; reflexivity).
    split; [exact Hfst |].
    rewrite Hfst in Hrun.
    destruct (Hblock "/tmp/0003" "/tmp/out" 3 5 2 listing_world
                (accumulate "/tmp/0003" "/tmp/out" 3 listing_world).2
                "7 1 1.00 1.00 2
7 1 2.00 1.00 2
7 2 3.00 3.00 2
" eq_refl ltac:(discriminate) eq_refl listing_world_range Hrun)
      as (_ & news & _ & _ & Hlines & Hall).
    exists news. split.
    + apply Hlines. split; [reflexivity |].
      constructor; [by exists "1 1 0.00 0.00 0" |].
      constructor; [by exists "1 2 5.00 5.00 1" |].
      constructor; [by exists "1 3 6.00 5.00 1" |]. constructor.
    + eapply Forall2_impl; [exact Hall |].
      intros line new (c & _ & Hrec & _). exact Hrec.
  - apply (Hempty "/tmp"). reflexivity.
Defined.

Lemma leb_refl (s : string) : String.leb s s = true.
Proof. apply Is_true_true. change (String.le s s). done. Qed.

Lemma leb_trans (a b c : string) :
  String.leb a b = true -> String.leb b c = true -> String.leb a c = true.
Proof.
  intros Hab Hbc. apply Is_true_true.
  change (String.le a c). trans b; by apply Is_true_true.
Qed.

Lemma insert_sorted_elem (x y : string) (l : list string) :
  x ∈ Py.insert_sorted y l <-> x = y \/ x ∈ l.
Proof.
  induction l as [| z l IH]; simpl.
  - rewrite list_elem_of_singleton, elem_of_nil. tauto.
  - destruct (String.leb y z); [by rewrite elem_of_cons |].
    rewrite !elem_of_cons, IH. tauto.
Qed.


Lemma insert_sorted_sorted (x : string) (l : list string) :
  StronglySorted (fun a b => String.leb a b = true) l ->
  StronglySorted (fun a b => String.leb a b = true) (Py.insert_sorted x l).
Proof.
  induction 1 as [| y l Hs IH Hall]; simpl.
  - repeat constructor.
  - destruct (String.leb x y) eqn:Hxy.
    + constructor; [by constructor |].
      constructor; [done |].
      eapply Forall_impl; [exact Hall |]. intros z Hyz. by eapply leb_trans.
    + constructor; [done |].
      apply Forall_forall. intros z [-> | Hz]%insert_sorted_elem.
      * destruct (String.leb_total x y) as [E | E]; [congruence | done].
      * by eapply Forall_forall in Hall.
Qed.

Lemma sorted_sorted (l : list string) :
  StronglySorted (fun a b => String.leb a b = true) (Py.sorted l).
Proof.
  induction l as [| x l IH]; simpl; [constructor | by apply insert_sorted_sorted].
Qed.


Section Segmentations.
Context `{Toolchain}.


End Segmentations.

(** An empty directory: the look-up raises. *)
Lemma slice_zero_empty_listing : Py.index (Py.sorted []) (0 - 1) = inl Py.IndexError.
Proof. reflexivity. Qed.


(** ** Validation of the command line *)

Section Validation.
Context `{Toolchain}.

Lemma usage_exits {A : Type} (errstr : string) (w : World) :
  usage (A := A) errstr w
  = (Exited 1, say w [""; help_text; ""; "ERROR: " +:+ errstr; ""]).
Proof.
  unfold usage.
  repeat (erewrite bind_returned; [| apply print_say]).
  by rewrite !say_say.
Qed.

Lemma when_usage_exits {A : Type} (errstr : string) (w : World) (k : unit -> M A) :
  (when true (usage errstr) ≫= k) w
  = (Exited 1, say w [""; help_text; ""; "ERROR: " +:+ errstr; ""]).
Proof. apply bind_exited, usage_exits. Qed.

Lemma check_args_accepts (file_mrc file_mod path_seg : string) (w : World) :
  is_file (fs w) file_mrc = true ->
  is_file (fs w) file_mod = true ->
  is_dir (fs w) path_seg = true ->
  check_args [file_mrc; file_mod; path_seg] w = (Returned (file_mrc, file_mod, path_seg), w).
Proof.
  intros Hmrc Hmod Hseg. unfold check_args, isfile, isdir, mbind, M_bind. simpl.
  fold (is_file (fs w) file_mrc). rewrite Hmrc. simpl.
  fold (is_file (fs w) file_mod). rewrite Hmod. simpl.
  fold (is_dir (fs w) path_seg). by rewrite Hseg.
Qed.

Lemma check_args_rejects (args : list string) (w : World) (errstr : string) :
  match args with
  | [file_mrc; file_mod; path_seg] =>
      if negb (is_file (fs w) file_mrc) then Some (file_mrc +:+ " is not a valid file.")
      else if negb (is_file (fs w) file_mod) then Some (file_mod +:+ " is not a valid file.")
      else if negb (is_dir (fs w) path_seg) then
        Some ("The path " +:+ path_seg +:+ " does not exist")
      else None
  | _ => Some "Improper number of arguments."
  end = Some errstr ->
  check_args args w = (Exited 1, say w [""; help_text; ""; "ERROR: " +:+ errstr; ""]).
Proof.
  intros Hrej. unfold check_args.
  destruct args as [| file_mrc [| file_mod [| path_seg [| extra args]]]];
    try (injection Hrej as <-; apply when_usage_exits).
  change (when (negb (length [file_mrc; file_mod; path_seg] =? 3)%nat)
            (usage "Improper number of arguments."))
    with (mret (M := M) tt).
  erewrite bind_returned; [| reflexivity].
  erewrite bind_returned; [| reflexivity].
  erewrite bind_returned; [| reflexivity].
  erewrite bind_returned; [| reflexivity].
  erewrite bind_returned; [| reflexivity].
  fold (is_file (fs w) file_mrc).
  destruct (is_file (fs w) file_mrc); [| injection Hrej as <-; apply when_usage_exits].
  erewrite bind_returned; [| reflexivity].
  erewrite bind_returned; [| reflexivity].
  fold (is_file (fs w) file_mod).
  destruct (is_file (fs w) file_mod); [| injection Hrej as <-; apply when_usage_exits].
  erewrite bind_returned; [| reflexivity].
  erewrite bind_returned; [| reflexivity].
  fold (is_dir (fs w) path_seg).
  destruct (is_dir (fs w) path_seg); [done | injection Hrej as <-; apply when_usage_exits].
Qed.

Lemma output_dirs_rejects (opts : Options) (w : World) (errstr : string) :
  (if negb (is_dir (fs w) (resolved_out opts w)) then
     Some ("The output path " +:+ resolved_out opts w +:+ " does not exist.")
   else if is_dir (fs w) (Py.path_join (resolved_out opts w) "tmp") then
     Some ("There is already a folder with the name tmp in the output path "
           +:+ resolved_out opts w)
   else None) = Some errstr ->
  output_dirs opts w = (Exited 1, say w [""; help_text; ""; "ERROR: " +:+ errstr; ""]).
Proof.
  intros Hrej. unfold output_dirs.
  assert ((if truthy_str (path_out opts) then mret (default "" (path_out opts)) else getcwd) w
          = (Returned (resolved_out opts w), w)) as Hout.
  { unfold resolved_out. by destruct (truthy_str (path_out opts)). }
  rewrite (bind_returned _ _ _ _ _ Hout).
  erewrite bind_returned; [| reflexivity].
  fold (is_dir (fs w) (resolved_out opts w)).
  destruct (is_dir (fs w) (resolved_out opts w));
    [| injection Hrej as <-; apply when_usage_exits].
  erewrite bind_returned; [| reflexivity].
  erewrite bind_returned; [| reflexivity].
  fold (is_dir (fs w) (Py.path_join (resolved_out opts w) "tmp")).
  destruct (is_dir (fs w) (Py.path_join (resolved_out opts w) "tmp")); [| done].
  injection Hrej as <-. apply when_usage_exits.
Qed.

(** The script ends with the usage message and status 1 whenever a check
    fails; the message is that of the first failing check. *)
Lemma main_rejection (opts : Options) (args : list string) (w : World) (errstr : string) :
  rejection opts args w = Some errstr ->
  main opts args w = (Exited 1, say w [""; help_text; ""; "ERROR: " +:+ errstr; ""]).
Proof.
  intros Hrej. unfold main.
  destruct args as [| file_mrc [| file_mod [| path_seg [| extra args]]]];
    try (apply bind_exited, check_args_rejects; exact Hrej).
  unfold rejection in Hrej.
  destruct (is_file (fs w) file_mrc) eqn:Hmrc;
    [| apply bind_exited, check_args_rejects; by rewrite Hmrc].
  destruct (is_file (fs w) file_mod) eqn:Hmod;
    [| apply bind_exited, check_args_rejects; by rewrite Hmrc, Hmod].
  destruct (is_dir (fs w) path_seg) eqn:Hseg;
    [| apply bind_exited, check_args_rejects; by rewrite Hmrc, Hmod, Hseg].
  rewrite (bind_returned _ _ _ _ _ (check_args_accepts _ _ _ _ Hmrc Hmod Hseg)).
  apply bind_exited, output_dirs_rejects. exact Hrej.
Qed.

(** C6.  An invocation with a number of positional arguments other than
    three, or whose volume or model is not a file, or whose segmentation
    or output path is not a directory, or whose output path already has a
    directory [tmp]: the script prints the usage message with the error of
    the first failing check and exits with status 1.  The world it leaves
    differs from the one it found by these five printed lines only: no
    directory was made, no model loaded, no slice processed. *)
Theorem main_rejects_invalid (opts : Options) (args : list string) (w : World) :
  invalid opts args w ->
  exists errstr,
    rejection opts args w = Some errstr
    /\ main opts args w
       = (Exited 1, say w [""; help_text; ""; "ERROR: " +:+ errstr; ""]).
Proof.
  intros Hinv.
  assert (exists errstr, rejection opts args w = Some errstr) as [errstr Hrej].
  { destruct Hinv as [Hlen | (a & b & c & -> & Hbad)].
    - destruct args as [| a [| b [| c [| d args]]]]; try (by destruct Hlen); by eexists.
    - unfold rejection.
      destruct (is_file (fs w) a); [| by eexists].
      destruct (is_file (fs w) b); [| by eexists].
      destruct (is_dir (fs w) c); [| by eexists].
      destruct (is_dir (fs w) (resolved_out opts w)); [| by eexists].
      destruct (is_dir (fs w) (Py.path_join (resolved_out opts w) "tmp")); [by eexists |].
      naive_solver. }
  exists errstr. split; [done |]. by apply main_rejection.
Qed.

End Validation.

(** The output path given does not exist. *)
Lemma main_rejects_invalid_witness :
  main (H := Demo.toolchain)
    {| color := None; filterByNContours := Default 0; imodautor := Default 0;
       imodautok := Default 0; mergeAll := false; name := None;
       path_out := Some "/nowhere"; runImodfillin := false; runPostprocessing := true;
       slicesToSkipCell := Default 10; slicesToSkipOrganelle := Default 4 |}
    Demo.arguments Demo.world
  = (Exited 1,
     say Demo.world [""; "Usage: segmask.py [options] file.mrc file.mod path_seg"; "";
                     "ERROR: The output path /nowhere does not exist."; ""]).
Proof.
  destruct (main_rejects_invalid (H := Demo.toolchain)
              {| color := None; filterByNContours := Default 0; imodautor := Default 0;
                 imodautok := Default 0; mergeAll := false; name := None;
                 path_out := Some "/nowhere"; runImodfillin := false;
                 runPostprocessing := true;
                 slicesToSkipCell := Default 10; slicesToSkipOrganelle := Default 4 |}
              Demo.arguments Demo.world)
    as (errstr & Hrej & Hrun).
  - right. exists "/data/vol.mrc", "/data/cell.mod", "/data/seg".
    split; [reflexivity |]. do 3 right. left. reflexivity.
  - vm_compute in Hrej. injection Hrej as <-. exact Hrun.
Defined.

(** ** The files written at the end *)


Lemma path_join_rel (a : string) (c : ascii) (b : string) :
  c <> "/"%char ->
  Py.path_join a (String c b)
  = (if bool_decide (a = "") || Py.ends_with_slash a then a else a +:+ "/") +:+ String c b.
Proof.
  intros Hc. unfold Py.path_join.
  destruct (bool_decide (a = "") || Py.ends_with_slash a);
    destruct c as [[] [] [] [] [] [] [] []]; try done; by rewrite append_assoc.
Qed.


Section Outputs.
Context `{Toolchain}.


End Outputs.






Section Assembly.
Context `{Toolchain}.




End Assembly.

Section Written.
Context `{Toolchain}.


End Written.



Example postprocess_demo :
  let r := postprocess (H := Demo.toolchain) Demo.postprocessing_options (out_base "/data/out")
             Demo.assembled_world in
  r.1 = Returned tt
  /\ fs r.2 !! "/data/out/tmp/out_postprocessed.mod" = Some (File "objects 3,5")
  /\ fs r.2 !! "/data/out/tmp/out.mod" = Some (File "assembled").
Proof. vm_compute. done. Qed.

(** ** Filtering the objects *)

Lemma truthy_positive (v : optval) (N : Z) :
  int_of_optval v = Some N -> 0 < N -> truthy v = true.
Proof.
  destruct v as [n | s]; simpl.
  - intros [= ->] HN. apply negb_true_iff, Z.eqb_neq. lia.
  - intros Hs _. by destruct s.
Qed.

(** C8.  With [--filterByNContours] standing for the integer [N > 0], the
    filtering step of post-processing returns a model whose objects are
    those of the model it is given with more than [N] contours: an object
    with [N] contours or fewer is not among them, an object with more is,
    and the retained objects are the given ones, in their order. *)
Theorem filter_removes_small_objects (opts : Options) (N : Z) (mdl : ImodModel) (w : World) :
  int_of_optval (filterByNContours opts) = Some N ->
  0 < N ->
  exists mdl',
    filter_objects opts mdl w = (Returned mdl', w)
    /\ Objects mdl' = filter (fun o => N < nContours o) (Objects mdl)
    /\ (forall o, o ∈ Objects mdl' -> o ∈ Objects mdl /\ N < nContours o)
    /\ (forall o, o ∈ Objects mdl -> nContours o <= N -> o ∉ Objects mdl')
    /\ (forall o, o ∈ Objects mdl -> N < nContours o -> o ∈ Objects mdl')
    /\ sublist (Objects mdl') (Objects mdl).
Proof.
  intros HN Hpos. eexists. split.
  { unfold filter_objects. rewrite (truthy_positive _ _ HN Hpos), HN. reflexivity. }
  simpl. split; [done |]. split; [| split; [| split]].
  - intros o Ho. apply list_elem_of_filter in Ho. tauto.
  - intros o _ Hle Ho. apply list_elem_of_filter in Ho. lia.
  - intros o Ho Hlt. by apply list_elem_of_filter.
  - apply sublist_filter.
Qed.

(** [--filterByNContours 2] on objects of 3, 1, 2 and 5 contours. *)
Lemma filter_removes_small_objects_witness :
  exists mdl',
    filter_objects Demo.postprocessing_options Demo.assembled world0 = (Returned mdl', world0)
    /\ Objects mdl' = [Demo.object_of 3; Demo.object_of 5].
Proof.
  destruct (filter_removes_small_objects Demo.postprocessing_options 2 Demo.assembled world0
              eq_refl)
    as (mdl' & Hrun & Hobjs & _).
  - lia.
  - exists mdl'. split; [exact Hrun |]. rewrite Hobjs. reflexivity.
Defined.

(** ** The script from end to end *)

(** A cell traced on slices 1, 2 and 4, four segmentation files: three
    turns of the loop, one warning for the missing slice, the contours of
    the first and third slices numbered 1, 2 and 3, 4 in the accumulated
    listing, the second slice contributing none. *)
Example main_demo :
  let r := main (H := Demo.toolchain) Demo.options Demo.arguments Demo.world in
  r.1 = Returned tt
  /\ filter (fun l => l = "WARNING: Missing contour") (stdout r.2) = ["WARNING: Missing contour"]
  /\ fs r.2 !! "/data/out/tmp/out.txt" = Some (File "1 1 1.00 1.00 0
1 1 2.00 1.00 0
1 2 3.00 3.00 0
1 3 1.00 1.00 0
1 3 2.00 1.00 0
1 4 3.00 3.00 0
")
  /\ fs r.2 !! "/data/out/tmp/out.mod" = Some (File "assembled").
Proof. vm_compute. done. Qed.

(** * Further properties of the script *)

(** ** The Z value of a contour *)

Lemma z_values_nil (cont : ImodContour) :
  z_values cont = [] <-> (length (points cont) < 3)%nat.
Proof.
  unfold z_values, Py.slice_from_step.
  destruct (points cont) as [| a [| b [| c l]]]; simpl; split; intros; try done; lia.
Qed.

(** X1.  [get_z_from_ImodContour] on any contour: with fewer than three
    coordinates (no point) it raises [ValueError]; otherwise it returns a Z
    value of the contour that no other Z value of the contour is below.  In
    both cases the world is left as it was: nothing is printed. *)
Theorem get_z_least_or_raises (cont : ImodContour) (w : World) :
  ((length (points cont) < 3)%nat
   /\ get_z_from_ImodContour cont w = (Raised Py.ValueError, w))
  \/ ((3 <= length (points cont))%nat
      /\ exists z, get_z_from_ImodContour cont w = (Returned z, w)
                   /\ z ∈ z_values cont
                   /\ forall x, x ∈ z_values cont -> z <= x).
Proof.
  destruct (decide (z_values cont = [])) as [He | Hne].
  - left. split; [by apply z_values_nil | by apply get_z_empty].
  - right. split.
    + destruct (decide (3 <= length (points cont))%nat) as [? | Hlt]; [done |].
      destruct Hne. apply z_values_nil. lia.
    + by apply get_z_least.
Qed.

(** Z values 5, 7, 7: the least one, 5, is returned. *)
Lemma get_z_least_or_raises_witness :
  exists z, get_z_from_ImodContour mixed_contour world0 = (Returned z, world0)
            /\ forall x, x ∈ [5; 7; 7] -> z <= x.
Proof.
  destruct (get_z_least_or_raises mixed_contour world0) as [[Hlen _] | (_ & z & Hz & _ & Hmin)].
  - simpl in Hlen. lia.
  - exists z. split; [exact Hz |].
    intros x Hx. apply Hmin.
    assert (z_values mixed_contour = [5; 7; 7]) as -> by (vm_compute; reflexivity).
    exact Hx.
Defined.

(** X2.  A contour with at least one point whose Z coordinates all truncate
    to the same integer [v]: [get_z_from_ImodContour] returns [v]. *)
Theorem get_z_single_plane (cont : ImodContour) (v : Z) (w : World) :
  (3 <= length (points cont))%nat ->
  (forall x, x ∈ Py.slice_from_step 2 3 (points cont) -> Py.int_of_float x = v) ->
  get_z_from_ImodContour cont w = (Returned v, w).
Proof.
  intros Hlen Hall. apply get_z_single.
  - intros He. apply z_values_nil in He. lia.
  - intros x Hx. unfold z_values in Hx.
    apply list_elem_of_fmap in Hx as (q & -> & Hq). by apply Hall.
Qed.

(** Z coordinates 4.2, 4.9 and 4: the plane is 4. *)
Lemma get_z_single_plane_witness :
  get_z_from_ImodContour fractional_contour world0 = (Returned 4, world0).
Proof.
  apply (get_z_single_plane fractional_contour 4 world0).
  - simpl. lia.
  - intros x Hx. simpl in Hx.
    repeat (apply elem_of_cons in Hx as [-> | Hx]); try reflexivity.
    by apply elem_of_nil in Hx.
Defined.

(** ** Warnings while building [zlist] *)

(** What lines 186-203 return and print. *)
Lemma build_zlist_run (mdl : ImodModel) (o : ImodObject) (os : list ImodObject)
    (zs : list Z) (w : World) :
  Objects mdl = o :: os ->
  Contours o <> [] ->
  Forall2 returns (Contours o) zs ->
  exists zmin zmax,
    head zs = Some zmin /\ last zs = Some zmax
    /\ build_zlist mdl w
       = (Returned zs,
          say w (["Z min: " +:+ Py.str zmin; "Z max: " +:+ Py.str zmax]
                 ++ concat (imap (zlist_row zs) zs)
                 ++ [show_list (Py.str <$> zs)])).
Proof.
  intros Ho Hne Hall.
  destruct (Contours o) as [| c0 cs] eqn:Hcs; [done |].
  destruct zs as [| zmin zs']; [by apply Forall2_nil_inv_r in Hall |].
  destruct (last (c0 :: cs)) as [cl |] eqn:Hcl; [| by apply last_None in Hcl].
  destruct (last (zmin :: zs')) as [zmax |] eqn:Hzl; [| by apply last_None in Hzl].
  exists zmin, zmax. split; [done |]. split; [done |].
  assert (returns cl zmax) as Hmax.
  { rewrite last_lookup in Hcl. rewrite last_lookup in Hzl.
    rewrite <- (Forall2_length _ _ _ Hall) in Hzl.
    by eapply Forall2_lookup_lr in Hall. }
  assert (returns c0 zmin) as Hmin by by apply Forall2_cons_1 in Hall as [? _].
  unfold build_zlist.
  rewrite (bind_returned _ _ _ _ _ (object0_head _ _ _ _ Ho)).
  rewrite Hcs. change (Py.index (c0 :: cs) 0) with (Py.index (c0 :: cs) (Z.of_nat 0)).
  rewrite (index_lookup (c0 :: cs) 0 c0) by done.
  erewrite bind_returned; [| reflexivity].
  rewrite (bind_returned _ _ _ _ _ (Hmin w)).
  rewrite (bind_returned _ _ _ _ _ (object0_head _ _ _ _ Ho)).
  rewrite Hcs, (index_last _ _ Hcl).
  erewrite bind_returned; [| reflexivity].
  rewrite (bind_returned _ _ _ _ _ (Hmax w)).
  erewrite bind_returned; [| apply print_say].
  erewrite bind_returned; [| apply print_say].
  rewrite (bind_returned _ _ _ _ _ (object0_head _ _ _ _ Ho)).
  unfold range, nContours. rewrite Nat2Z.id, Hcs.
  pose proof (zlist_loop mdl o os Ho (c0 :: cs) [] (zmin :: zs') [] zmin
                (say (say w ["Z min: " +:+ Py.str zmin]) ["Z max: " +:+ Py.str zmax]))
    as Hloop.
  simpl app in Hloop. change (length (@nil ImodContour)) with 0%nat in Hloop.
  erewrite bind_returned; [| apply Hloop; [done | constructor | done | by right]].
  cbv beta iota. unfold snd.
  erewrite bind_returned; [| apply print_say].
  unfold mret, M_ret. rewrite !say_say. do 3 f_equal.
Qed.

Lemma warnings_app (a b : list string) : warnings (a ++ b) = (warnings a + warnings b)%nat.
Proof. unfold warnings. by rewrite filter_app, length_app. Qed.

Lemma warnings_row (zs : list Z) (i : nat) (z : Z) :
  warnings (zlist_row zs i z) = if gap_at zs i then 1%nat else 0%nat.
Proof.
  unfold warnings, zlist_row. rewrite filter_cons_False by (intros E; discriminate E).
  destruct (gap_at zs i); [| done].
  by rewrite filter_cons_True.
Qed.

Lemma warnings_rows (zs : list Z) (l : list Z) :
  forall k : nat,
    warnings (concat (imap (fun i z => zlist_row zs (k + i) z) l))
    = length (filter (fun i => gap_at zs i = true) (seq k (length l))).
Proof.
  induction l as [| z l IH]; intros k; [done |].
  rewrite imap_cons, concat_cons, warnings_app, warnings_row, Nat.add_0_r.
  simpl seq.
  rewrite (imap_ext _ (fun i z => zlist_row zs (S k + i) z))
    by (intros i x _; simpl; f_equal; lia).
  rewrite IH.
  destruct (gap_at zs k) eqn:Hg.
  - by rewrite filter_cons_True.
  - rewrite filter_cons_False; [done |]. by rewrite Hg.
Qed.

Lemma filter_none {A : Type} (P : A -> Prop) `{!forall x, Decision (P x)} (l : list A) :
  (forall x, x ∈ l -> ~ P x) -> filter P l = [].
Proof.
  induction l as [| x l IH]; intros Hno; [done |].
  rewrite filter_cons_False by (apply Hno, elem_of_cons; by left).
  apply IH. intros y Hy. apply Hno, elem_of_cons. by right.
Qed.

(** No gap where each Z value is the previous one plus 1. *)
Lemma gaps_consecutive (zs : list Z) :
  (forall i z z', zs !! i = Some z -> zs !! S i = Some z' -> z' = z + 1) ->
  gaps zs = [].
Proof.
  intros Hcons. unfold gaps.
  apply filter_none. intros i _ Hg.
  unfold gap_at in Hg. destruct i as [| j]; [done |].
  destruct (zs !! j) as [z |] eqn:Hj; [| done].
  destruct (zs !! S j) as [z' |] eqn:Hi; [| done].
  rewrite (Hcons j z z' Hj Hi), Z.eqb_refl in Hg. done.
Qed.

(** X3.  The lines printed while [zlist] is built hold as many
    missing-contour warnings as [zlist] has gaps (positions after the first
    whose value is not the previous value plus 1); none at all when the Z
    values are consecutive.  The list returned has one entry per contour. *)
Theorem build_zlist_warning_count (mdl : ImodModel) (o : ImodObject) (os : list ImodObject)
    (zs : list Z) (w : World) :
  Objects mdl = o :: os ->
  Contours o <> [] ->
  Forall2 returns (Contours o) zs ->
  exists out,
    build_zlist mdl w = (Returned zs, say w out)
    /\ length zs = length (Contours o)
    /\ warnings out = length (gaps zs)
    /\ ((forall i z z', zs !! i = Some z -> zs !! S i = Some z' -> z' = z + 1) ->
        missing_warning ∉ out).
Proof.
  intros Ho Hne Hall.
  destruct (build_zlist_run mdl o os zs w Ho Hne Hall) as (zmin & zmax & _ & _ & Hrun).
  eexists. split; [exact Hrun |].
  split; [symmetry; by eapply Forall2_length |].
  assert (warnings (["Z min: " +:+ Py.str zmin; "Z max: " +:+ Py.str zmax]
                    ++ concat (imap (zlist_row zs) zs) ++ [show_list (Py.str <$> zs)])
          = length (gaps zs)) as Hcount.
  { rewrite !warnings_app.
    assert (warnings (concat (imap (zlist_row zs) zs))
            = length (filter (fun i => gap_at zs i = true) (seq 0 (length zs)))) as Hrows
      by exact (warnings_rows zs zs 0).
    rewrite Hrows. unfold gaps, warnings.
    rewrite !filter_cons_False by (intros E; discriminate E). simpl. lia. }
  split; [done |].
  intros Hcons Hin. rewrite (gaps_consecutive zs Hcons) in Hcount.
  unfold warnings in Hcount. apply length_zero_iff_nil in Hcount.
  assert (missing_warning ∈ filter (fun l => l = missing_warning)
            (["Z min: " +:+ Py.str zmin; "Z max: " +:+ Py.str zmax]
             ++ concat (imap (zlist_row zs) zs) ++ [show_list (Py.str <$> zs)])) as Hf
    by by apply list_elem_of_filter.
  rewrite Hcount in Hf. by apply elem_of_nil in Hf.
Qed.

(** Contours on Z = 1, 2, 4: one gap, one warning. *)
Lemma build_zlist_warning_count_witness :
  exists out,
    build_zlist Demo.cell world0 = (Returned [1; 2; 4], say world0 out)
    /\ warnings out = 1%nat.
Proof.
  destruct (build_zlist_warning_count Demo.cell _ _ [1; 2; 4] world0 eq_refl)
    as (out & Hrun & _ & Hcount & _).
  - discriminate.
  - repeat constructor.
  - exists out. split; [exact Hrun | exact Hcount].
Defined.

(** ** Where the script can exit *)

Lemma no_exit_ret {A : Type} (a : A) : no_exit (mret a).
Proof. by intros w code w'. Qed.

Lemma no_exit_bind {A B : Type} (c : M A) (f : A -> M B) :
  no_exit c -> (forall a, no_exit (f a)) -> no_exit (c ≫= f).
Proof.
  intros Hc Hf w code w'. unfold mbind, M_bind.
  destruct (c w) as [[a | code1 | e] w1] eqn:Hcw.
  - apply Hf.
  - by destruct (Hc w code1 w1).
  - done.
Qed.

Lemma no_exit_for {A S : Type} (l : list A) (body : S -> A -> M S) :
  (forall s x, no_exit (body s x)) -> forall s, no_exit (for_ l body s).
Proof.
  intros Hbody. induction l as [| x l IH]; intros s; simpl.
  - apply no_exit_ret.
  - by apply no_exit_bind.
Qed.

Lemma no_exit_raise {A : Type} (e : Py.exn) : no_exit (raise (A := A) e).
Proof. by intros w code w'. Qed.

Lemma no_exit_lift {A : Type} (r : Py.exn + A) : no_exit (lift r).
Proof. destruct r; [apply no_exit_raise | apply no_exit_ret]. Qed.

Lemma no_exit_lift_opt {A : Type} (e : Py.exn) (r : option A) : no_exit (lift_opt e r).
Proof. destruct r; [apply no_exit_ret | apply no_exit_raise]. Qed.

Lemma no_exit_print (s : string) : no_exit (print s).
Proof. by intros w code w'. Qed.

Lemma no_exit_read_file (p : string) : no_exit (read_file p).
Proof. intros w code w'. unfold read_file. by destruct (fs w !! p) as [[| d] |]. Qed.

Lemma no_exit_write_file (p d : string) : no_exit (write_file p d).
Proof. intros w code w'. unfold write_file. by destruct (fs w !! p) as [[| d'] |]. Qed.

Lemma no_exit_remove (p : string) : no_exit (remove p).
Proof. intros w code w'. unfold remove. by destruct (fs w !! p) as [[| d] |]. Qed.

Lemma no_exit_st_size (p : string) : no_exit (st_size p).
Proof. intros w code w'. unfold st_size. by destruct (fs w !! p) as [[| d] |]. Qed.

Lemma no_exit_open_append (p : string) : no_exit (open_append p).
Proof. intros w code w'. unfold open_append. by destruct (fs w !! p) as [[| d] |]. Qed.

Lemma no_exit_write_append (p s : string) : no_exit (write_append p s).
Proof. intros w code w'. unfold write_append. by destruct (fs w !! p) as [[| d] |]. Qed.

Lemma no_exit_makedirs (p : string) : no_exit (makedirs p).
Proof. intros w code w'. unfold makedirs. by destruct (fs w !! p). Qed.

Ltac no_exit_step :=
  first
    [ apply no_exit_ret | apply no_exit_print | apply no_exit_lift | apply no_exit_lift_opt
    | apply no_exit_raise | apply no_exit_read_file | apply no_exit_write_file
    | apply no_exit_remove | apply no_exit_st_size | apply no_exit_open_append
    | apply no_exit_write_append | apply no_exit_makedirs
    | apply no_exit_bind; [| intros ?]
    | match goal with
      | |- no_exit (if ?b then _ else _) => destruct b
      | |- no_exit (when ?b _) => destruct b; unfold when
      | |- no_exit (match ?x with _ => _ end) => destruct x
      end ].

Lemma no_exit_get_z (cont : ImodContour) : no_exit (get_z_from_ImodContour cont).
Proof. unfold get_z_from_ImodContour. repeat no_exit_step. Qed.

Lemma no_exit_object0 (mdl : ImodModel) : no_exit (object0 mdl).
Proof. apply no_exit_lift. Qed.

Lemma no_exit_build_zlist (mdl : ImodModel) : no_exit (build_zlist mdl).
Proof.
  unfold build_zlist.
  repeat first [ apply no_exit_get_z | apply no_exit_object0 | apply no_exit_for; intros ? ?
               | no_exit_step ].
  unfold zlist_step.
  repeat first [ apply no_exit_get_z | apply no_exit_object0 | no_exit_step ].
Qed.

Lemma no_exit_accumulate (file_tmp file_out : string) (C : Z) :
  no_exit (accumulate file_tmp file_out C).
Proof.
  unfold accumulate.
  repeat first [ apply no_exit_for; intros ? ?; unfold append_line | no_exit_step ].
Qed.

Section NoExit.
Context `{Toolchain}.

Lemma no_exit_call (argv : list string) : no_exit (subprocess_call argv).
Proof. by intros w code w'. Qed.

Lemma no_exit_run (cmd : string) : no_exit (run cmd).
Proof. unfold run. apply no_exit_bind; [apply no_exit_print | intros; apply no_exit_call]. Qed.

Lemma no_exit_load_cell (opts : Options) (file_mod : string) :
  no_exit (load_cell opts file_mod).
Proof.
  unfold load_cell, ImodModel_load, print_nContours.
  repeat first [ apply no_exit_object0 | no_exit_step ].
Qed.

Lemma no_exit_process_slice (opts : Options) (path_tmp file_cell file_mrc : string)
    (filesOrg : list string) (nRowMrc nColMrc : Z) (st : Z * option string) (zi : Z) :
  no_exit (process_slice opts path_tmp file_cell file_mrc filesOrg nRowMrc nColMrc st zi).
Proof.
  unfold process_slice, make_listing, render_mask, intersect_slice, trace_slice,
    append_listing, imread, imsave.
  repeat first [ apply no_exit_run | apply no_exit_call | apply no_exit_accumulate
               | no_exit_step ].
Qed.

Lemma no_exit_postprocess (opts : Options) (file_out : string) :
  no_exit (postprocess opts file_out).
Proof.
  unfold postprocess, ImodModel_load, filter_objects, ImodWrite.
  repeat no_exit_step.
Qed.

(** Everything after the validation. *)
Lemma no_exit_after_validation (opts : Options) (file_mrc file_mod path_seg path_tmp : string) :
  no_exit
    (mdl ← load_cell opts file_mod;
     zlist ← build_zlist mdl;
     '(nColMrc, nRowMrc, nslices) ← read_dims file_mrc;
     filesOrg ← list_segmentations path_seg;
     print (show_list (repr <$> filesOrg));;
     let file_cell := Py.path_join path_tmp "cell.mod" in
     ImodWrite mdl file_cell;;
     st ← for_ zlist (process_slice opts path_tmp file_cell file_mrc filesOrg nRowMrc nColMrc)
            (0, None);
     remove file_cell;;
     file_out ← lift_opt Py.NameError st.2;
     assemble file_mrc file_out;;
     when (runPostprocessing opts) (postprocess opts file_out)).
Proof.
  unfold read_dims, ImodWrite, assemble.
  repeat first [ apply no_exit_load_cell | apply no_exit_build_zlist | apply no_exit_run
               | apply no_exit_postprocess
               | apply no_exit_for; intros ? ?; apply no_exit_process_slice
               | by intros w code w'
               | no_exit_step ].
Qed.

End NoExit.

Lemma rejection_invalid (opts : Options) (args : list string) (w : World) (errstr : string) :
  rejection opts args w = Some errstr -> invalid opts args w.
Proof.
  unfold rejection, invalid. intros Hrej.
  destruct args as [| a [| b [| c [| d args]]]]; try (left; simpl; lia).
  right. exists a, b, c. split; [done |].
  destruct (is_file (fs w) a); [| by left].
  destruct (is_file (fs w) b); [| right; by left].
  destruct (is_dir (fs w) c); [| do 2 right; by left].
  destruct (is_dir (fs w) (resolved_out opts w)); [| do 3 right; by left].
  destruct (is_dir (fs w) (Py.path_join (resolved_out opts w) "tmp")); [| done].
  by do 4 right.
Qed.

Section Exits.
Context `{Toolchain}.

(** With the output directory there and no directory [tmp] in it, lines
    146-159 come down to [os.makedirs]. *)
Lemma output_dirs_accepts (opts : Options) (w : World) :
  is_dir (fs w) (resolved_out opts w) = true ->
  is_dir (fs w) (Py.path_join (resolved_out opts w) "tmp") = false ->
  output_dirs opts w
  = match fs w !! Py.path_join (resolved_out opts w) "tmp" with
    | Some _ => (Raised Py.OSError, w)
    | None =>
        (Returned (resolved_out opts w, Py.path_join (resolved_out opts w) "tmp"),
         with_fs w (<[Py.path_join (resolved_out opts w) "tmp" := Dir]> (fs w)))
    end.
Proof.
  intros Hout Htmp. unfold output_dirs.
  assert ((if truthy_str (path_out opts) then mret (default "" (path_out opts)) else getcwd) w
          = (Returned (resolved_out opts w), w)) as Hres.
  { unfold resolved_out. by destruct (truthy_str (path_out opts)). }
  rewrite (bind_returned _ _ _ _ _ Hres).
  erewrite bind_returned; [| reflexivity].
  fold (is_dir (fs w) (resolved_out opts w)). rewrite Hout.
  erewrite bind_returned; [| reflexivity].
  erewrite bind_returned; [| reflexivity].
  fold (is_dir (fs w) (Py.path_join (resolved_out opts w) "tmp")). rewrite Htmp.
  erewrite bind_returned; [| reflexivity].
  unfold mbind, M_bind, makedirs.
  by destruct (fs w !! Py.path_join (resolved_out opts w) "tmp").
Qed.

(** An invocation that passes every check does not exit. *)
Lemma main_accepted_no_exit (opts : Options) (args : list string) (w : World) :
  rejection opts args w = None ->
  forall code w', main opts args w <> (Exited code, w').
Proof.
  intros Hrej code w'. unfold rejection in Hrej.
  destruct args as [| file_mrc [| file_mod [| path_seg [| extra args]]]]; try done.
  destruct (is_file (fs w) file_mrc) eqn:Hmrc; [| done].
  destruct (is_file (fs w) file_mod) eqn:Hmod; [| done].
  destruct (is_dir (fs w) path_seg) eqn:Hseg; [| done].
  destruct (is_dir (fs w) (resolved_out opts w)) eqn:Hout; [| done].
  destruct (is_dir (fs w) (Py.path_join (resolved_out opts w) "tmp")) eqn:Htmp; [done |].
  unfold main.
  rewrite (bind_returned _ _ _ _ _ (check_args_accepts _ _ _ _ Hmrc Hmod Hseg)).
  pose proof (output_dirs_accepts opts w Hout Htmp) as Hdirs.
  destruct (fs w !! Py.path_join (resolved_out opts w) "tmp").
  - by rewrite (bind_raised _ _ _ _ _ Hdirs).
  - rewrite (bind_returned _ _ _ _ _ Hdirs). apply no_exit_after_validation.
Qed.

(** X4.  The script ends through [exit] only in the validation: whenever
    [main] exits, the status is 1, the invocation is one of the invalid
    ones (argument count, volume, model, segmentation directory, output
    path, existing [tmp] directory), and the world is the one it found
    plus the five lines of the usage message with the error of the first
    failing check.  Nothing past the validation calls [exit]. *)
Theorem main_exits_only_on_invalid (opts : Options) (args : list string) (w w' : World)
    (code : Z) :
  main opts args w = (Exited code, w') ->
  code = 1
  /\ invalid opts args w
  /\ exists errstr,
       rejection opts args w = Some errstr
       /\ w' = say w [""; help_text; ""; "ERROR: " +:+ errstr; ""].
Proof.
  intros Hrun.
  destruct (rejection opts args w) as [errstr |] eqn:Hrej.
  - rewrite (main_rejection opts args w errstr Hrej) in Hrun. injection Hrun as <- <-.
    split; [done |]. split; [by eapply rejection_invalid | by exists errstr].
  - by destruct (main_accepted_no_exit opts args w Hrej code w').
Qed.

(** X5.  A regular file named [tmp] in the output directory is not caught
    by the check of line 156, which asks for a directory: with every other
    check passed, [os.makedirs] raises [OSError].  The script ends on that
    exception having printed nothing, usage message included, and having
    changed nothing. *)
Theorem main_tmp_regular_file (opts : Options) (file_mrc file_mod path_seg data : string)
    (w : World) :
  is_file (fs w) file_mrc = true ->
  is_file (fs w) file_mod = true ->
  is_dir (fs w) path_seg = true ->
  is_dir (fs w) (resolved_out opts w) = true ->
  fs w !! Py.path_join (resolved_out opts w) "tmp" = Some (File data) ->
  main opts [file_mrc; file_mod; path_seg] w = (Raised Py.OSError, w).
Proof.
  intros Hmrc Hmod Hseg Hout Htmp. unfold main.
  rewrite (bind_returned _ _ _ _ _ (check_args_accepts _ _ _ _ Hmrc Hmod Hseg)).
  apply bind_raised. rewrite output_dirs_accepts; [by rewrite Htmp | done |].
  unfold is_dir. by rewrite Htmp.
Qed.

(** An invocation that passes every check, with nothing yet at the path of
    [tmp]: the output path and [tmp] are returned and the one change to the
    world is the new directory [tmp]. *)
Lemma output_dirs_makes_tmp (opts : Options) (w : World) :
  is_dir (fs w) (resolved_out opts w) = true ->
  fs w !! Py.path_join (resolved_out opts w) "tmp" = None ->
  output_dirs opts w
  = (Returned (resolved_out opts w, Py.path_join (resolved_out opts w) "tmp"),
     with_fs w (<[Py.path_join (resolved_out opts w) "tmp" := Dir]> (fs w))).
Proof.
  intros Hout Htmp. rewrite output_dirs_accepts; [by rewrite Htmp | done |].
  unfold is_dir. by rewrite Htmp.
Qed.

End Exits.

Lemma main_exits_only_on_invalid_witness :
  invalid Demo.options ["/data/vol.mrc"; "/data/cell.mod"] Demo.world.
Proof.
  refine (proj1 (proj2 (main_exits_only_on_invalid (H := Demo.toolchain) Demo.options
                          ["/data/vol.mrc"; "/data/cell.mod"] Demo.world
                          (say Demo.world [""; help_text; "";
                                           "ERROR: Improper number of arguments."; ""])
                          1 _))).
  reflexivity.
Defined.

Lemma main_tmp_regular_file_witness :
  main (H := Demo.toolchain) Demo.options Demo.arguments tmp_file_world
  = (Raised Py.OSError, tmp_file_world).
Proof.
  apply (main_tmp_regular_file (H := Demo.toolchain) Demo.options
           "/data/vol.mrc" "/data/cell.mod" "/data/seg" "" tmp_file_world);
    reflexivity.
Defined.


(** ** The segmentation file of a slice *)

Section Lookup.
Context `{Toolchain}.

(** X6.  Which segmentation file slice [zi] reads, [n] being the number of
    files: for [1 <= zi <= n] the file at position [zi - 1] of the sorted
    listing; for [-n < zi <= 0] the file at position [n + zi - 1], counted
    from the end; for [zi > n] or [zi <= -n] the look-up raises
    [IndexError], and the slice step, having read the cell mask, ends on it
    leaving the world as it was. *)
Theorem organelle_lookup (filesOrg : list string) (zi : Z) :
  let n := Z.of_nat (length filesOrg) in
  (1 <= zi <= n ->
   exists f, filesOrg !! Z.to_nat (zi - 1) = Some f /\ Py.index filesOrg (zi - 1) = inr f)
  /\ (- n < zi <= 0 ->
      exists f, filesOrg !! Z.to_nat (n + zi - 1) = Some f
                /\ Py.index filesOrg (zi - 1) = inr f)
  /\ (n < zi \/ zi <= - n ->
      Py.index filesOrg (zi - 1) = inl Py.IndexError
      /\ forall (file_tmp : string) (nRowMrc nColMrc : Z) (w : World)
                (dataCell : string) (imgCell : ndarray),
           fs w !! (file_tmp +:+ ".tif") = Some (File dataCell) ->
           imread_decode dataCell = Some imgCell ->
           intersect_slice file_tmp filesOrg zi nRowMrc nColMrc w
           = (Raised Py.IndexError, w)).
Proof.
  intros n. split; [| split].
  - intros Hzi.
    destruct (lookup_lt_is_Some_2 filesOrg (Z.to_nat (zi - 1))) as [f Hf]; [lia |].
    exists f. split; [done |].
    rewrite <- (Z2Nat.id (zi - 1)) by lia. by apply index_lookup.
  - intros Hzi.
    destruct (lookup_lt_is_Some_2 filesOrg (Z.to_nat (n + zi - 1))) as [f Hf]; [lia |].
    exists f. split; [done |]. unfold Py.index. fold n.
    destruct (Z.ltb_spec (zi - 1) 0) as [_ | ?]; [| lia].
    destruct (Z.leb_spec 0 (zi - 1 + n)) as [_ | ?]; [| lia].
    destruct (Z.ltb_spec (zi - 1 + n) n) as [_ | ?]; [| lia].
    simpl. replace (zi - 1 + n) with (n + zi - 1) by lia. by rewrite Hf.
  - intros Hzi.
    assert (Py.index filesOrg (zi - 1) = inl Py.IndexError) as Hidx.
    { unfold Py.index. fold n.
      destruct (Z.ltb_spec (zi - 1) 0) as [? | ?].
      - destruct (Z.leb_spec 0 (zi - 1 + n)) as [? | ?]; [lia | done].
      - destruct (Z.ltb_spec (zi - 1) n) as [? | ?]; [lia |]. by rewrite andb_false_r. }
    split; [done |].
    intros file_tmp nRowMrc nColMrc w dataCell imgCell Hc Hdc.
    unfold intersect_slice.
    assert (imread (file_tmp +:+ ".tif") w = (Returned imgCell, w)) as Hrc.
    { unfold imread, read_file, mbind, M_bind. by rewrite Hc, Hdc. }
    rewrite (bind_returned _ _ _ _ _ Hrc), Hidx.
    by apply bind_raised.
Qed.

(** X7.  When the cell mask read does not have the volume's shape, the
    mask written does not depend on it: the slice step intersects the
    resized organelle image with the organelle image, so two cell masks of
    wrong shape give the same result and the same world.  [imresize] is
    taken to return the size it is asked for. *)
Theorem mismatched_cell_mask_ignored (file_tmp : string) (filesOrg : list string)
    (zi nRowMrc nColMrc : Z) (w : World)
    (fileOrg dataOrg data1 data2 : string) (imgOrg img1 img2 : ndarray) :
  fileOrg <> file_tmp +:+ ".tif" ->
  Py.index filesOrg (zi - 1) = inr fileOrg ->
  fs w !! fileOrg = Some (File dataOrg) ->
  imread_decode dataOrg = Some imgOrg ->
  imread_decode data1 = Some img1 ->
  imread_decode data2 = Some img2 ->
  differs nRowMrc nColMrc img1 = true ->
  differs nRowMrc nColMrc img2 = true ->
  (forall a, native nRowMrc nColMrc (imresize a nRowMrc nColMrc)) ->
  exists imgMask,
    intersect_slice file_tmp filesOrg zi nRowMrc nColMrc (written w (file_tmp +:+ ".tif") data1)
    = (Returned tt, written w (file_tmp +:+ ".tif") (imsave_encode imgMask))
    /\ intersect_slice file_tmp filesOrg zi nRowMrc nColMrc
         (written w (file_tmp +:+ ".tif") data2)
       = (Returned tt, written w (file_tmp +:+ ".tif") (imsave_encode imgMask))
    /\ pointwise_and imgMask (imresize imgOrg nRowMrc nColMrc)
         (if differs nRowMrc nColMrc imgOrg then imresize imgOrg nRowMrc nColMrc
          else imgOrg).
Proof.
  intros Hne Hidx Horg Hdorg Hd1 Hd2 Hdiff1 Hdiff2 Hresize.
  set (o' := if differs nRowMrc nColMrc imgOrg then imresize imgOrg nRowMrc nColMrc
             else imgOrg).
  assert (native nRowMrc nColMrc o') as [Ho0 Ho1].
  { unfold o'. destruct (differs nRowMrc nColMrc imgOrg) eqn:Hd; [apply Hresize |].
    by apply differs_native. }
  destruct (Hresize imgOrg) as [Hr0 Hr1].
  destruct (logical_and_same (imresize imgOrg nRowMrc nColMrc) o')
    as (m & Hm & _ & _ & _ & Hand); [lia | lia |].
  assert (forall data img,
            imread_decode data = Some img ->
            differs nRowMrc nColMrc img = true ->
            intersect_slice file_tmp filesOrg zi nRowMrc nColMrc
              (written w (file_tmp +:+ ".tif") data)
            = (Returned tt, written w (file_tmp +:+ ".tif") (imsave_encode m))) as Hrun.
  { intros data img Hd Hdiff.
    rewrite (intersect_slice_reads file_tmp filesOrg zi nRowMrc nColMrc _ data fileOrg
               dataOrg img imgOrg); try done.
    - unfold resize_images. fold (differs nRowMrc nColMrc img).
      fold (differs nRowMrc nColMrc imgOrg). rewrite Hdiff. simpl. fold o'. rewrite Hm.
      erewrite bind_returned; [| reflexivity].
      unfold imsave, write_file. simpl. rewrite lookup_insert_eq.
      unfold written, with_fs. simpl. by rewrite insert_insert_eq.
    - unfold written. simpl. apply lookup_insert_eq.
    - unfold written. simpl. by rewrite lookup_insert_ne. }
  exists m. split; [by eapply Hrun |]. split; [by eapply Hrun | done].
Qed.

End Lookup.

Lemma organelle_lookup_witness :
  Py.index Demo.segmentations (2 - 1) = inr "/data/seg/s2.tif"
  /\ Py.index Demo.segmentations (-1 - 1) = inr "/data/seg/s3.tif"
  /\ Py.index Demo.segmentations (5 - 1) = inl Py.IndexError.
Proof.
  destruct (organelle_lookup (H := Demo.toolchain) Demo.segmentations 2) as (H1 & _ & _).
  destruct (organelle_lookup (H := Demo.toolchain) Demo.segmentations (-1)) as (_ & H2 & _).
  destruct (organelle_lookup (H := Demo.toolchain) Demo.segmentations 5) as (_ & _ & H3).
  split; [| split].
  - destruct H1 as (f & Hf & ->); [simpl; lia |]. by injection Hf as <-.
  - destruct H2 as (f & Hf & ->); [simpl; lia |]. by injection Hf as <-.
  - apply H3. left. simpl. lia.
Defined.

(** Two cell masks of 2 by 2 against a volume of 3 by 4: the same mask is
    written, that of the segmentation alone. *)
Lemma mismatched_cell_mask_ignored_witness :
  exists imgMask,
    intersect_slice (H := Demo.toolchain) "/tmp/0001" ["/seg/a.tif"] 1 3 4
      (written mismatch_world "/tmp/0001.tif" "10/01")
    = (Returned tt, written mismatch_world "/tmp/0001.tif" (Demo.encode imgMask))
    /\ intersect_slice (H := Demo.toolchain) "/tmp/0001" ["/seg/a.tif"] 1 3 4
         (written mismatch_world "/tmp/0001.tif" "00/00")
       = (Returned tt, written mismatch_world "/tmp/0001.tif" (Demo.encode imgMask)).
Proof.
  destruct (mismatched_cell_mask_ignored (H := Demo.toolchain) "/tmp/0001" ["/seg/a.tif"]
              1 3 4 mismatch_world "/seg/a.tif" "111/000" "10/01" "00/00"
              (Demo.raster (Demo.rows "111/000")) (Demo.raster (Demo.rows "10/01"))
              (Demo.raster (Demo.rows "00/00")))
    as (imgMask & Hrun1 & Hrun2 & _);
    try first [ discriminate | reflexivity ].
  - intros a. split; reflexivity.
  - by exists imgMask.
Defined.

(** ** Listings that are not well formed *)

(** The loop of lines 286-290 stops at the first line it cannot renumber. *)
Lemma append_lines_stop (file_out : string) (C : Z) (ls : list string) :
  forall (w : World) (old : string),
    fs w !! (file_out +:+ ".txt") = Some (File old) ->
    exists (k : nat) (news : list string) (r : outcome unit),
      for_ ls (append_line file_out C) tt w
      = (r, written w (file_out +:+ ".txt") (old +:+ concat_str news))
      /\ Forall2 (fun line new => new_line C line = inr new) (take k ls) news
      /\ ((r = Returned tt /\ k = length ls)
          \/ exists line e, ls !! k = Some line /\ new_line C line = inl e /\ r = Raised e).
Proof.
  induction ls as [| line ls IH]; intros w old Hold.
  - exists 0%nat, [], (Returned tt). simpl.
    rewrite append_nil_r, written_same by done.
    split; [done |]. split; [constructor | by left].
  - simpl for_. unfold mbind, M_bind. rewrite append_line_new_line.
    destruct (new_line C line) as [e | new] eqn:Hnew.
    + exists 0%nat, [], (Raised e). simpl.
      rewrite append_nil_r, written_same by done.
      split; [done |]. split; [constructor |]. right. by exists line, e.
    + unfold write_append. rewrite Hold.
      fold (written w (file_out +:+ ".txt") (old +:+ new)).
      destruct (IH (written w (file_out +:+ ".txt") (old +:+ new)) (old +:+ new))
        as (k & news & r & Hrun & Hall & Hk).
      { unfold written. simpl. apply lookup_insert_eq. }
      exists (S k), (new :: news), r.
      rewrite Hrun, written_written. simpl. rewrite append_assoc.
      split; [done |]. split; [by constructor |].
      destruct Hk as [[-> ->] | (l & e & Hl & He & ->)]; [by left |].
      right. by exists l, e.
Qed.

(** X8.  A non-empty listing whose last line has no second field, or a
    second field that is not an integer: the block ends on [IndexError] or
    [ValueError] before the accumulated listing is opened.  The world is as
    it was: nothing was appended, no accumulated listing was created. *)
Theorem accumulate_bad_last_line (file_tmp file_out : string) (C : Z) (w : World)
    (data : string) :
  fs w !! (file_tmp +:+ ".txt") = Some (File data) ->
  data <> "" ->
  listing_count data = None ->
  exists e, accumulate file_tmp file_out C w = (Raised e, w)
            /\ (e = Py.IndexError \/ e = Py.ValueError).
Proof.
  intros Hdata Hne Hcount. rewrite (accumulate_unfold _ _ _ _ _ Hdata Hne).
  unfold listing_count in Hcount. rewrite (bool_decide_eq_false_2 _ Hne) in Hcount.
  rewrite Hcount. eexists. split; [reflexivity |].
  destruct (last (Py.lines data)) as [lastline |]; [| by left].
  destruct (Py.split lastline !! 1%nat); [by right | by left].
Qed.

Lemma accumulate_bad_last_line_witness :
  exists e, accumulate "/tmp/0003" "/tmp/out" 3 truncated_listing_world
            = (Raised e, truncated_listing_world).
Proof.
  destruct (accumulate_bad_last_line "/tmp/0003" "/tmp/out" 3 truncated_listing_world _
              eq_refl) as (e & Hrun & _).
  - discriminate.
  - reflexivity.
  - by exists e.
Defined.

(** X9.  A non-empty listing with a valid last line, the accumulated
    listing not being a directory: the lines are renumbered and appended
    one by one, in order.  The block returns [C] plus the count when every
    line was appended; otherwise it ends on the exception of the first line
    that lacks a field ([IndexError]) or whose contour index is not an
    integer ([ValueError]), and the lines before that one stay appended. *)
Theorem accumulate_stops_at_bad_line (file_tmp file_out : string) (C n : Z) (w : World)
    (data : string) :
  fs w !! (file_tmp +:+ ".txt") = Some (File data) ->
  data <> "" ->
  listing_count data = Some n ->
  fs w !! (file_out +:+ ".txt") <> Some Dir ->
  exists (k : nat) (news : list string) (r : outcome Z),
    accumulate file_tmp file_out C w
    = (r, written w (file_out +:+ ".txt")
            (text_at (fs w) (file_out +:+ ".txt") +:+ concat_str news))
    /\ Forall2 (fun line new => new_line C line = inr new) (take k (Py.lines data)) news
    /\ ((r = Returned (C + n) /\ k = length (Py.lines data))
        \/ exists line e,
             Py.lines data !! k = Some line /\ new_line C line = inl e /\ r = Raised e
             /\ (e = Py.IndexError \/ e = Py.ValueError)).
Proof.
  intros Hdata Hne Hcount Hdir. rewrite (accumulate_unfold _ _ _ _ _ Hdata Hne).
  unfold listing_count in Hcount. rewrite (bool_decide_eq_false_2 _ Hne) in Hcount.
  rewrite Hcount.
  assert (forall w', fs w' !! (file_tmp +:+ ".txt") = Some (File data) ->
                     read_file (file_tmp +:+ ".txt") w' = (Returned data, w')) as Hread.
  { intros w' Hw'. unfold read_file. by rewrite Hw'. }
  assert (forall line e, new_line C line = inl e -> e = Py.IndexError \/ e = Py.ValueError)
    as Hexn.
  { intros line e. unfold new_line.
    destruct (Py.split line !! 1%nat); [| intros [= <-]; by left].
    destruct (Py.int _); [| intros [= <-]; by right].
    destruct (Py.split line !! 2%nat); [| intros [= <-]; by left].
    destruct (Py.split line !! 3%nat); [| intros [= <-]; by left].
    destruct (Py.split line !! 4%nat); [done | intros [= <-]; by left]. }
  destruct (fs w !! (file_out +:+ ".txt")) as [[| old] |] eqn:Hout; [done | |].
  - assert (open_append (file_out +:+ ".txt") w = (Returned tt, w)) as Hopen
      by (unfold open_append; by rewrite Hout).
    rewrite (bind_returned _ _ _ _ _ Hopen), (bind_returned _ _ _ _ _ (Hread w Hdata)).
    destruct (append_lines_stop file_out C (Py.lines data) w old Hout)
      as (k & news & r & Hrun & Hall & Hk).
    unfold text_at. rewrite Hout. unfold mbind, M_bind. rewrite Hrun.
    destruct Hk as [[-> ->] | (line & e & Hl & He & ->)].
    + exists (length (Py.lines data)), news, (Returned (C + n)).
      split; [done |]. split; [done | by left].
    + exists k, news, (Raised e). split; [done |]. split; [done |].
      right. exists line, e. repeat split; try done. by eapply Hexn.
  - set (w1 := written w (file_out +:+ ".txt") "").
    assert (open_append (file_out +:+ ".txt") w = (Returned tt, w1)) as Hopen
      by (unfold open_append; by rewrite Hout).
    assert (fs w1 !! (file_tmp +:+ ".txt") = Some (File data)) as Hdata1.
    { unfold w1, written. simpl. rewrite lookup_insert_ne; [done |].
      intros E. rewrite E in Hout. congruence. }
    rewrite (bind_returned _ _ _ _ _ Hopen), (bind_returned _ _ _ _ _ (Hread w1 Hdata1)).
    destruct (append_lines_stop file_out C (Py.lines data) w1 "")
      as (k & news & r & Hrun & Hall & Hk).
    { unfold w1, written. simpl. apply lookup_insert_eq. }
    unfold text_at. rewrite Hout. unfold mbind, M_bind. rewrite Hrun.
    unfold w1. rewrite written_written.
    destruct Hk as [[-> ->] | (line & e & Hl & He & ->)].
    + exists (length (Py.lines data)), news, (Returned (C + n)).
      split; [done |]. split; [done | by left].
    + exists k, news, (Raised e). split; [done |]. split; [done |].
      right. exists line, e. repeat split; try done. by eapply Hexn.
Qed.

(** The second of three lines lacks its coordinates: the first line stays
    appended, the block ends on [IndexError]. *)
Lemma accumulate_stops_at_bad_line_witness :
  exists (k : nat) (news : list string) (r : outcome Z),
    accumulate "/tmp/0003" "/tmp/out" 3 broken_listing_world
    = (r, written broken_listing_world "/tmp/out.txt"
            (text_at (fs broken_listing_world) "/tmp/out.txt" +:+ concat_str news))
    /\ Forall2 (fun line new => new_line 3 line = inr new)
         (take k (Py.lines "1 1 1.00 1.00 2
1 1
1 2 3.00 3.00 2
")) news.
Proof.
  destruct (accumulate_stops_at_bad_line "/tmp/0003" "/tmp/out" 3 2 broken_listing_world _
              eq_refl) as (k & news & r & Hrun & Hall & _).
  - discriminate.
  - reflexivity.
  - discriminate.
  - by exists k, news, r.
Defined.

Example accumulate_broken_listing :
  let r := accumulate "/tmp/0003" "/tmp/out" 3 broken_listing_world in
  r.1 = Raised Py.IndexError
  /\ text_at (fs r.2) "/tmp/out.txt" = "1 1 0.00 0.00 0
1 4 1.00 1.00 2
".
Proof. vm_compute. done. Qed.

(** ** One line of the accumulated listing *)

(** X10.  One turn of the loop of lines 286-290 that returns: the text
    appended to the accumulated listing is one line, ended by its newline
    and holding no other, read back as such; its five fields are [1], the
    contour index of the line read plus [C], and the x, y and z fields of
    the line read, character for character; fields of the line read beyond
    the fifth are dropped.  No other path changes. *)
Theorem append_line_round_trip (file_out : string) (C : Z) (line : string) (w w' : World) :
  append_line file_out C tt line w = (Returned tt, w') ->
  exists new,
    text_at (fs w') (file_out +:+ ".txt") = text_at (fs w) (file_out +:+ ".txt") +:+ new
    /\ record_of C line new
    /\ (exists t, new = t +:+ "
" /\ no_newline t = true)
    /\ Py.lines new = [new]
    /\ forall p, p <> file_out +:+ ".txt" -> fs w' !! p = fs w !! p.
Proof.
  rewrite append_line_new_line.
  destruct (new_line C line) as [e | new] eqn:Hnew; [done |].
  unfold write_append.
  destruct (fs w !! (file_out +:+ ".txt")) as [[| old] |] eqn:Hout; try done.
  intros [= <-]. exists new.
  destruct (new_line_record _ _ _ Hnew) as (Hrec & t & -> & Ht).
  split; [| split; [done | split; [by exists t | split]]].
  - unfold text_at. simpl. by rewrite lookup_insert_eq, Hout.
  - pose proof (lines_line t "" Ht) as Hl. by rewrite append_nil_r in Hl.
  - intros p Hp. simpl. by rewrite lookup_insert_ne.
Qed.

(** A line of six fields naming object 7: the line appended. *)
Lemma append_line_round_trip_witness :
  exists new,
    record_of 3 "7 2 3.50 4.25 9 extra" new
    /\ (exists t, new = t +:+ "
" /\ no_newline t = true)
    /\ Py.lines new = [new].
Proof.
  destruct (append_line_round_trip "/tmp/out" 3 "7 2 3.50 4.25 9 extra" listing_world
              (append_line "/tmp/out" 3 tt "7 2 3.50 4.25 9 extra" listing_world).2)
    as (new & _ & Hrec & Hnl & Hlines & _).
  - apply injective_projections; [vm_compute; reflexivity | reflexivity].
  - by exists new.
Defined.

(** ** The accumulated listing read back, line by line *)

(** X11.  A non-empty listing appended to an accumulated listing made of
    whole lines (or not there yet): when the block returns, the accumulated
    listing read back line by line is the lines it had followed by one
    record per line of the listing, in the order of the listing; each
    record has the five fields [1], contour index plus [C], x, y, z. *)
Theorem accumulate_read_back (file_tmp file_out : string) (C C' : Z) (w w' : World)
    (data : string) (olds : list string) :
  fs w !! (file_tmp +:+ ".txt") = Some (File data) ->
  data <> "" ->
  text_of_lines olds (text_at (fs w) (file_out +:+ ".txt")) ->
  accumulate file_tmp file_out C w = (Returned C', w') ->
  exists news,
    Py.lines (text_at (fs w') (file_out +:+ ".txt")) = olds ++ news
    /\ Forall2 (record_of C) (Py.lines data) news.
Proof.
  intros Hdata Hne Holds Hrun.
  destruct (accumulate_returned _ _ _ _ _ _ _ Hdata Hne Hrun) as (n & news & _ & _ & -> & Hall).
  destruct (new_lines_text _ _ _ Hall) as [Hrec Htext].
  exists news. split; [| done].
  apply lines_text_of_lines.
  unfold written, text_at at 1. simpl. rewrite lookup_insert_eq.
  by apply text_of_lines_app.
Qed.

(** The listing of slice 3 joins three lines: six lines are read back. *)
Lemma accumulate_read_back_witness :
  exists news,
    Py.lines (text_at (fs (accumulate "/tmp/0003" "/tmp/out" 3 listing_world).2) "/tmp/out.txt")
    = [ "1 1 0.00 0.00 0
"; "1 2 5.00 5.00 1
"; "1 3 6.00 5.00 1
" ] ++ news
    /\ length news = 3%nat.
Proof.
  pose proof (surjective_pairing (accumulate "/tmp/0003" "/tmp/out" 3 listing_world)) as Hrun.
  assert ((accumulate "/tmp/0003" "/tmp/out" 3 listing_world).1 = Returned 5) as Hfst
    by (vm_compute; reflexivity).
  rewrite Hfst in Hrun.
  destruct (accumulate_read_back "/tmp/0003" "/tmp/out" 3 5 listing_world
              (accumulate "/tmp/0003" "/tmp/out" 3 listing_world).2
              "7 1 1.00 1.00 2
7 1 2.00 1.00 2
7 2 3.00 3.00 2
"
              [ "1 1 0.00 0.00 0
"; "1 2 5.00 5.00 1
"; "1 3 6.00 5.00 1
" ] eq_refl) as (news & Hlines & Hrec).
  - discriminate.
  - split; [reflexivity |].
    constructor; [by exists "1 1 0.00 0.00 0" |].
    constructor; [by exists "1 2 5.00 5.00 1" |].
    constructor; [by exists "1 3 6.00 5.00 1" |]. constructor.
  - exact Hrun.
  - exists news. split; [exact Hlines |].
    apply Forall2_length in Hrec. rewrite <- Hrec. vm_compute. reflexivity.
Defined.

(** X12.  Two listings appended one after the other, the second under the
    counter the first returned, each with contour indices within 1 and its
    count: the counter ends at [C] plus both counts, and every contour
    index written for the first listing is at most [C] plus its count and
    below every contour index written for the second.  Contours of
    different slices never share an index. *)
Theorem slices_do_not_collide (tmp1 tmp2 file_out : string) (C C1 C2 n1 n2 : Z)
    (w w1 v v2 : World) (data1 data2 : string) :
  fs w !! (tmp1 +:+ ".txt") = Some (File data1) -> data1 <> "" ->
  listing_count data1 = Some n1 ->
  (forall line c, line ∈ Py.lines data1 -> contour_index line = Some c -> 1 <= c <= n1) ->
  accumulate tmp1 file_out C w = (Returned C1, w1) ->
  fs v !! (tmp2 +:+ ".txt") = Some (File data2) -> data2 <> "" ->
  listing_count data2 = Some n2 ->
  (forall line c, line ∈ Py.lines data2 -> contour_index line = Some c -> 1 <= c <= n2) ->
  accumulate tmp2 file_out C1 v = (Returned C2, v2) ->
  C2 = C + n1 + n2
  /\ exists news1 news2,
       text_at (fs w1) (file_out +:+ ".txt")
       = text_at (fs w) (file_out +:+ ".txt") +:+ concat_str news1
       /\ text_at (fs v2) (file_out +:+ ".txt")
          = text_at (fs v) (file_out +:+ ".txt") +:+ concat_str news2
       /\ Forall2 (record_of C) (Py.lines data1) news1
       /\ Forall2 (record_of C1) (Py.lines data2) news2
       /\ forall new1 new2 c1 c2,
            new1 ∈ news1 -> new2 ∈ news2 ->
            contour_index new1 = Some c1 -> contour_index new2 = Some c2 ->
            c1 <= C + n1 /\ C + n1 < c2.
Proof.
  intros Hd1 Hne1 Hn1 Hr1 Hrun1 Hd2 Hne2 Hn2 Hr2 Hrun2.
  destruct (accumulate_returned _ _ _ _ _ _ _ Hd1 Hne1 Hrun1)
    as (m1 & news1 & Hm1 & -> & -> & Hall1).
  destruct (accumulate_returned _ _ _ _ _ _ _ Hd2 Hne2 Hrun2)
    as (m2 & news2 & Hm2 & -> & -> & Hall2).
  assert (m1 = n1) as -> by congruence. assert (m2 = n2) as -> by congruence.
  split; [lia |]. exists news1, news2.
  split; [unfold written, text_at at 1; simpl; by rewrite lookup_insert_eq |].
  split; [unfold written, text_at at 1; simpl; by rewrite lookup_insert_eq |].
  split; [by apply new_lines_text in Hall1 as [? _] |].
  split; [by apply new_lines_text in Hall2 as [? _] |].
  intros new1 new2 c1 c2 Hin1 Hin2 Hc1 Hc2.
  apply list_elem_of_lookup in Hin1 as [i1 Hi1].
  apply list_elem_of_lookup in Hin2 as [i2 Hi2].
  destruct (Forall2_lookup_r _ _ _ _ _ Hall1 Hi1) as (line1 & Hl1 & Hnew1).
  destruct (Forall2_lookup_r _ _ _ _ _ Hall2 Hi2) as (line2 & Hl2 & Hnew2).
  destruct (new_line_fields _ _ _ Hnew1) as (d1 & _ & Hd1' & _ & _ & Hd1'').
  destruct (new_line_fields _ _ _ Hnew2) as (d2 & _ & Hd2' & _ & _ & Hd2'').
  assert (1 <= d1 <= n1) by (eapply Hr1; [by eapply list_elem_of_lookup_2 | done]).
  assert (1 <= d2 <= n2) by (eapply Hr2; [by eapply list_elem_of_lookup_2 | done]).
  rewrite Hc1 in Hd1''. rewrite Hc2 in Hd2''.
  injection Hd1'' as ->. injection Hd2'' as ->. lia.
Qed.

(** The same two contours appended twice, under the offsets 3 and then 5:
    indices 4, 5 and then 6, 7. *)
Lemma slices_do_not_collide_witness :
  exists news1 news2,
    Forall2 (record_of 3) (Py.lines "7 1 1.00 1.00 2
7 1 2.00 1.00 2
7 2 3.00 3.00 2
") news1
    /\ Forall2 (record_of 5) (Py.lines "7 1 1.00 1.00 2
7 1 2.00 1.00 2
7 2 3.00 3.00 2
") news2
    /\ forall new1 new2 c1 c2,
         new1 ∈ news1 -> new2 ∈ news2 ->
         contour_index new1 = Some c1 -> contour_index new2 = Some c2 ->
         c1 <= 3 + 2 /\ 3 + 2 < c2.
Proof.
  assert (accumulate "/tmp/0003" "/tmp/out" 3 listing_world = (Returned 5, appended_world))
    as Hrun1 by (vm_compute; reflexivity).
  pose proof (surjective_pairing (accumulate "/tmp/0003" "/tmp/out" 5 appended_world)) as Hrun2.
  assert ((accumulate "/tmp/0003" "/tmp/out" 5 appended_world).1 = Returned 7) as Hfst
    by (vm_compute; reflexivity).
  rewrite Hfst in Hrun2.
  destruct (slices_do_not_collide "/tmp/0003" "/tmp/0003" "/tmp/out" 3 5 7 2 2
              listing_world appended_world appended_world _ _ _
              eq_refl ltac:(discriminate) eq_refl listing_world_range Hrun1
              eq_refl ltac:(discriminate) eq_refl listing_world_range Hrun2)
    as (_ & news1 & news2 & _ & _ & Hrec1 & Hrec2 & Hsep).
  by exists news1, news2.
Defined.

(** ** The listing of a slice and the accumulated listing *)

Lemma str_head (z : Z) :
  exists c s, Py.str z = String c s /\ (c = "-"%char \/ is_Some (Ascii.is_nat c)).
Proof.
  unfold Py.str, pretty, pretty_Z. destruct z as [| p | p].
  - exists "0"%char, "". split; [done | right; by eexists].
  - destruct (unsigned_pretty_pos p) as (Hu & _ & _ & Hne).
    unfold pretty, pretty_positive.
    destruct (pretty (N.pos p)) as [| c s]; [done |].
    exists c, s. split; [done |]. right.
    unfold Py.unsigned in Hu. simpl in Hu.
    destruct (Ascii.is_nat c); [by eexists | done].
  - exists "-"%char, (pretty p). split; [done | by left].
Qed.

Lemma zfill_head (z : Z) :
  exists c s, Py.zfill 4 (Py.str z) = String c s
              /\ (c = "-"%char \/ is_Some (Ascii.is_nat c)).
Proof.
  destruct (str_head z) as (c & s & -> & [-> | [d Hd]]).
  - eexists _, _. split; [reflexivity | by left].
  - unfold Py.zfill.
    assert (match String c s with
            | String "-"%char s' =>
                String "-"%char (Py.zeros (4 - String.length (String c s)) +:+ s')
            | String "+"%char s' =>
                String "+"%char (Py.zeros (4 - String.length (String c s)) +:+ s')
            | _ => Py.zeros (4 - String.length (String c s)) +:+ String c s
            end = Py.zeros (4 - String.length (String c s)) +:+ String c s) as ->.
    { destruct c as [[] [] [] [] [] [] [] []]; try done. }
    destruct (4 - String.length (String c s))%nat as [| k].
    + exists c, s. split; [done | right; by eexists].
    + eexists "0"%char, _. split; [reflexivity | right; by eexists].
Qed.

(** X13.  The listing of slice [zi], [file_tmp + '.txt'], is never the
    accumulated listing [file_out + '.txt'], whatever [zi] and the temporary
    directory.  So when the block of lines 277-292 returns in the loop, the
    listing of the slice is gone and the accumulated listing is what it was
    followed by what was appended: the final [os.remove] cannot delete it. *)
Theorem slice_listing_is_not_accumulator (path_tmp : string) (zi : Z) :
  let file_tmp := Py.path_join path_tmp (Py.zfill 4 (Py.str zi)) in
  let file_out := Py.path_join path_tmp "out" in
  file_tmp +:+ ".txt" <> file_out +:+ ".txt"
  /\ forall (C : Z) (w w' : World) (r : string * Z),
       append_listing path_tmp file_tmp C w = (Returned r, w') ->
       r.1 = file_out
       /\ fs w' !! (file_tmp +:+ ".txt") = None
       /\ exists news,
            text_at (fs w') (file_out +:+ ".txt")
            = text_at (fs w) (file_out +:+ ".txt") +:+ concat_str news.
Proof.
  intros file_tmp file_out.
  assert (file_tmp +:+ ".txt" <> file_out +:+ ".txt") as Hdiff.
  { unfold file_tmp, file_out.
    destruct (zfill_head zi) as (c & s & -> & Hc).
    rewrite (path_join_rel path_tmp c s), (path_join_rel path_tmp "o" "ut");
      [| done | by destruct Hc as [-> | [d Hd]]; [| intros ->]].
    rewrite !append_assoc. intros E. apply (inj (String.app _)) in E.
    injection E as -> _. by destruct Hc as [? | [d Hd]]. }
  split; [done |].
  intros C w w' r Hrun. unfold append_listing in Hrun. fold file_out in Hrun.
  apply bind_inv in Hrun as (C1 & w1 & Hacc & Hrest).
  apply bind_inv in Hrest as ([] & w2 & Hrem & Hret). injection Hret as <- <-.
  split; [done |].
  unfold remove in Hrem.
  destruct (fs w1 !! (file_tmp +:+ ".txt")) as [[| data1] |] eqn:Htmp1; try done.
  injection Hrem as <-. simpl.
  split; [apply lookup_delete_eq |].
  assert (exists news,
            text_at (fs w1) (file_out +:+ ".txt")
            = text_at (fs w) (file_out +:+ ".txt") +:+ concat_str news) as [news Hnews].
  { destruct (fs w !! (file_tmp +:+ ".txt")) as [[| data] |] eqn:Hdata.
    - rewrite accumulate_missing in Hacc by (intros d; congruence). done.
    - destruct (decide (data = "")) as [-> | Hne].
      + rewrite accumulate_empty in Hacc by done. injection Hacc as _ <-.
        exists []. simpl. by rewrite append_nil_r.
      + destruct (accumulate_returned _ _ _ _ _ _ _ Hdata Hne Hacc)
          as (n & news & _ & _ & -> & _).
        exists news. unfold written, text_at at 1. simpl. by rewrite lookup_insert_eq.
    - rewrite accumulate_missing in Hacc by (intros d; congruence). done. }
  exists news. rewrite <- Hnews. unfold text_at.
  by rewrite lookup_delete_ne.
Qed.

Lemma slice_listing_is_not_accumulator_witness :
  exists news,
    text_at (fs (append_listing "/tmp" "/tmp/0003" 3 listing_world).2) "/tmp/out.txt"
    = text_at (fs listing_world) "/tmp/out.txt" +:+ concat_str news.
Proof.
  destruct (slice_listing_is_not_accumulator "/tmp" 3) as [_ Hblock].
  pose proof (surjective_pairing (append_listing "/tmp" "/tmp/0003" 3 listing_world)) as Hrun.
  assert ((append_listing "/tmp" "/tmp/0003" 3 listing_world).1 = Returned ("/tmp/out", 5))
    as Hfst by (vm_compute; reflexivity).
  rewrite Hfst in Hrun.
  destruct (Hblock 3 listing_world _ _ Hrun) as (_ & _ & news & Hnews).
  by exists news.
Defined.

(** ** Post-processing that cannot be done *)

Section PostprocessFails.
Context `{Toolchain}.

(** X14.  Post-processing ends on an exception, leaving the world as it
    was (nothing printed, nothing written), (1) with [IOError] when the
    assembled model [file_out + '.mod'] is not there, as after a failed
    [point2model], and (2) with [ValueError] when the model is read but the
    value given to [--filterByNContours] is not an integer. *)
Theorem postprocess_fails_cleanly (opts : Options) (file_out : string) (w : World) :
  ((forall data, fs w !! (file_out +:+ ".mod") <> Some (File data)) ->
   postprocess opts file_out w = (Raised Py.IOError, w))
  /\ (forall data mdl s,
        fs w !! (file_out +:+ ".mod") = Some (File data) ->
        ImodModel_parse data = Some mdl ->
        filterByNContours opts = Given s ->
        s <> "" ->
        int_of_optval (Given s) = None ->
        postprocess opts file_out w = (Raised Py.ValueError, w)).
Proof.
  split.
  - intros Hno. unfold postprocess. apply bind_raised.
    unfold ImodModel_load. apply bind_raised. unfold read_file.
    destruct (fs w !! (file_out +:+ ".mod")) as [[| data] |] eqn:E; try done.
    by destruct (Hno data).
  - intros data mdl s Hdata Hparse Hopt Hne Hint. unfold postprocess.
    assert (ImodModel_load (file_out +:+ ".mod") w = (Returned mdl, w)) as Hload.
    { unfold ImodModel_load, read_file, mbind, M_bind. by rewrite Hdata, Hparse. }
    rewrite (bind_returned _ _ _ _ _ Hload). apply bind_raised.
    unfold filter_objects. rewrite Hopt. unfold truthy.
    rewrite (bool_decide_eq_false_2 _ Hne). change (negb false) with true. cbv iota.
    apply bind_raised. by rewrite Hint.
Qed.

End PostprocessFails.

Lemma postprocess_fails_cleanly_witness :
  postprocess (H := Demo.toolchain) Demo.postprocessing_options (out_base "/data/out")
    Demo.world = (Raised Py.IOError, Demo.world)
  /\ postprocess (H := Demo.toolchain) bad_threshold_options (out_base "/data/out")
       Demo.assembled_world = (Raised Py.ValueError, Demo.assembled_world).
Proof.
  split.
  - apply (postprocess_fails_cleanly (H := Demo.toolchain)). intros data. discriminate.
  - apply (proj2 (postprocess_fails_cleanly (H := Demo.toolchain) bad_threshold_options
                    (out_base "/data/out") Demo.assembled_world)
             "assembled" Demo.assembled "two"); try reflexivity. discriminate.
Defined.

(** ** A cell without contours *)

Section EmptyCell.
Context `{Toolchain}.

(** X15.  An invocation that passes the validation, without
    [--runImodfillin], on a model with at least one object whose first
    object has no contour left once small contours are removed and the rest
    sorted: the script ends on [IndexError] at line 187.  It has printed the
    four lines of the loading; no external command was run; the one change
    to the file system is the directory [tmp], which is left behind. *)
Theorem main_cell_without_contours (opts : Options) (file_mrc file_mod path_seg data : string)
    (w : World) (mdl : ImodModel) (o0 o1 : ImodObject) (os0 os1 : list ImodObject) :
  is_file (fs w) file_mrc = true ->
  is_dir (fs w) path_seg = true ->
  is_dir (fs w) (resolved_out opts w) = true ->
  fs w !! Py.path_join (resolved_out opts w) "tmp" = None ->
  fs w !! file_mod = Some (File data) ->
  ImodModel_parse data = Some mdl ->
  runImodfillin opts = false ->
  Objects mdl = o0 :: os0 ->
  Objects (removeSmallContours mdl) = o1 :: os1 ->
  Contours (sortContours o1) = [] ->
  main opts [file_mrc; file_mod; path_seg] w
  = (Raised Py.IndexError,
     with_fs (say w ["Loading IMOD model file " +:+ file_mod;
                     "Removing small contours and reordering...";
                     "# Contours before: " +:+ Py.str (nContours o0);
                     "# Contours after: 0"])
       (<[Py.path_join (resolved_out opts w) "tmp" := Dir]> (fs w))).
Proof.
  intros Hmrc Hseg Hout Htmp Hmod Hparse Hfill Hobj0 Hobj1 Hsorted.
  assert (is_file (fs w) file_mod = true) as Hmodf by (unfold is_file; by rewrite Hmod).
  unfold main.
  rewrite (bind_returned _ _ _ _ _ (check_args_accepts _ _ _ _ Hmrc Hmodf Hseg)).
  rewrite (bind_returned _ _ _ _ _ (output_dirs_makes_tmp opts w Hout Htmp)).
  set (tmp := Py.path_join (resolved_out opts w) "tmp").
  set (w1 := with_fs w (<[tmp := Dir]> (fs w))).
  assert (fs w1 !! file_mod = Some (File data)) as Hmod1.
  { unfold w1. simpl. rewrite lookup_insert_ne; [done |]. intros E.
    unfold tmp in E. rewrite E in Htmp. congruence. }
  set (mdl2 := {| Objects := <[0%nat := sortContours o1]> (Objects (removeSmallContours mdl)) |}).
  assert (Objects mdl2 = sortContours o1 :: os1) as Hobj2 by (unfold mdl2; by rewrite Hobj1).
  assert (load_cell opts file_mod w1
          = (Returned mdl2,
             say w1 ["Loading IMOD model file " +:+ file_mod;
                     "Removing small contours and reordering...";
                     "# Contours before: " +:+ Py.str (nContours o0);
                     "# Contours after: 0"])) as Hload.
  { unfold load_cell. rewrite Hfill.
    erewrite bind_returned; [| apply print_say].
    assert (ImodModel_load file_mod (say w1 ["Loading IMOD model file " +:+ file_mod])
            = (Returned mdl, say w1 ["Loading IMOD model file " +:+ file_mod])) as Hl.
    { unfold ImodModel_load, read_file, mbind, M_bind. simpl.
      fold tmp. by rewrite lookup_insert_ne, Hmod, Hparse
        by (intros E; unfold tmp in E; rewrite E in Htmp; congruence). }
    rewrite (bind_returned _ _ _ _ _ Hl).
    erewrite bind_returned; [| reflexivity].
    erewrite bind_returned; [| apply print_say].
    unfold print_nContours.
    erewrite bind_returned;
      [| rewrite (bind_returned _ _ _ _ _ (object0_head _ _ _ _ Hobj0)); apply print_say].
    rewrite (bind_returned _ _ _ _ _ (object0_head _ _ _ _ Hobj1)).
    fold mdl2.
    erewrite bind_returned;
      [| rewrite (bind_returned _ _ _ _ _ (object0_head _ _ _ _ Hobj2)); apply print_say].
    unfold nContours. rewrite Hsorted. simpl.
    unfold mret, M_ret. by rewrite !say_say. }
  rewrite (bind_returned _ _ _ _ _ Hload).
  apply bind_raised. unfold build_zlist.
  rewrite (bind_returned _ _ _ _ _ (object0_head _ _ _ _ Hobj2)).
  rewrite Hsorted. by apply bind_raised.
Qed.

End EmptyCell.

Lemma main_cell_without_contours_witness :
  (main (H := pruning_toolchain) Demo.options Demo.arguments Demo.world).1
  = Raised Py.IndexError.
Proof.
  exact (f_equal fst
           (main_cell_without_contours (H := pruning_toolchain) Demo.options
              "/data/vol.mrc" "/data/cell.mod" "/data/seg" "cell" Demo.world Demo.cell
              _ _ _ _ eq_refl eq_refl eq_refl eq_refl eq_refl eq_refl eq_refl eq_refl
              eq_refl eq_refl)).
Defined.

(** ** The positional arguments and the directory listing *)

Section Arguments.
Context `{Toolchain}.

(** X16.  [check_args] never raises: on any argument list and any file
    system it either returns the three arguments, which are then exactly
    the list, a file, a file and a directory, with the world untouched, or
    exits with status 1 after the usage message.  The look-ups [args[0]],
    [args[1]], [args[2]] are never out of range. *)
Theorem check_args_returns_or_exits (args : list string) (w : World) :
  (exists file_mrc file_mod path_seg,
     args = [file_mrc; file_mod; path_seg]
     /\ is_file (fs w) file_mrc = true
     /\ is_file (fs w) file_mod = true
     /\ is_dir (fs w) path_seg = true
     /\ check_args args w = (Returned (file_mrc, file_mod, path_seg), w))
  \/ (exists errstr,
        check_args args w
        = (Exited 1, say w [""; help_text; ""; "ERROR: " +:+ errstr; ""])).
Proof.
  destruct (match args with
            | [file_mrc; file_mod; path_seg] =>
                if negb (is_file (fs w) file_mrc)
                then Some (file_mrc +:+ " is not a valid file.")
                else if negb (is_file (fs w) file_mod)
                     then Some (file_mod +:+ " is not a valid file.")
                     else if negb (is_dir (fs w) path_seg)
                          then Some ("The path " +:+ path_seg +:+ " does not exist")
                          else None
            | _ => Some "Improper number of arguments."
            end) as [errstr |] eqn:Hrej.
  - right. exists errstr. by apply check_args_rejects.
  - left. destruct args as [| a [| b [| c [| d args]]]]; try done.
    destruct (is_file (fs w) a) eqn:Ha; [| done].
    destruct (is_file (fs w) b) eqn:Hb; [| done].
    destruct (is_dir (fs w) c) eqn:Hc; [| done].
    exists a, b, c. repeat (split; [done |]). by apply check_args_accepts.
Qed.

End Arguments.

Lemma insert_sorted_perm (x : string) (l : list string) : Py.insert_sorted x l ≡ₚ x :: l.
Proof.
  induction l as [| y l IH]; simpl; [done |].
  destruct (String.leb x y); [done |].
  rewrite IH. apply Permutation_swap.
Qed.

Lemma sorted_perm (l : list string) : Py.sorted l ≡ₚ l.
Proof.
  induction l as [| x l IH]; simpl; [done |].
  by rewrite insert_sorted_perm, IH.
Qed.

Lemma sorted_lookup (l : list string) :
  StronglySorted (fun a b => String.leb a b = true) l ->
  forall i j f g,
    (i < j)%nat -> l !! i = Some f -> l !! j = Some g -> String.leb f g = true.
Proof.
  induction 1 as [| x l Hs IH Hall]; intros i j f g Hij Hi Hj; [done |].
  destruct j as [| j]; [lia |]. simpl in Hj.
  destruct i as [| i].
  - injection Hi as <-. eapply Forall_forall in Hall; [exact Hall |].
    by eapply list_elem_of_lookup_2.
  - simpl in Hi. eapply (IH i j); [lia | done | done].
Qed.

Section Listing.
Context `{Toolchain}.

(** X17.  The list of segmentation files of line 212 holds the entries
    [glob] found, each as often as [glob] gave it, in ascending order of
    byte-wise string comparison; building it changes nothing in the world.
    Slice [zi] with [1 <= zi] at most the number of entries therefore reads an
    entry that none of the entries before it in the list exceeds. *)
Theorem list_segmentations_sorted (path_seg : string) (w : World) :
  exists filesOrg,
    list_segmentations path_seg w = (Returned filesOrg, w)
    /\ filesOrg ≡ₚ glob (fs w) (Py.path_join path_seg "*")
    /\ StronglySorted (fun a b => String.leb a b = true) filesOrg
    /\ forall i j f g,
         (i <= j)%nat -> filesOrg !! i = Some f -> filesOrg !! j = Some g ->
         String.leb f g = true.
Proof.
  eexists. split; [reflexivity |].
  split; [apply sorted_perm |]. split; [apply sorted_sorted |].
  intros i j f g Hij Hi Hj.
  destruct (decide (i = j)) as [-> | Hne].
  - rewrite Hi in Hj. injection Hj as ->. apply leb_refl.
  - eapply (sorted_lookup _ (sorted_sorted _) i j); [lia | done | done].
Qed.

End Listing.

Lemma list_segmentations_sorted_witness :
  exists filesOrg,
    list_segmentations (H := Demo.toolchain) "/data/seg" Demo.world
    = (Returned filesOrg, Demo.world)
    /\ filesOrg ≡ₚ Demo.matches Demo.files "/data/seg/*".
Proof.
  destruct (list_segmentations_sorted (H := Demo.toolchain) "/data/seg" Demo.world)
    as (filesOrg & Hrun & Hperm & _).
  exists filesOrg. split; [exact Hrun | exact Hperm].
Defined.
